(** * beeper-cli: the conversation classification and search engine

    A shallow embedding of [internal/beeper] (store.go, bridge.go,
    message_text.go, types.go) and the properties the specification states
    about it.

    Conventions of the embedding.
    - Go [string]s are Rocq [string]s (sequences of bytes, UTF-8 where they
      hold text).  [strings.TrimSpace] trims the white-space runes of
      [unicode.IsSpace] in their UTF-8 encodings.  [strings.ToLower],
      [strings.ToUpper] and [strings.EqualFold] are written out for strings
      of ASCII bytes; for a string with a byte outside ASCII they are what
      the tables of package [unicode] make them, a parameter of the
      development ([UnicodeTables]).
    - Go [int], [int64] and [time.Duration] are [Z]; where the source can
      leave the 64-bit range the wrap-around is written out ([wrap64]).
    - [time.Time] is the number of nanoseconds since the Unix epoch; the zero
      [time.Time{}] is January 1, year 1.
    - [sql.NullString] and [sql.NullInt64], as filled by [rows.Scan], are
      [option string] and [option Z].
    - The SQLite database is a typed snapshot of its tables; every SQL text
      of the source is translated to the list function it denotes, [ORDER BY]
      to a stable sort.  A statement either yields its rows or fails with the
      error the snapshot assigns to it ([fault]).  What the engine itself
      decides, the operator [LIKE] and the full-text [MATCH], is part of the
      snapshot ([like], [fts_match]).
    - What belongs to other packages (encoding/json, strconv.ParseFloat, the
      iteration order of a Go map, the wall clock) is a [Variable] of the
      section, and so is the helper [jsonUnmarshalStrings] of the package. *)

From Stdlib Require Import ZArith QArith Ascii String List Bool Lia Permutation Sorted.
From stdpp Require Import base option list strings gmap pretty.

Set Warnings "-register-all,-clear-no-such-hyp".

Local Open Scope string_scope.
Local Open Scope Z_scope.

(** ** Package [strings] and [strconv] *)

Module GoStrings.

Definition byte_of (c : ascii) : Z := Z.of_N (N_of_ascii c).

(** The UTF-8 encodings of the runes for which [unicode.IsSpace] holds:
    tab, line feed, vertical tab, form feed, carriage return, space, U+0085,
    U+00A0, U+1680, U+2000 to U+200A, U+2028, U+2029, U+202F, U+205F and
    U+3000. *)
Definition bytes (l : list nat) : list ascii := map ascii_of_nat l.

Definition spaceRunes : list (list ascii) :=
  map bytes
    [[9]; [10]; [11]; [12]; [13]; [32];
     [194; 133]; [194; 160];
     [225; 154; 128];
     [226; 128; 128]; [226; 128; 129]; [226; 128; 130]; [226; 128; 131];
     [226; 128; 132]; [226; 128; 133]; [226; 128; 134]; [226; 128; 135];
     [226; 128; 136]; [226; 128; 137]; [226; 128; 138];
     [226; 128; 168]; [226; 128; 169]; [226; 128; 175];
     [226; 129; 159];
     [227; 128; 128]]%nat.

(** [l] without the leading bytes [p], when it starts with them. *)
Fixpoint stripPrefix (p l : list ascii) : option (list ascii) :=
  match p, l with
  | [], _ => Some l
  | a :: p', b :: l' => if Ascii.eqb a b then stripPrefix p' l' else None
  | _ :: _, [] => None
  end.

Fixpoint stripAny (ps : list (list ascii)) (l : list ascii) : option (list ascii) :=
  match ps with
  | [] => None
  | p :: ps' =>
      match stripPrefix p l with
      | Some rest => Some rest
      | None => stripAny ps' l
      end
  end.

(** Drop leading runes of [ps] as long as there is one; [fuel] bounds the
    number of runes dropped. *)
Fixpoint trimLeftWith (ps : list (list ascii)) (fuel : nat) (l : list ascii) : list ascii :=
  match fuel with
  | O => l
  | S n =>
      match stripAny ps l with
      | Some rest => trimLeftWith ps n rest
      | None => l
      end
  end.

(** [strings.TrimLeftFunc]: the runes are decoded from the front. *)
Definition trimLeftRunes (ps : list (list ascii)) (l : list ascii) : list ascii :=
  trimLeftWith ps (length l) l.

(** [strings.TrimRightFunc]: the runes are decoded from the back
    ([utf8.DecodeLastRuneInString]), so the text ends with a rune of [ps]
    exactly when its bytes end with the encoding of one. *)
Definition trimRightRunes (ps : list (list ascii)) (l : list ascii) : list ascii :=
  rev (trimLeftRunes (map (@rev ascii) ps) (rev l)).

(** [strings.TrimSpace]: [TrimFunc(s, unicode.IsSpace)], that is
    [TrimRightFunc(TrimLeftFunc(s, f), f)]. *)
Definition TrimSpace (s : string) : string :=
  string_of_list_ascii
    (trimRightRunes spaceRunes (trimLeftRunes spaceRunes (list_ascii_of_string s))).

Definition isBlank (s : string) : bool := String.eqb (TrimSpace s) "".

Definition lowerByte (c : ascii) : ascii :=
  let n := byte_of c in
  if (65 <=? n) && (n <=? 90) then ascii_of_N (Z.to_N (n + 32)) else c.

Definition upperByte (c : ascii) : ascii :=
  let n := byte_of c in
  if (97 <=? n) && (n <=? 122) then ascii_of_N (Z.to_N (n - 32)) else c.

Fixpoint mapBytes (f : ascii -> ascii) (s : string) : string :=
  match s with
  | EmptyString => EmptyString
  | String c s' => String (f c) (mapBytes f s')
  end.

(** No byte of [s] is [utf8.RuneSelf] (0x80) or above. *)
Definition isASCII (s : string) : bool :=
  forallb (fun c => byte_of c <? 128) (list_ascii_of_string s).

(** What the tables of package [unicode] decide, for a string with a byte
    outside ASCII: [strings.Map(unicode.ToLower, s)],
    [strings.Map(unicode.ToUpper, s)], and whether two strings are equal
    under simple case folding, rune by rune. *)
Class UnicodeTables := {
  mapToLower : string -> string;
  mapToUpper : string -> string;
  equalFoldRunes : string -> string -> bool
}.

(** [strings.ToLower]: the loop over the bytes for an ASCII string, the
    mapping of the runes otherwise. *)
Definition ToLower {U : UnicodeTables} (s : string) : string :=
  if isASCII s then mapBytes lowerByte s else mapToLower s.

Definition ToUpper {U : UnicodeTables} (s : string) : string :=
  if isASCII s then mapBytes upperByte s else mapToUpper s.

(** [strings.EqualFold]: on ASCII strings, equal lengths and bytes that are
    equal or an upper-case letter and its lower-case form. *)
Definition EqualFold {U : UnicodeTables} (s t : string) : bool :=
  if isASCII s && isASCII t
  then String.eqb (mapBytes lowerByte s) (mapBytes lowerByte t)
  else equalFoldRunes s t.

(** An ASCII byte that is not white space. *)
Definition plainByte (c : ascii) : bool :=
  let n := byte_of c in (n <? 128) && negb (((9 <=? n) && (n <=? 13)) || (n =? 32)).

Definition HasPrefix (s p : string) : bool := String.prefix p s.

Definition TrimPrefix (s p : string) : string :=
  if HasPrefix s p then String.substring (String.length p) (String.length s - String.length p) s
  else s.

(** [s[n:]] *)
Fixpoint sliceFrom (n : nat) (s : string) : string :=
  match n, s with
  | O, _ => s
  | S n', String _ s' => sliceFrom n' s'
  | S _, EmptyString => EmptyString
  end.

Fixpoint Contains (s sub : string) : bool :=
  String.prefix sub s ||
  match s with
  | EmptyString => false
  | String _ s' => Contains s' sub
  end.

Fixpoint Join (l : list string) (sep : string) : string :=
  match l with
  | [] => ""
  | [x] => x
  | x :: rest => x +:+ sep +:+ Join rest sep
  end.

Definition digitVal (c : ascii) : option Z :=
  let n := byte_of c in
  if (48 <=? n) && (n <=? 57) then Some (n - 48) else None.

Fixpoint parseDigits (acc : Z) (s : string) : option Z :=
  match s with
  | EmptyString => Some acc
  | String c s' =>
      match digitVal c with
      | Some d => parseDigits (acc * 10 + d) s'
      | None => None
      end
  end.

Definition minInt64 : Z := - 2 ^ 63.
Definition maxInt64 : Z := 2 ^ 63 - 1.

(** [strconv.ParseInt(s, 10, 64)]: an optional sign, then one or more
    decimal digits; a value outside int64 is an error. *)
Definition ParseInt (s : string) : option Z :=
  match s with
  | EmptyString => None
  | String c s' =>
      let '(neg, body) :=
        if Ascii.eqb c "+" then (false, s')
        else if Ascii.eqb c "-" then (true, s')
        else (false, s) in
      match body with
      | EmptyString => None
      | _ =>
          match parseDigits 0 body with
          | Some n =>
              let v := if neg then - n else n in
              if (minInt64 <=? v) && (v <=? maxInt64) then Some v else None
          | None => None
          end
      end
  end.

(** int64 wrap-around. *)
Definition wrap64 (z : Z) : Z := (z + 2 ^ 63) mod 2 ^ 64 - 2 ^ 63.

End GoStrings.
Import GoStrings.

(** ** Package [time] *)

Module GoTime.

(** Nanoseconds since January 1, 1970 UTC. *)
Definition Time := Z.
Definition Duration := Z.

Definition Hour : Duration := 3600 * 10 ^ 9.

(** [time.Time{}]: January 1, year 1, 00:00:00 UTC. *)
Definition zero : Time := - 62135596800 * 10 ^ 9.

(** [time.UnixMilli(ms)] *)
Definition FromUnixMilli (ms : Z) : Time := ms * 10 ^ 6.

(** [t.UnixMilli()]: whole milliseconds, rounded down, as an int64. *)
Definition UnixMilli (t : Time) : Z := wrap64 (t / 10 ^ 6).

Definition Add (t : Time) (d : Duration) : Time := t + d.

(** [-d] for a Duration. *)
Definition Neg (d : Duration) : Duration := wrap64 (- d).

Definition After (t u : Time) : bool := u <? t.

End GoTime.

(** ** types.go *)

Definition defaultLimit : Z := 50.
Definition defaultContextWindow : GoTime.Duration := GoTime.Hour.

(** [MessageFormat] is a string type; every value other than ["plain"] takes
    the rich path of [ResolveMessageText]. *)
Definition MessageFormat := string.
Definition FormatPlain : MessageFormat := "plain".
Definition FormatRich : MessageFormat := "rich".

(** A Go [error], identified with its message [err.Error()]. *)
Definition error := string.

(** A Go result pair [(T, error)]. *)
Inductive Result (A : Type) : Type :=
| Ok (a : A)
| Err (e : error).
Arguments Ok {A} a.
Arguments Err {A} e.

Definition bindR {A B : Type} (r : Result A) (k : A -> Result B) : Result B :=
  match r with
  | Ok a => k a
  | Err e => Err e
  end.

(** [ThreadLabel] is a string type; the CLI passes the flag through as is. *)
Definition ThreadLabel := string.
Definition LabelAll : ThreadLabel := "all".
Definition LabelInbox : ThreadLabel := "inbox".
Definition LabelArchive : ThreadLabel := "archive".
Definition LabelFavourite : ThreadLabel := "favourite".
Definition LabelUnread : ThreadLabel := "unread".

Record Participant := mkParticipant {
  p_ID : string;
  p_Name : string;
  p_IsSelf : bool
}.

Record Thread := mkThread {
  ID : string;
  AccountID : string;
  Title : string;
  Name : string;
  Type_ : string;
  DisplayName : string;
  LastActivity : GoTime.Time;
  LastMessage : GoTime.Time;
  LastOpen : GoTime.Time;
  IsUnread : bool;
  IsMarkedUnread : bool;
  IsLowPriority : bool;
  IsArchived : bool;
  UnreadCount : Z;
  UnreadMentions : Z;
  TotalMessages : Z;
  Tags : list string;
  Participants : list Participant
}.

(** [Thread{}] *)
Definition emptyThread : Thread :=
  mkThread "" "" "" "" "" "" GoTime.zero GoTime.zero GoTime.zero
           false false false false 0 0 0 [] [].

Module Message.
Record t := mk {
  ID : Z;
  EventID : string;
  ThreadID : string;
  ThreadName : string;
  AccountID : string;
  SenderID : string;
  SenderName : string;
  Timestamp : GoTime.Time;
  IsSentByMe : bool;
  Type_ : string;
  Text : string;
  (** [float64]; only the fixed value zero and the order of ranks matter. *)
  Score : Q
}.
End Message.
Abbreviation Message := Message.t.

Record SearchResult := mkSearchResult {
  Match : Message;
  Context : list Message
}.

Record ThreadListOptions := mkThreadListOptions {
  tl_Days : Z;
  tl_Limit : Z;
  tl_AccountID : string;
  tl_Label : ThreadLabel;
  tl_IncludeLowPriority : bool;
  tl_WithParticipants : bool;
  tl_WithStats : bool
}.

Record SearchOptions := mkSearchOptions {
  so_Query : string;
  so_ThreadID : string;
  so_Days : Z;
  so_Limit : Z;
  so_AccountID : string;
  so_Context : Z;
  so_Window : GoTime.Duration;
  so_Format : MessageFormat
}.

(** ** store.go: the classification engine *)

Section Classification.

Context {U : UnicodeTables}.

(** [strconv.ParseFloat(raw, 64)] followed by the conversion [int64(parsed)]:
    [None] when ParseFloat reports an error. *)
Variable parseFloatInt64 : string -> option Z.

Definition parseArchivedValue (value : option string) : option Z :=
  match value with
  | None => None
  | Some str =>
      let raw := TrimSpace str in
      if String.eqb raw "" then None
      else
        let lower := ToLower raw in
        let raw := if HasPrefix lower "ts" then sliceFrom 2 raw else raw in
        if String.eqb raw "" then None
        else
          match ParseInt raw with
          | Some parsed => Some parsed
          | None => parseFloatInt64 raw
          end
  end.

Definition computeArchived
    (archivedUpto archivedUpToOrder : option string)
    (latestHsOrder lastMessage : option Z) : bool :=
  match parseArchivedValue archivedUpToOrder, latestHsOrder with
  | Some order, Some latest => latest <=? order
  | _, _ =>
      match parseArchivedValue archivedUpto with
      | Some ts =>
          if 1000000000000 <? ts then
            match lastMessage with
            | Some lm => lm <=? ts
            | None => true
            end
          else
            match latestHsOrder with
            | Some latest => latest <=? ts
            | None => true
            end
      | None =>
          match archivedUpto with
          | Some str => negb (String.eqb (TrimSpace str) "")
          | None => false
          end
      end
  end.

End Classification.

Definition containsTag {U : UnicodeTables} (tags : list string) (target : string) : bool :=
  existsb (fun tag => EqualFold tag target) tags.

Definition shouldIncludeThread {U : UnicodeTables}
    (label : ThreadLabel) (thread : Thread) (archived includeLowPriority : bool) : bool :=
  if negb includeLowPriority && IsLowPriority thread then false
  else if String.eqb label LabelInbox then
    if containsTag (Tags thread) "favourite" then true
    else if archived then false
    else true
  else if String.eqb label LabelArchive then
    if negb archived then false
    else if containsTag (Tags thread) "favourite" then false
    else true
  else if String.eqb label LabelFavourite then containsTag (Tags thread) "favourite"
  else if String.eqb label LabelUnread then IsUnread thread || IsMarkedUnread thread
  else if String.eqb label LabelAll then true
  else true.

(** ** bridge.go: the name resolver *)

(** A platform bridge store ([megabridge.db]): table [portal]
    (mxid, other_user_id) and table [ghost] (id, name), in row order.
    [None] stands for a table the store does not have. *)
Record BridgeDB := mkBridgeDB {
  portal : option (list (string * option string));
  ghost : option (list (string * option string))
}.

Record BridgeLookup := mkBridgeLookup {
  platformDBs : gmap string string;
  cache : gmap string string
}.

(** The mutable part of a session: the [*BridgeLookup] the store points to
    ([None] is the nil pointer) and the log of the store files opened so far,
    newest first. *)
Record Session := mkSession {
  bridge : option BridgeLookup;
  opened : list string
}.

Definition normalizePlatform {U : UnicodeTables} (platform : string) : string :=
  TrimPrefix (ToLower (TrimSpace platform)) "local-".

(** One entry of [os.ReadDir(root)]: its name and [entry.IsDir()]. *)
Record DirEntry := mkDirEntry {
  de_name : string;
  de_isDir : bool
}.

Section Discovery.

Context {U : UnicodeTables}.

(** The file system as [NewBridgeLookup] sees it: [filepath.Dir],
    [filepath.Join], [os.ReadDir], and whether [os.Stat] reports no error. *)
Variable filepathDir : string -> string.
Variable filepathJoin : list string -> string.
Variable readDir : string -> Result (list DirEntry).
Variable statOk : string -> bool.

Definition NewBridgeLookup (indexDBPath overrideRoot : string) : Result BridgeLookup :=
  let root := if String.eqb overrideRoot "" then filepathDir indexDBPath else overrideRoot in
  bindR (readDir root) (fun entries =>
    Ok (mkBridgeLookup
          (fold_left
             (fun (m : gmap string string) entry =>
                if negb (de_isDir entry) then m
                else
                  let name := de_name entry in
                  if negb (HasPrefix name "local-") then m
                  else
                    let path := filepathJoin [root; name; "megabridge.db"] in
                    if negb (statOk path) then m
                    else <[normalizePlatform name := path]> m)
             entries ∅)
          ∅)).

End Discovery.

Section Bridge.

Context {U : UnicodeTables}.

(** The store files on disk, by path. *)
Variable bridgeFiles : gmap string BridgeDB.

(** The order in which [for _, path := range b.platformDBs] yields the values
    of the map; Go leaves it unspecified. *)
Variable rangeValues : gmap string string -> list string.

(** The SQL part of [queryBridgeName]: the two [LIMIT 1] lookups. *)
Definition queryBridgeName (dbPath roomID : string) : Result (string * bool) :=
  match bridgeFiles !! dbPath with
  | None => Err "unable to open database file"
  | Some store =>
      match portal store with
      | None => Err "no such table: portal"
      | Some rows =>
          match List.find (fun r => String.eqb (fst r) roomID && bool_decide (is_Some (snd r))) rows with
          | Some (_, Some otherUser) =>
              match ghost store with
              | None => Err "no such table: ghost"
              | Some ghosts =>
                  match List.find
                          (fun g => String.eqb (fst g) otherUser &&
                                    match snd g with
                                    | Some n => negb (String.eqb n "")
                                    | None => false
                                    end) ghosts with
                  | Some (_, Some name) =>
                      let name := TrimSpace name in
                      if String.eqb name "" then Ok ("", false) else Ok (name, true)
                  | _ => Ok ("", false)
                  end
              end
          | _ => Ok ("", false)
          end
      end
  end.

(** The loop over all platform stores: the first store that yields a name
    wins, an error stops the loop.  Returns the files opened, newest first. *)
Fixpoint lookupAll (paths : list string) (roomID : string) (log : list string)
  : Result (option string) * list string :=
  match paths with
  | [] => (Ok None, log)
  | path :: rest =>
      match queryBridgeName path roomID with
      | Err e => (Err e, path :: log)
      | Ok (name, true) => (Ok (Some name), path :: log)
      | Ok (_, false) => lookupAll rest roomID (path :: log)
      end
  end.

Definition setCache (b : BridgeLookup) (roomID name : string) : BridgeLookup :=
  mkBridgeLookup (platformDBs b) (<[roomID := name]> (cache b)).

Definition LookupDMName (roomID accountID : string) (s : Session)
  : Result (string * bool) * Session :=
  match bridge s with
  | None => (Ok ("", false), s)
  | Some b =>
      if bool_decide (size (platformDBs b) = 0%nat) then (Ok ("", false), s)
      else
        match cache b !! roomID with
        | Some cached =>
            if String.eqb cached "" then (Ok ("", false), s) else (Ok (cached, true), s)
        | None =>
            let candidate :=
              if String.eqb accountID "" then ""
              else default "" (platformDBs b !! normalizePlatform accountID) in
            if negb (String.eqb candidate "") then
              match queryBridgeName candidate roomID with
              | Err e => (Err e, mkSession (Some b) (candidate :: opened s))
              | Ok (name, ok) =>
                  (Ok (name, ok),
                   mkSession (Some (setCache b roomID name)) (candidate :: opened s))
              end
            else
              match lookupAll (rangeValues (platformDBs b)) roomID (opened s) with
              | (Err e, log) => (Err e, mkSession (Some b) log)
              | (Ok (Some name), log) =>
                  (Ok (name, true), mkSession (Some (setCache b roomID name)) log)
              | (Ok None, log) =>
                  (Ok ("", false), mkSession (Some (setCache b roomID "")) log)
              end
        end
  end.

End Bridge.

(** ** message_text.go: the text renderer *)

(** A document decoded by [json.Unmarshal] into [any]. *)
Inductive JSON :=
| JNull
| JBool (b : bool)
| JNumber (literal : string)
| JString (s : string)
| JArray (items : list JSON)
| JObject (fields : gmap string JSON).

Definition firstString (payload : gmap string JSON) (keys : list string) : string :=
  default ""
    (List.find (fun _ => true)
       (omap (fun key =>
                match payload !! key with
                | Some (JString s) => Some (TrimSpace s)
                | _ => None
                end) keys)).

Definition formatWithOptionalText (prefix text : string) : string :=
  let text := TrimSpace text in
  if String.eqb text "" then prefix else prefix +:+ " " +:+ text.

Definition fallbackMessageText (value msgType : string) (rich : bool) : string :=
  if String.eqb msgType "TEXT" then value
  else if negb rich then value
  else if negb (String.eqb (TrimSpace value) "") && negb (String.eqb msgType "") then
    formatWithOptionalText ("[" +:+ msgType +:+ "]") value
  else
    let msgType := if String.eqb msgType "" then "MESSAGE" else msgType in
    "[" +:+ msgType +:+ "]".

Definition renderPayload (payload : gmap string JSON) (msgType : string) (rich : bool) : string :=
  let text := firstString payload ["body"; "text"] in
  if negb rich || String.eqb msgType "TEXT" then text
  else if String.eqb msgType "IMAGE" then formatWithOptionalText "[Image]" text
  else if String.eqb msgType "VIDEO" then formatWithOptionalText "[Video]" text
  else if String.eqb msgType "AUDIO" then
    let url := firstString payload ["url"] in
    if negb (String.eqb url "") then "[Audio: " +:+ url +:+ "]" else "[Audio message]"
  else if String.eqb msgType "FILE" then
    let filename := firstString payload ["filename"; "name"] in
    let url := firstString payload ["url"] in
    if negb (String.eqb filename "") && negb (String.eqb url "") then
      "[File: " +:+ filename +:+ " - " +:+ url +:+ "]"
    else if negb (String.eqb filename "") then "[File: " +:+ filename +:+ "]"
    else if negb (String.eqb url "") then "[File: " +:+ url +:+ "]"
    else "[File]"
  else if String.eqb msgType "LOCATION" then
    let geo := firstString payload ["geo_uri"; "geoUri"] in
    if negb (String.eqb geo "") then "[Location: " +:+ geo +:+ "]" else "[Location]"
  else if String.eqb msgType "CONTACT" then
    let name := firstString payload ["display_name"; "displayName"; "name"] in
    if negb (String.eqb name "") then "[Contact: " +:+ name +:+ "]" else "[Contact]"
  else if String.eqb msgType "STICKER" then
    let url := firstString payload ["url"] in
    if negb (String.eqb url "") then "[Sticker: " +:+ url +:+ "]" else "[Sticker]"
  else fallbackMessageText text msgType rich.

Section MessageText.

Context {U : UnicodeTables}.

(** [json.Unmarshal([]byte(raw), &payload)] with [payload any]; [None] when
    it reports an error. *)
Variable jsonUnmarshal : string -> option JSON.

Definition extractMessageText (rawMessage msgType : string) (rich : bool) : string :=
  if String.eqb (TrimSpace rawMessage) "" then ""
  else
    let upperType := ToUpper (TrimSpace msgType) in
    let upperType := if String.eqb upperType "" then "TEXT" else upperType in
    match jsonUnmarshal rawMessage with
    | None => fallbackMessageText rawMessage upperType rich
    | Some (JObject value) => renderPayload value upperType rich
    | Some (JString value) =>
        if String.eqb upperType "TEXT" then value
        else fallbackMessageText value upperType rich
    | Some _ => fallbackMessageText rawMessage upperType rich
    end.

Definition ResolveMessageText
    (rawMessage msgType textContent : string) (format : MessageFormat) : string :=
  if String.eqb format FormatPlain then
    if negb (String.eqb (TrimSpace textContent) "") then textContent
    else extractMessageText rawMessage msgType false
  else
    let rich := extractMessageText rawMessage msgType true in
    if negb (String.eqb (TrimSpace rich) "") then rich else textContent.

End MessageText.

(** ** store.go: the database *)

(** A row of table [threads].  The fields after [t_timestamp] are what
    [json_extract] yields on the row's [thread] document at the paths the
    queries read ([$.title], [$.extra.isArchivedUpto], ...), as [rows.Scan]
    stores them; [None] is SQL NULL. *)
Record ThreadRow := mkThreadRow {
  t_threadID : string;
  t_accountID : option string;
  t_timestamp : Z;
  t_title : option string;
  t_name : option string;
  t_type : option string;
  t_isUnread : option Z;
  t_isMarkedUnread : option Z;
  t_isLowPriority : option Z;
  t_unreadCount : option Z;
  t_unreadMentionsCount : option Z;
  t_isArchivedUpto : option string;
  t_isArchivedUpToOrder : option string;
  t_tags : option string
}.

(** A row of table [mx_room_messages]. *)
Record MsgRow := mkMsgRow {
  m_id : Z;
  m_roomID : string;
  m_eventID : string;
  m_senderContactID : string;
  m_timestamp : Z;
  m_isDeleted : Z;
  m_type : string;
  m_hsOrder : Z;
  m_isSentByMe : Z;
  m_message : option string;
  m_text_content : option string
}.

(** A row of table [participants]. *)
Record ParticipantRow := mkParticipantRow {
  pr_account_id : string;
  pr_room_id : string;
  pr_id : string;
  pr_full_name : option string;
  pr_nickname : option string;
  pr_is_self : option Z
}.

(** The statements the store sends to the database. *)
Inductive Query :=
| QHasFTS | QListThreads | QGetThread | QSearchLike
| QContext | QThreadInfo | QParticipants.

(** A snapshot of [index.db].  Tables are in row order.  [like pattern text]
    is the engine's answer to [text LIKE pattern].  [fts_listed] says whether
    [sqlite_master] lists [mx_room_messages_fts]; [fts_match] is the outcome
    of the full-text statement of [SearchMessages] for a query: the rowids it
    matches with their rank, or the error SQLite reports.  [fault] is the
    error, if any, with which the database answers a statement (a storage
    failure). *)
Record DB := mkDB {
  threads : list ThreadRow;
  breadcrumbs : gmap string (option Z);
  participants : list ParticipantRow;
  messages : list MsgRow;
  like : string -> string -> bool;
  fts_listed : bool;
  fts_match : string -> Result (list (Z * Q));
  fault : Query -> option error
}.

Definition runQuery {A : Type} (db : DB) (q : Query) (rows : A) : Result A :=
  match fault db q with
  | Some e => Err e
  | None => Ok rows
  end.

(** [ORDER BY]: a stable insertion sort under the order [le]. *)
Fixpoint insertBy {A : Type} (le : A -> A -> bool) (x : A) (l : list A) : list A :=
  match l with
  | [] => [x]
  | y :: l' => if le x y then x :: l else y :: insertBy le x l'
  end.

Definition sortBy {A : Type} (le : A -> A -> bool) (l : list A) : list A :=
  foldr (insertBy le) [] l.

(** [MAX(...)] over a column: NULL on no rows. *)
Definition sqlMax (l : list Z) : option Z :=
  match l with
  | [] => None
  | x :: l' => Some (fold_left Z.max l' x)
  end.

(** [isDeleted = 0 AND type NOT IN ('HIDDEN','REACTION')] *)
Definition visibleMessage (m : MsgRow) : bool :=
  (m_isDeleted m =? 0) && negb (String.eqb (m_type m) "HIDDEN")
  && negb (String.eqb (m_type m) "REACTION").

(** ** store.go: helpers *)

Definition unixMillis (ms : Z) : GoTime.Time :=
  if ms =? 0 then GoTime.zero else GoTime.FromUnixMilli ms.

Definition unixMillisOrZero (value : option Z) : GoTime.Time :=
  match value with
  | Some ms => if ms =? 0 then GoTime.zero else GoTime.FromUnixMilli ms
  | None => GoTime.zero
  end.

Definition maxTime (times : list GoTime.Time) : GoTime.Time :=
  fold_left (fun latest t => if GoTime.After t latest then t else latest) times GoTime.zero.

Fixpoint uniqueStringsAux (seen : gset string) (values : list string) : list string :=
  match values with
  | [] => []
  | v :: rest =>
      if String.eqb v "" then uniqueStringsAux seen rest
      else if bool_decide (v ∈ seen) then uniqueStringsAux seen rest
      else v :: uniqueStringsAux ({[v]} ∪ seen) rest
  end.

Definition uniqueStrings (values : list string) : list string :=
  uniqueStringsAux ∅ values.

Definition isFTSError {U : UnicodeTables} (err : option error) : bool :=
  match err with
  | None => false
  | Some e =>
      let msg := ToLower e in
      Contains msg "no such module: fts5" || Contains msg "no such table: mx_room_messages_fts"
  end.

Definition indexParticipants (ps : list Participant) : gmap string Participant :=
  fold_left (fun (index : gmap string Participant) p => <[p_ID p := p]> index) ps ∅.

(** [for i, msg := range messages { if msg.ID == matchID { idx = i; break } }] *)
Fixpoint findMatch (messages : list Message) (matchID : Z) (i : nat) : option nat :=
  match messages with
  | [] => None
  | msg :: rest =>
      if Message.ID msg =? matchID then Some i else findMatch rest matchID (S i)
  end.

(** [None] is the run-time panic of [make] on a capacity out of range.  A
    capacity within [len(messages)] can always be allocated; a larger one
    only arises from wrap-around of [idx + context + 1]. *)
Definition trimContext (messages : list Message) (matchID context : Z)
  : option (list Message) :=
  if (context <=? 0) || (Z.of_nat (length messages) =? 0) then Some messages
  else
    match findMatch messages matchID 0 with
    | None => Some messages
    | Some idx =>
        let len := Z.of_nat (length messages) in
        let start := wrap64 (Z.of_nat idx - context) in
        let start := if start <? 0 then 0 else start in
        let end_ := wrap64 (Z.of_nat idx + context + 1) in
        let end_ := if len <? end_ then len else end_ in
        let cap := wrap64 (end_ - start - 1) in
        if (cap <? 0) || (len <? cap) then None
        else
          Some (omap (fun i => if bool_decide (i = idx) then None else messages !! i)
                     (seq (Z.to_nat start) (Z.to_nat (end_ - start))))
    end.

(** ** store.go: the query engine *)

(** A computation on the session: the bridge cache and the log of opened
    store files. *)
Definition M (A : Type) : Type := Session -> A * Session.

Definition ret {A : Type} (a : A) : M A := fun s => (a, s).

Definition bind {A B : Type} (m : M A) (k : A -> M B) : M B :=
  fun s => let '(a, s') := m s in k a s'.

Notation "x <- m ;; k" := (bind m (fun x => k))
  (at level 100, m at next level, right associativity).

(** A loop body run over a list, left to right. *)
Fixpoint forM {A B : Type} (f : A -> M B) (l : list A) : M (list B) :=
  match l with
  | [] => ret []
  | x :: rest => y <- f x ;; ys <- forM f rest ;; ret (y :: ys)
  end.

(** The same for a body that may return an error, which ends the loop. *)
Fixpoint forME {A B : Type} (f : A -> M (Result B)) (l : list A) : M (Result (list B)) :=
  match l with
  | [] => ret (Ok [])
  | x :: rest =>
      r <- f x ;;
      match r with
      | Err e => ret (Err e)
      | Ok y =>
          rs <- forME f rest ;;
          match rs with
          | Err e => ret (Err e)
          | Ok ys => ret (Ok (y :: ys))
          end
      end
  end.

Record threadInfo := mkThreadInfo {
  ti_AccountID : string;
  ti_Title : string;
  ti_Name : string;
  ti_Type : string
}.

(** The columns of the [SELECT] of [ListThreads] and [GetThread]. *)
Record ThreadQueryRow := mkThreadQueryRow {
  q_thread : ThreadRow;
  q_lastOpenTime : option Z;
  q_lastMessageTime : option Z;
  q_latestHsOrder : option Z;
  q_totalMessages : option Z
}.

Definition String_ (value : option string) : string := default "" value.

Definition nonZero (value : option Z) : bool :=
  match value with
  | Some n => negb (n =? 0)
  | None => false
  end.

Definition setDisplayName (t : Thread) (name : string) (ps : list Participant) : Thread :=
  mkThread (ID t) (AccountID t) (Title t) (Name t) (Type_ t) name
           (LastActivity t) (LastMessage t) (LastOpen t)
           (IsUnread t) (IsMarkedUnread t) (IsLowPriority t) (IsArchived t)
           (UnreadCount t) (UnreadMentions t) (TotalMessages t) (Tags t) ps.

(** [thread.LastMessage = time.Time{}; thread.LastOpen = time.Time{};
    thread.TotalMessages = 0] *)
Definition clearStats (t : Thread) : Thread :=
  mkThread (ID t) (AccountID t) (Title t) (Name t) (Type_ t) (DisplayName t)
           (LastActivity t) GoTime.zero GoTime.zero
           (IsUnread t) (IsMarkedUnread t) (IsLowPriority t) (IsArchived t)
           (UnreadCount t) (UnreadMentions t) 0 (Tags t) (Participants t).

Definition setContextFields (m : Message) (account threadName : string)
    (sender : option string) : Message :=
  Message.mk (Message.ID m) (Message.EventID m) (Message.ThreadID m) threadName account
             (Message.SenderID m) (default (Message.SenderName m) sender)
             (Message.Timestamp m) (Message.IsSentByMe m) (Message.Type_ m)
             (Message.Text m) (Message.Score m).

Section Store.

Context {U : UnicodeTables}.

Variable parseFloatInt64 : string -> option Z.
Variable jsonUnmarshal : string -> option JSON.

(** [jsonUnmarshalStrings(raw, &tags)]: the tags decoded from a JSON array of
    strings, [None] when decoding fails. *)
Variable jsonUnmarshalStrings : string -> option (list string).

(** SQLite's [json_extract(message, '$.text')], as text; [None] is NULL. *)
Variable jsonExtractText : string -> option string.

(** [time.Now().AddDate(0, 0, -days).UnixMilli()] *)
Variable cutoffMillis : Z -> Z.

Variable bridgeFiles : gmap string BridgeDB.
Variable rangeValues : gmap string string -> list string.

Definition parseTags (raw : string) : list string :=
  let raw := TrimSpace raw in
  if String.eqb raw "" then []
  else
    match jsonUnmarshalStrings raw with
    | Some tags => tags
    | None => if Contains (ToLower raw) "favourite" then ["favourite"] else []
    end.

Definition HasFTS (db : DB) : Result bool :=
  runQuery db QHasFTS (fts_listed db).

Definition isDirect (t : Thread) : bool :=
  String.eqb (Type_ t) "single" || String.eqb (Type_ t) "dm".

Definition displayName (thread : Thread) (ps : list Participant) : M string :=
  if negb (String.eqb (Title thread) "") then ret (Title thread)
  else if negb (String.eqb (Name thread) "") then ret (Name thread)
  else
    fun s =>
      let '(looked, s') :=
        if bool_decide (is_Some (bridge s)) && isDirect thread then
          LookupDMName bridgeFiles rangeValues (ID thread) (AccountID thread) s
        else (Ok ("", false), s) in
      match looked with
      | Ok (name, true) => (name, s')
      | _ =>
          let nonSelf := map p_Name (List.filter (fun p => negb (p_IsSelf p)) ps) in
          match nonSelf with
          | [] => ("(unknown)", s')
          | first :: _ =>
              if isDirect thread then (first, s')
              else if bool_decide (length nonSelf <= 3)%nat then (Join nonSelf ", ", s')
              else (Join (take 3 nonSelf) ", " +:+ " +" +:+
                    pretty (Z.of_nat (length nonSelf) - 3), s')
          end
      end.

Definition participantOfRow (r : ParticipantRow) : Participant :=
  let name := TrimSpace (String_ (pr_full_name r)) in
  let name := if String.eqb name "" then TrimSpace (String_ (pr_nickname r)) else name in
  let name := if String.eqb name "" then pr_id r else name in
  mkParticipant (pr_id r) name (nonZero (pr_is_self r)).

Definition participantsByRoom (db : DB) (roomIDs : list string)
  : Result (gmap string (list Participant)) :=
  let roomIDs := uniqueStrings roomIDs in
  match roomIDs with
  | [] => Ok ∅
  | _ =>
      bindR (runQuery db QParticipants
               (List.filter (fun r => bool_decide (pr_room_id r ∈ roomIDs)) (participants db)))
        (fun rows =>
           Ok (fold_left
                 (fun (byRoom : gmap string (list Participant)) r =>
                    <[pr_room_id r := (default [] (byRoom !! pr_room_id r) ++ [participantOfRow r])%list]>
                      byRoom)
                 rows ∅))
  end.

Definition threadInfoByID (db : DB) (ids : list string) : Result (gmap string threadInfo) :=
  match ids with
  | [] => Ok ∅
  | _ =>
      bindR (runQuery db QThreadInfo
               (List.filter (fun t => bool_decide (t_threadID t ∈ ids)) (threads db)))
        (fun rows =>
           Ok (fold_left
                 (fun (info : gmap string threadInfo) t =>
                    <[t_threadID t :=
                        mkThreadInfo (String_ (t_accountID t))
                                     (TrimSpace (String_ (t_title t)))
                                     (TrimSpace (String_ (t_name t)))
                                     (TrimSpace (String_ (t_type t)))]> info)
                 rows ∅))
  end.

(** The three correlated subqueries and the [LEFT JOIN breadcrumbs]. *)
Definition threadQueryRow (db : DB) (t : ThreadRow) : ThreadQueryRow :=
  let ofRoom := List.filter (fun m => String.eqb (m_roomID m) (t_threadID t)) (messages db) in
  let shown :=
    List.filter (fun m => negb (String.eqb (m_type m) "HIDDEN")
                          && negb (String.eqb (m_type m) "REACTION")) ofRoom in
  mkThreadQueryRow t
    (mjoin (breadcrumbs db !! t_threadID t))
    (sqlMax (map m_timestamp shown))
    (sqlMax (map m_hsOrder
               (List.filter (fun m => negb (String.eqb (m_type m) "HIDDEN")) ofRoom)))
    (Some (Z.of_nat (length shown))).

(** [COALESCE(lastMessageTime, lastOpenTime, t.timestamp)] *)
Definition orderKey (r : ThreadQueryRow) : Z :=
  match q_lastMessageTime r, q_lastOpenTime r with
  | Some lm, _ => lm
  | None, Some lo => lo
  | None, None => t_timestamp (q_thread r)
  end.

(** The part of the row loop shared by [ListThreads] and [GetThread]: the
    thread as filled in before the stats are looked at. *)
Definition scanThread (r : ThreadQueryRow) : Thread :=
  let t := q_thread r in
  let lastOpen := unixMillisOrZero (q_lastOpenTime r) in
  let lastMessage := unixMillisOrZero (q_lastMessageTime r) in
  mkThread (t_threadID t) (String_ (t_accountID t))
           (TrimSpace (String_ (t_title t))) (TrimSpace (String_ (t_name t)))
           (TrimSpace (String_ (t_type t))) ""
           (maxTime [lastMessage; lastOpen; unixMillis (t_timestamp t)])
           lastMessage lastOpen
           (nonZero (t_isUnread t)) (nonZero (t_isMarkedUnread t))
           (nonZero (t_isLowPriority t))
           (computeArchived parseFloatInt64 (t_isArchivedUpto t) (t_isArchivedUpToOrder t)
                            (q_latestHsOrder r) (q_lastMessageTime r))
           (default 0 (t_unreadCount t)) (default 0 (t_unreadMentionsCount t))
           0
           (parseTags (String_ (t_tags t)))
           [].

Definition setTotalMessages (t : Thread) (n : Z) : Thread :=
  mkThread (ID t) (AccountID t) (Title t) (Name t) (Type_ t) (DisplayName t)
           (LastActivity t) (LastMessage t) (LastOpen t)
           (IsUnread t) (IsMarkedUnread t) (IsLowPriority t) (IsArchived t)
           (UnreadCount t) (UnreadMentions t) n (Tags t) (Participants t).

Definition clearTimes (t : Thread) : Thread :=
  mkThread (ID t) (AccountID t) (Title t) (Name t) (Type_ t) (DisplayName t)
           (LastActivity t) GoTime.zero GoTime.zero
           (IsUnread t) (IsMarkedUnread t) (IsLowPriority t) (IsArchived t)
           (UnreadCount t) (UnreadMentions t) (TotalMessages t) (Tags t) (Participants t).

Definition listThreadsQuery (db : DB) (opts : ThreadListOptions) (limit : Z)
  : Result (list ThreadQueryRow) :=
  runQuery db QListThreads
    (take (Z.to_nat limit)
       (sortBy (fun a b => orderKey b <=? orderKey a)
          (List.filter
             (fun r =>
                (String.eqb (tl_AccountID opts) ""
                 || bool_decide (t_accountID (q_thread r) = Some (tl_AccountID opts)))
                && (negb (0 <? tl_Days opts)
                    || (cutoffMillis (tl_Days opts) <=? t_timestamp (q_thread r))))
             (map (threadQueryRow db) (threads db))))).

(** The body of the row loop of [ListThreads]: the thread, when it is kept. *)
Definition listThreadsRow (opts : ThreadListOptions) (label : ThreadLabel)
    (r : ThreadQueryRow) : option Thread :=
  let thread := scanThread r in
  let archived := IsArchived thread in
  let thread :=
    if tl_WithStats opts then
      match q_totalMessages r with
      | Some n => setTotalMessages thread n
      | None => thread
      end
    else clearTimes thread in
  if shouldIncludeThread label thread archived (tl_IncludeLowPriority opts)
  then Some thread else None.

Definition ListThreads (db : DB) (opts : ThreadListOptions) : M (Result (list Thread)) :=
  let limit := if tl_Limit opts <=? 0 then defaultLimit else tl_Limit opts in
  let label := if String.eqb (tl_Label opts) "" then LabelAll else tl_Label opts in
  match listThreadsQuery db opts limit with
  | Err e => ret (Err e)
  | Ok rows =>
      let kept := omap (listThreadsRow opts label) rows in
      match participantsByRoom db (map ID kept) with
      | Err e => ret (Err e)
      | Ok byRoom =>
          out <- forM (fun thread =>
                         let ps := default [] (byRoom !! ID thread) in
                         name <- displayName thread ps ;;
                         ret (setDisplayName thread name
                                (if tl_WithParticipants opts then ps else Participants thread)))
                      kept ;;
          ret (Ok out)
      end
  end.

Definition GetThread (db : DB) (threadID : string) (withStats : bool) : M (Result Thread) :=
  match runQuery db QGetThread
          (List.find (fun r => String.eqb (t_threadID (q_thread r)) threadID)
             (map (threadQueryRow db) (threads db))) with
  | Err e => ret (Err e)
  | Ok None => ret (Err "sql: no rows in result set")
  | Ok (Some r) =>
      let thread := scanThread r in
      let thread :=
        match withStats, q_totalMessages r with
        | true, Some n => setTotalMessages thread n
        | _, _ => thread
        end in
      match participantsByRoom db [threadID] with
      | Err e => ret (Err e)
      | Ok byRoom =>
          let ps := default [] (byRoom !! threadID) in
          name <- displayName (setDisplayName thread (DisplayName thread) ps) ps ;;
          let thread := setDisplayName thread name ps in
          ret (Ok (if negb withStats then clearStats thread else thread))
      end
  end.

Definition scanMessage (format : MessageFormat) (r : MsgRow) (score : Q) : Message :=
  let type := TrimSpace (m_type r) in
  Message.mk (m_id r) (m_eventID r) (m_roomID r) "" "" (m_senderContactID r) ""
             (unixMillis (m_timestamp r)) (negb (m_isSentByMe r =? 0)) type
             (ResolveMessageText jsonUnmarshal (String_ (m_message r)) type
                                 (String_ (m_text_content r)) format)
             score.

(** The filters both search statements share: the conversation, the account
    and the day range. *)
Definition searchFilters (db : DB) (opts : SearchOptions) (m : MsgRow) : bool :=
  visibleMessage m
  && (String.eqb (so_ThreadID opts) "" || String.eqb (m_roomID m) (so_ThreadID opts))
  && (String.eqb (so_AccountID opts) ""
      || existsb (fun t => String.eqb (t_threadID t) (m_roomID m)
                           && bool_decide (t_accountID t = Some (so_AccountID opts)))
                 (threads db))
  && (negb (0 <? so_Days opts) || (cutoffMillis (so_Days opts) <=? m_timestamp m)).

(** [ORDER BY rank ASC, m.timestamp DESC] *)
Definition rankOrder (a b : MsgRow * Q) : bool :=
  match snd a ?= snd b with
  | Lt => true
  | Gt => false
  | Eq => m_timestamp (fst b) <=? m_timestamp (fst a)
  end%Q.

(** [buildQuery(useFTS)] together with its execution.  The outcome of the
    full-text statement, rows or error, is the one [fts_match] gives. *)
Definition searchQuery (db : DB) (opts : SearchOptions) (limit : Z) (useFTS : bool)
  : Result (list (MsgRow * Q)) :=
  if useFTS then
    bindR (fts_match db (so_Query opts)) (fun hits =>
      Ok (take (Z.to_nat limit)
            (sortBy rankOrder
               (flat_map
                  (fun hit =>
                     map (fun m => (m, snd hit))
                       (List.filter (fun m => (m_id m =? fst hit) && searchFilters db opts m)
                          (messages db)))
                  hits))))
  else
    runQuery db QSearchLike
      (take (Z.to_nat limit)
         (sortBy rankOrder
            (map (fun m => (m, 0%Q))
               (List.filter
                  (fun m =>
                     match mbind jsonExtractText (m_message m) with
                     | Some text => like db ("%" +:+ so_Query opts +:+ "%") text
                     | None => false
                     end && searchFilters db opts m)
                  (messages db))))).

Definition senderNameOf (index : gmap string Participant) (senderID : string) : option string :=
  p_Name <$> index !! senderID.

Definition threadOfInfo (threadID : string) (info : threadInfo) : Thread :=
  mkThread threadID (ti_AccountID info) (ti_Title info) (ti_Name info) (ti_Type info) ""
           GoTime.zero GoTime.zero GoTime.zero false false false false 0 0 0 [] [].

Definition emptyInfo : threadInfo := mkThreadInfo "" "" "" "".

(** The run-time panic of [trimContext], carried as a failure of the call. *)
Definition panicMakeslice : error := "panic: runtime error: makeslice: cap out of range".

(** The statement of [fetchContextMessages]. *)
Definition contextQuery (db : DB) (roomID : string) (start end_ : Z) : Result (list MsgRow) :=
  runQuery db QContext
    (sortBy (fun a b => m_timestamp a <=? m_timestamp b)
       (List.filter
          (fun m => String.eqb (m_roomID m) roomID
                    && (start <=? m_timestamp m) && (m_timestamp m <=? end_)
                    && visibleMessage m)
          (messages db))).

(** [window := opts.Window; if window == 0 { window = defaultContextWindow }] *)
Definition contextWindow (opts : SearchOptions) : GoTime.Duration :=
  if so_Window opts =? 0 then defaultContextWindow else so_Window opts.

(** [start] and [end] of [fetchContextMessages]. *)
Definition contextBounds (mt : Message) (opts : SearchOptions) : Z * Z :=
  let window := contextWindow opts in
  (GoTime.UnixMilli (GoTime.Add (Message.Timestamp mt) (GoTime.Neg window)),
   GoTime.UnixMilli (GoTime.Add (Message.Timestamp mt) window)).

Definition fetchContextMessages (db : DB) (mt : Message) (opts : SearchOptions)
    (byRoom : gmap string (list Participant)) (infos : gmap string threadInfo)
  : M (Result (list Message)) :=
  let '(start, end_) := contextBounds mt opts in
  match contextQuery db (Message.ThreadID mt) start end_ with
  | Err e => ret (Err e)
  | Ok rows =>
      let msgs := map (fun r => scanMessage (so_Format opts) r 0%Q) rows in
      let ps := default [] (byRoom !! Message.ThreadID mt) in
      let index := indexParticipants ps in
      let info := default emptyInfo (infos !! Message.ThreadID mt) in
      threadName <- displayName (threadOfInfo (Message.ThreadID mt) info) ps ;;
      let msgs :=
        map (fun m => setContextFields m (ti_AccountID info) threadName
                        (senderNameOf index (Message.SenderID m))) msgs in
      if 0 <? so_Context opts then
        match trimContext msgs (Message.ID mt) (so_Context opts) with
        | Some trimmed => ret (Ok trimmed)
        | None => ret (Err panicMakeslice)
        end
      else ret (Ok msgs)
  end.

(** [SearchMessages] from the rows of the search statement on. *)
Definition searchResults (db : DB) (opts : SearchOptions) (rows : list (MsgRow * Q))
  : M (Result (list SearchResult)) :=
  let matches := map (fun r => scanMessage (so_Format opts) (fst r) (snd r)) rows in
  let roomIDs := map Message.ThreadID matches in
  match threadInfoByID db (uniqueStrings roomIDs) with
  | Err e => ret (Err e)
  | Ok infos =>
      match participantsByRoom db (uniqueStrings roomIDs) with
      | Err e => ret (Err e)
      | Ok byRoom =>
          matches <- forM (fun m =>
                             let info := default emptyInfo (infos !! Message.ThreadID m) in
                             let ps := default [] (byRoom !! Message.ThreadID m) in
                             name <- displayName (threadOfInfo (Message.ThreadID m) info) ps ;;
                             ret (setContextFields m (ti_AccountID info) name
                                    (mbind (fun ps => senderNameOf (indexParticipants ps)
                                                        (Message.SenderID m))
                                           (byRoom !! Message.ThreadID m))))
                          matches ;;
          forME (fun m =>
                   if (0 <? so_Context opts) || (0 <? so_Window opts) then
                     r <- fetchContextMessages db m opts byRoom infos ;;
                     match r with
                     | Err e => ret (Err e)
                     | Ok ctx => ret (Ok (mkSearchResult m ctx))
                     end
                   else ret (Ok (mkSearchResult m [])))
                matches
      end
  end.

Definition SearchMessages (db : DB) (opts : SearchOptions) : M (Result (list SearchResult)) :=
  if String.eqb (TrimSpace (so_Query opts)) "" then ret (Err "search query is required")
  else
    let limit := if so_Limit opts <=? 0 then defaultLimit else so_Limit opts in
    match HasFTS db with
    | Err e => ret (Err e)
    | Ok useFTS =>
        let rows := searchQuery db opts limit useFTS in
        let rows :=
          match rows with
          | Err e => if useFTS && isFTSError (Some e) then searchQuery db opts limit false else rows
          | Ok _ => rows
          end in
        match rows with
        | Err e => ret (Err e)
        | Ok rows => searchResults db opts rows
        end
    end.

End Store.

(** ** Vocabulary of the statements *)

(** The sessions a store can be in: the one [OpenWithOptions] builds (no
    bridge, or the freshly discovered one) and those later lookups lead to. *)
Inductive reachable {U : UnicodeTables} (files : gmap string BridgeDB)
    (rangeValues : gmap string string -> list string) : Session -> Prop :=
| reachable_nil : reachable files rangeValues (mkSession None [])
| reachable_new filepathDir filepathJoin readDir statOk indexDBPath overrideRoot b :
    NewBridgeLookup filepathDir filepathJoin readDir statOk indexDBPath overrideRoot = Ok b ->
    reachable files rangeValues (mkSession (Some b) [])
| reachable_lookup s roomID accountID :
    reachable files rangeValues s ->
    reachable files rangeValues (snd (LookupDMName files rangeValues roomID accountID s)).

(** Entries are only ever cached by a lookup that found platform stores. *)
Definition cacheGuard (s : Session) : Prop :=
  forall b, bridge s = Some b -> size (platformDBs b) = 0%nat -> cache b = ∅.

(** What a cache entry stands for: the empty string is a recorded miss. *)
Definition cachedOutcome (cached : string) : string * bool :=
  if String.eqb cached "" then ("", false) else (cached, true).

(** The ordering-sequence rule of [computeArchived] applies when its marker
    parses and the latest order is known. *)
Definition orderRule {U : UnicodeTables} (parseFloatInt64 : string -> option Z)
    (archivedUpToOrder : option string) (latestHsOrder : option Z) : Prop :=
  is_Some (parseArchivedValue parseFloatInt64 archivedUpToOrder) /\ is_Some latestHsOrder.

(** The text starts with the letters [t] and [s], each in either case. *)
Definition hasTsPrefix (text : string) : bool :=
  match text with
  | String a (String b _) => Ascii.eqb (lowerByte a) "t" && Ascii.eqb (lowerByte b) "s"
  | _ => false
  end.

Definition favourite {U : UnicodeTables} (t : Thread) : bool :=
  containsTag (Tags t) "favourite".

(** The low-priority gate of [shouldIncludeThread]. *)
Definition passesGate (t : Thread) (includeLowPriority : bool) : Prop :=
  negb includeLowPriority && IsLowPriority t = false.

(** The type tag as [extractMessageText] reads it. *)
Definition upperTypeOf {U : UnicodeTables} (msgType : string) : string :=
  let upperType := ToUpper (TrimSpace msgType) in
  if String.eqb upperType "" then "TEXT" else upperType.

Definition mapResult {A B : Type} (f : A -> B) (r : Result A) : Result B :=
  match r with
  | Ok a => Ok (f a)
  | Err e => Err e
  end.

(** The latest of the three timestamps of a thread row, a zero or absent one
    counting as [time.Time{}]. *)
Definition lastActivityOf (r : ThreadQueryRow) : GoTime.Time :=
  Z.max (Z.max (Z.max GoTime.zero (unixMillisOrZero (q_lastMessageTime r)))
               (unixMillisOrZero (q_lastOpenTime r)))
        (unixMillis (t_timestamp (q_thread r))).

(** A message of a result comes from a row of [mx_room_messages]. *)
Definition fromRow (m : Message) (r : MsgRow) : Prop :=
  Message.ID m = m_id r /\ Message.ThreadID m = m_roomID r
  /\ Message.Timestamp m = unixMillis (m_timestamp r).

(** The filters of a search request, as a message row obeys them: the row is
    not deleted, hidden or a reaction; it belongs to the requested
    conversation, if one is; its conversation belongs to the requested
    account, if one is; and it is not older than the requested days, if a
    positive number is. *)
Definition obeysFilters (cutoffMillis : Z -> Z) (db : DB) (opts : SearchOptions)
    (m : MsgRow) : Prop :=
  m_isDeleted m = 0 /\ m_type m <> "HIDDEN" /\ m_type m <> "REACTION"
  /\ (so_ThreadID opts <> "" -> m_roomID m = so_ThreadID opts)
  /\ (so_AccountID opts <> "" ->
      exists t, t ∈ threads db /\ t_threadID t = m_roomID m
                /\ t_accountID t = Some (so_AccountID opts))
  /\ (0 < so_Days opts -> cutoffMillis (so_Days opts) <= m_timestamp m).

(** ** The database of store_test.go ([createTestDB], [createBridgeDB]) *)

Definition dq : string := String (ascii_of_nat 34) EmptyString.

(** The document [{"key":"value"}]. *)
Definition jsonDoc (key value : string) : string :=
  "{" +:+ dq +:+ key +:+ dq +:+ ":" +:+ dq +:+ value +:+ dq +:+ "}".

(** The test data is ASCII: the tables of package [unicode] are never
    consulted. *)
Definition testTables : UnicodeTables :=
  {| mapToLower := fun s => s; mapToUpper := fun s => s; equalFoldRunes := String.eqb |}.

(** [LIKE] on ASCII text, which is all the test database holds: [%] matches
    any run of characters, [_] any one character, other characters match up
    to case. *)
Fixpoint testLike (pattern : string) : string -> bool :=
  match pattern with
  | EmptyString => fun s => String.eqb s ""
  | String c p' =>
      if Ascii.eqb c "%" then
        fix any (s : string) : bool :=
          testLike p' s ||
          match s with
          | EmptyString => false
          | String _ s' => any s'
          end
      else if Ascii.eqb c "_" then
        fun s => match s with
                 | EmptyString => false
                 | String _ s' => testLike p' s'
                 end
      else
        fun s => match s with
                 | EmptyString => false
                 | String d s' => Ascii.eqb (lowerByte c) (lowerByte d) && testLike p' s'
                 end
  end.

Definition testThreads : list ThreadRow :=
  [ mkThreadRow "!room1:beeper.local" (Some "whatsapp") 1700000000000
      (Some "Team Chat") None (Some "group") (Some 1) (Some 0) (Some 0) (Some 2) (Some 1)
      None None None;
    mkThreadRow "!room2:beeper.local" (Some "telegram") 1700000001000
      (Some "Archived") None (Some "group") (Some 0) (Some 0) (Some 0) None None
      (Some "5") None None;
    mkThreadRow "!room3:beeper.local" (Some "signal") 1700000002000
      (Some "Fav") None (Some "group") (Some 0) (Some 0) (Some 1) None None
      (Some "5") None (Some "[favourite]");
    mkThreadRow "!room4:beeper.local" (Some "whatsapp") 1700000003000
      None None (Some "single") None None None None None
      None None None ].

Definition testMessage (id : Z) (room event sender : string) (ts hsOrder : Z) (text : string)
  : MsgRow :=
  mkMsgRow id room event sender ts 0 "TEXT" hsOrder 0 (Some (jsonDoc "text" text)) (Some text).

Definition testMessages : list MsgRow :=
  [ testMessage 1 "!room1:beeper.local" "$evt1" "@alice:beeper.local" 1700000000100 6 "hello";
    testMessage 2 "!room1:beeper.local" "$evt2" "@alice:beeper.local" 1700000000200 7
                "christmas party";
    testMessage 3 "!room1:beeper.local" "$evt3" "@alice:beeper.local" 1700000000300 8 "see you";
    testMessage 4 "!room2:beeper.local" "$evt4" "@bob:beeper.local" 1700000000400 5 "archived";
    testMessage 5 "!room3:beeper.local" "$evt5" "@eve:beeper.local" 1700000000500 5 "fav";
    testMessage 6 "!room4:beeper.local" "$evt6" "@bridge:beeper.local" 1700000000600 1 "dm";
    testMessage 7 "!room1:beeper.local" "$evt7" "@alice:beeper.local" 1700000000700 9
                "invoice due" ].

Definition testParticipants : list ParticipantRow :=
  [ mkParticipantRow "whatsapp" "!room1:beeper.local" "@alice:beeper.local"
      (Some "Alice") (Some "") (Some 0) ].

(** [createTestDB(t, false)]: no full-text table. *)
Definition testDB : DB :=
  mkDB testThreads {[ "!room1:beeper.local" := Some 1700000000500 ]}
       testParticipants testMessages testLike
       false (fun _ => Err "no such table: mx_room_messages_fts") (fun _ => None).

(** The same database when [sqlite_master] lists the full-text table but the
    [fts5] module is not loaded. *)
Definition testDBNoModule : DB :=
  mkDB testThreads {[ "!room1:beeper.local" := Some 1700000000500 ]}
       testParticipants testMessages testLike
       true (fun _ => Err "no such module: fts5") (fun _ => None).

(** [createTestDB(t, true)] where the [fts5] module is loaded: SQLite rejects
    the full-text statement of [SearchMessages], which hands the alias [f] of
    the table to [bm25]. *)
Definition testDBFullText : DB :=
  mkDB testThreads {[ "!room1:beeper.local" := Some 1700000000500 ]}
       testParticipants testMessages testLike
       true (fun _ => Err "no such column: f") (fun _ => None).

Definition testBridgeFiles : gmap string BridgeDB :=
  {[ "/bridge/local-whatsapp/megabridge.db" :=
       mkBridgeDB (Some [("!room4:beeper.local", Some "user-1")])
                  (Some [("user-1", Some "Bridge Name")]) ]}.

(** The file system of [createBridgeDB]: the root holds the directory
    [local-whatsapp] with its [megabridge.db]. *)
Definition testJoin (elems : list string) : string := Join elems "/".

Definition testReadDir (root : string) : Result (list DirEntry) :=
  if String.eqb root "/bridge" then Ok [mkDirEntry "local-whatsapp" true]
  else Err ("open " +:+ root +:+ ": no such file or directory").

Definition testStat (path : string) : bool :=
  String.eqb path "/bridge/local-whatsapp/megabridge.db".

Definition testBridge : Result BridgeLookup :=
  NewBridgeLookup (U := testTables) (fun _ => "/data") testJoin testReadDir testStat
    "/data/index.db" "/bridge".

(** The session [OpenWithOptions] starts with when it finds the test bridge. *)
Definition testSession : Session :=
  mkSession (match testBridge with Ok b => Some b | Err _ => None end) [].

(** Decoders that know the documents of the test database: a one-key object
    [{"text":"..."}], and the tag list of room 3. *)
Definition testTexts : list string :=
  ["hello"; "christmas party"; "see you"; "archived"; "fav"; "dm"; "invoice due"].

Definition testExtractText (raw : string) : option string :=
  List.find (fun text => String.eqb raw (jsonDoc "text" text)) testTexts.

Definition testUnmarshal (raw : string) : option JSON :=
  (fun text => JObject {[ "text" := JString text ]}) <$> testExtractText raw.

Definition testUnmarshalStrings (raw : string) : option (list string) :=
  if String.eqb raw "[favourite]" then Some ["favourite"] else None.

(** The payload of message_text_test.go,
    [{"url":"https://example.com/file.pdf","filename":"report.pdf"}], and a
    decoder that knows it. *)
Definition testFileRaw : string :=
  "{" +:+ dq +:+ "url" +:+ dq +:+ ":" +:+ dq +:+ "https://example.com/file.pdf" +:+ dq
  +:+ "," +:+ dq +:+ "filename" +:+ dq +:+ ":" +:+ dq +:+ "report.pdf" +:+ dq +:+ "}".

Definition testFilePayload : gmap string JSON :=
  {[ "url" := JString "https://example.com/file.pdf"; "filename" := JString "report.pdf" ]}.

Definition testFileUnmarshal (raw : string) : option JSON :=
  if String.eqb raw testFileRaw then Some (JObject testFilePayload) else None.

Definition noFloat (raw : string) : option Z := None.

Definition testRange (m : gmap string string) : list string := (map_to_list m).*2.

Definition testSearchOptions (context : Z) (window : GoTime.Duration) : SearchOptions :=
  mkSearchOptions "christmas" "" 0 5 "" context window FormatPlain.

Definition testSearch (db : DB) (opts : SearchOptions) : Result (list SearchResult) :=
  fst (SearchMessages (U := testTables) testUnmarshal testExtractText (fun _ => 0)
         testBridgeFiles testRange db opts (mkSession None [])).

(** The match of the test search, message 2, as [SearchMessages] scans it. *)
Definition testMatch : Message :=
  scanMessage (U := testTables) testUnmarshal FormatPlain
    (testMessage 2 "!room1:beeper.local" "$evt2" "@alice:beeper.local" 1700000000200 7
                 "christmas party") 0%Q.

Definition testContext (opts : SearchOptions) : Result (list Message) :=
  fst (fetchContextMessages (U := testTables) testUnmarshal testBridgeFiles testRange testDB
         testMatch opts ∅ ∅ (mkSession None [])).

(** What the tests look at in a result: the match, its rank, its context. *)
Definition resultShape (r : SearchResult) : Z * Q * list Z :=
  (Message.ID (Match r), Message.Score (Match r), map Message.ID (Context r)).

(** [ThreadListOptions{Label: label}] and the like. *)
Definition testListOptions (label : ThreadLabel) (includeLowPriority withStats : bool)
  : ThreadListOptions :=
  mkThreadListOptions 0 0 "" label includeLowPriority false withStats.

Definition testListThreads (opts : ThreadListOptions) : Result (list Thread) :=
  fst (ListThreads (U := testTables) noFloat testUnmarshalStrings (fun _ => 0)
         testBridgeFiles testRange testDB opts (mkSession None [])).

(** ** store.go: the remaining operations *)

(** [strings.Repeat] *)
Fixpoint Repeat (s : string) (count : nat) : string :=
  match count with
  | O => ""
  | S n => s +:+ Repeat s n
  end.

(** [strings.TrimRight(s, cutset)] for a cutset of one byte. *)
Fixpoint TrimRightByte (s : string) (cut : ascii) : string :=
  match s with
  | EmptyString => EmptyString
  | String c s' =>
      match TrimRightByte s' cut with
      | EmptyString => if Ascii.eqb c cut then EmptyString else String c EmptyString
      | t => String c t
      end
  end.

Definition placeholders (count : Z) : string :=
  if count <=? 0 then "" else TrimRightByte (Repeat "?," (Z.to_nat count)) ",".

Record MessageListOptions := mkMessageListOptions {
  ml_ThreadID : string;
  ml_Limit : Z;
  ml_After : option GoTime.Time;
  ml_Before : option GoTime.Time;
  ml_Format : MessageFormat
}.

Section ListMessages.

Context {U : UnicodeTables}.

Variable jsonUnmarshal : string -> option JSON.

(** The error, if any, with which the database answers the statement of
    [ListMessages]. *)
Variable listMessagesFault : option error.

(** The statement of [ListMessages]. *)
Definition listMessagesQuery (db : DB) (opts : MessageListOptions) (limit : Z)
  : Result (list MsgRow) :=
  match listMessagesFault with
  | Some e => Err e
  | None =>
      Ok (take (Z.to_nat limit)
            (sortBy (fun a b => m_timestamp b <=? m_timestamp a)
               (List.filter
                  (fun m =>
                     String.eqb (m_roomID m) (ml_ThreadID opts) && visibleMessage m
                     && match ml_After opts with
                        | Some t => GoTime.UnixMilli t <=? m_timestamp m
                        | None => true
                        end
                     && match ml_Before opts with
                        | Some t => m_timestamp m <=? GoTime.UnixMilli t
                        | None => true
                        end)
                  (messages db))))
  end.

Definition setSenderName (m : Message) (sender : option string) : Message :=
  setContextFields m (Message.AccountID m) (Message.ThreadName m) sender.

Definition ListMessages (db : DB) (opts : MessageListOptions) : Result (list Message) :=
  if String.eqb (ml_ThreadID opts) "" then Err "thread ID is required"
  else
    let limit := if ml_Limit opts <=? 0 then defaultLimit else ml_Limit opts in
    bindR (listMessagesQuery db opts limit) (fun rows =>
      let msgs := map (fun r => scanMessage jsonUnmarshal (ml_Format opts) r 0%Q) rows in
      bindR (participantsByRoom db [ml_ThreadID opts]) (fun byRoom =>
        let index := indexParticipants (default [] (byRoom !! ml_ThreadID opts)) in
        Ok (map (fun m => setSenderName m (senderNameOf index (Message.SenderID m))) msgs))).

End ListMessages.

(** ** Package cli: flag helpers *)

Section Cli.

Context {U : UnicodeTables}.

(** [%q] of package fmt: the Go-quoted form of a string. *)
Variable quote : string -> string.

(** [time.Parse(time.RFC3339, value)], [None] on error. *)
Variable parseRFC3339 : string -> option GoTime.Time.

(** [time.Now().AddDate(0, 0, -days)] *)
Variable daysAgo : Z -> GoTime.Time.

Definition parseMessageFormat (value : string) : Result MessageFormat :=
  let normalized := ToLower (TrimSpace value) in
  if String.eqb normalized "" || String.eqb normalized FormatRich then Ok FormatRich
  else if String.eqb normalized FormatPlain then Ok FormatPlain
  else Err ("invalid format " +:+ quote value +:+ ": use plain or rich").

(** A pointer to a [time.Time], with an error: [Ok None] is the nil pointer. *)
Definition parseTimePtr (value : string) : Result (option GoTime.Time) :=
  let value := TrimSpace value in
  if String.eqb value "" then Ok None
  else
    match parseRFC3339 value with
    | Some parsed => Ok (Some parsed)
    | None => Err ("invalid time " +:+ quote value +:+ ": use RFC3339")
    end.

Definition parseTimeFlag (value : string) (days : Z) : Result (option GoTime.Time) :=
  if negb (String.eqb (TrimSpace value) "") then parseTimePtr value
  else if 0 <? days then Ok (Some (daysAgo days))
  else Ok None.

End Cli.

(** ** Package config: finding the database *)

(** What [os.Stat] reports for a path. *)
Inductive StatResult :=
| StatNotExist
| StatFailed
| StatFile
| StatDir.

Section Config.

Variable stat : string -> StatResult.

(** [os.Getenv] *)
Variable getenv : string -> string.

(** [os.UserHomeDir()], [None] on error. *)
Variable userHomeDir : option string.

(** [filepath.Join] of two elements, [os.ExpandEnv], [filepath.Glob] ([None]
    on error) and [runtime.GOOS]. *)
Variable joinPath : string -> string -> string.
Variable expandEnv : string -> string.
Variable glob : string -> option (list string).
Variable GOOS : string.

Definition fileExists (path : string) : bool :=
  if String.eqb path "" then false
  else
    match stat path with
    | StatFile => true
    | _ => false
    end.

Definition expandPath (path : string) : string :=
  if String.eqb path "" then path
  else
    let path :=
      if HasPrefix path "~" then
        match userHomeDir with
        | Some home => joinPath home (TrimPrefix path "~")
        | None => path
        end
      else path in
    expandEnv path.

Definition defaultPaths : list string :=
  ["~/Library/Application Support/BeeperTexts/index.db";
   "~/Library/Application Support/Beeper/index.db"]
  ++ (if String.eqb GOOS "linux" then
        ["~/.config/BeeperTexts/index.db"; "~/.config/Beeper/index.db"]
      else if String.eqb GOOS "windows" then
        let appData := getenv "APPDATA" in
        if negb (String.eqb appData "") then
          [joinPath (joinPath appData "BeeperTexts") "index.db";
           joinPath (joinPath appData "Beeper") "index.db"]
        else []
      else [])%list.

Definition globCandidates : list string :=
  default [] (glob (expandPath "~/Library/Application Support/Beeper*/**/index.db")).

(** One of the two loops of [ResolveDBPath]: the first existing path, or the
    paths tried so far. *)
Fixpoint firstExisting (expand : string -> string) (paths tried : list string)
  : string + list string :=
  match paths with
  | [] => inr tried
  | path :: rest =>
      let path := expand path in
      let tried := (tried ++ [path])%list in
      if fileExists path then inl path else firstExisting expand rest tried
  end.

Definition ResolveDBPath (explicit : string) : Result string :=
  if negb (String.eqb explicit "") then
    let path := expandPath explicit in
    if fileExists path then Ok path else Err ("database not found at " +:+ path)
  else
    let env := getenv "BEEPER_DB" in
    match firstExisting expandPath (if String.eqb env "" then [] else [env]) [] with
    | inl path => Ok path
    | inr tried =>
        match firstExisting expandPath defaultPaths tried with
        | inl path => Ok path
        | inr tried =>
            match firstExisting (fun path => path) globCandidates tried with
            | inl path => Ok path
            | inr tried =>
                Err ("could not find Beeper database; tried: " +:+ Join tried ", ")
            end
        end
    end.

End Config.

(** ** Vocabulary of the further statements *)

(** What a thread holds besides its display name and its participants. *)
Definition storedFields (t : Thread) : Thread := setDisplayName t "" [].

(** The last participant of a list that has the id, if any. *)
Definition lastWithID (ps : list Participant) (id : string) : option Participant :=
  last (List.filter (fun p => String.eqb (p_ID p) id) ps).

(** * Properties *)

(** ** Strings *)

Lemma eqb_empty_false (s : string) : s <> "" -> String.eqb s "" = false.
Proof. intros H. now apply String.eqb_neq. Qed.

Lemma stripPrefix_spec p l r : stripPrefix p l = Some r <-> l = (p ++ r)%list.
Proof.
  revert l. induction p as [|a p IH]; intros l; simpl.
  - split; [now intros [= ->] | now intros ->].
  - destruct l as [|b l]; [split; discriminate|].
    destruct (Ascii.eqb_spec a b) as [->|Hne].
    + rewrite IH. split; [now intros -> | now intros [= ->]].
    + split; [discriminate | intros [= -> _]; contradiction].
Qed.

Lemma stripAny_some ps l r :
  stripAny ps l = Some r -> exists p, In p ps /\ l = (p ++ r)%list.
Proof.
  induction ps as [|p ps IH]; simpl; [discriminate|].
  destruct (stripPrefix p l) as [r'|] eqn:E.
  - intros [= <-]. apply stripPrefix_spec in E. eauto.
  - intros H. destruct (IH H) as (q & Hq & ->). eauto.
Qed.

Lemma stripAny_none ps l p r :
  stripAny ps l = None -> In p ps -> l <> (p ++ r)%list.
Proof.
  induction ps as [|q ps IH]; simpl; [tauto|].
  destruct (stripPrefix q l) as [r'|] eqn:E; [discriminate|].
  intros H [->|Hin] Heq.
  - apply stripPrefix_spec in Heq. congruence.
  - exact (IH H Hin Heq).
Qed.

Lemma trimLeftWith_fixed ps n l : stripAny ps l = None -> trimLeftWith ps n l = l.
Proof. intros H. destruct n; simpl; [reflexivity | now rewrite H]. Qed.

Lemma trimLeftWith_suffix ps n l : exists pre, l = (pre ++ trimLeftWith ps n l)%list.
Proof.
  revert l. induction n as [|n IH]; intros l; simpl; [now exists []|].
  destruct (stripAny ps l) as [r|] eqn:E; [|now exists []].
  apply stripAny_some in E as (p & _ & ->). destruct (IH r) as (pre & Hpre).
  exists (p ++ pre)%list. rewrite <- app_assoc. now rewrite <- Hpre.
Qed.

Lemma trimLeftWith_done ps n l :
  Forall (fun p => p <> []) ps -> (length l <= n)%nat ->
  stripAny ps (trimLeftWith ps n l) = None.
Proof.
  intros Hne. revert l. induction n as [|n IH]; intros l Hlen; simpl.
  - destruct l; [|simpl in Hlen; lia].
    destruct (stripAny ps []) as [r|] eqn:E; [|reflexivity].
    apply stripAny_some in E as (p & Hp & Heq).
    rewrite Forall_forall in Hne. destruct p; [|discriminate].
    now destruct (Hne [] (proj2 (list_elem_of_In _ _) Hp)).
  - destruct (stripAny ps l) as [r|] eqn:E; [|exact E].
    apply IH. apply stripAny_some in E as (p & Hp & ->).
    rewrite Forall_forall in Hne.
    assert (p <> []) by (apply Hne; now apply list_elem_of_In).
    rewrite length_app in Hlen. destruct p; [contradiction|]. simpl in Hlen. lia.
Qed.

Lemma spaceRunes_nonempty : Forall (fun p => p <> []) spaceRunes.
Proof. repeat constructor; discriminate. Qed.

Lemma spaceRunes_rev_nonempty : Forall (fun p => p <> []) (map (@rev ascii) spaceRunes).
Proof. repeat constructor; discriminate. Qed.

(** Trimming leaves nothing to trim. *)
Lemma TrimSpace_idem (s : string) : TrimSpace (TrimSpace s) = TrimSpace s.
Proof.
  unfold TrimSpace. rewrite list_ascii_of_string_of_list_ascii. f_equal.
  set (a := trimLeftRunes spaceRunes (list_ascii_of_string s)).
  assert (Ha : stripAny spaceRunes a = None)
    by (apply trimLeftWith_done; [apply spaceRunes_nonempty | reflexivity]).
  set (b := trimRightRunes spaceRunes a).
  assert (Hb : stripAny (map (@rev ascii) spaceRunes) (rev b) = None).
  { unfold b, trimRightRunes. rewrite rev_involutive.
    apply trimLeftWith_done; [apply spaceRunes_rev_nonempty | reflexivity]. }
  assert (Hpre : exists post, a = (b ++ post)%list).
  { unfold b, trimRightRunes, trimLeftRunes.
    destruct (trimLeftWith_suffix (map (@rev ascii) spaceRunes) (length (rev a)) (rev a))
      as (pre & Hpre).
    exists (rev pre). apply (f_equal (@rev ascii)) in Hpre.
    rewrite rev_involutive, rev_app_distr in Hpre. exact Hpre. }
  destruct Hpre as (post & Hpost).
  assert (Hb' : stripAny spaceRunes b = None).
  { destruct (stripAny spaceRunes b) as [r|] eqn:E; [|reflexivity].
    apply stripAny_some in E as (p & Hp & Heq). exfalso.
    apply (stripAny_none _ _ p (r ++ post)%list Ha Hp).
    now rewrite Hpost, Heq, <- app_assoc. }
  unfold trimLeftRunes at 1. rewrite (trimLeftWith_fixed _ _ _ Hb').
  unfold trimRightRunes, trimLeftRunes. rewrite (trimLeftWith_fixed _ _ _ Hb).
  apply rev_involutive.
Qed.

Lemma plainByte_spaceRunes (c : ascii) :
  plainByte c = true -> Forall (fun p => ~ In c p) spaceRunes.
Proof.
  intros H.
  assert (Hall : Forall (fun p => forallb (fun a => 128 <=? byte_of a) p
                                  || forallb (fun a => negb (plainByte a)) p = true)
                   spaceRunes) by (vm_compute; repeat constructor).
  eapply Forall_impl; [exact Hall|]. intros p Hp Hc. simpl in Hp.
  apply orb_true_iff in Hp as [Hp|Hp]; rewrite forallb_forall in Hp; specialize (Hp c Hc).
  - unfold plainByte in H. apply andb_true_iff in H as [H _].
    apply Z.ltb_lt in H. apply Z.leb_le in Hp. lia.
  - now rewrite H in Hp.
Qed.

Lemma app_last_split (c : ascii) (p l r : list ascii) :
  (l ++ [c] = p ++ r)%list -> ~ In c p -> exists r', r = (r' ++ [c])%list.
Proof.
  revert l. induction p as [|a p IH]; intros l Heq Hc; simpl in Heq.
  - exists l. now symmetry.
  - destruct l as [|b l]; simpl in Heq.
    + injection Heq as <- _. destruct Hc. now left.
    + injection Heq as _ Heq. apply (IH l Heq). intros Hin. apply Hc. now right.
Qed.

Lemma trimLeftWith_keeps_last ps c n l :
  Forall (fun p => ~ In c p) ps ->
  exists l', trimLeftWith ps n (l ++ [c]) = (l' ++ [c])%list.
Proof.
  intros Hps. revert l. induction n as [|n IH]; intros l; simpl; [now exists l|].
  destruct (stripAny ps (l ++ [c])) as [r|] eqn:E; [|now exists l].
  apply stripAny_some in E as (p & Hp & Heq).
  rewrite Forall_forall in Hps.
  destruct (app_last_split c p l r Heq (Hps p (proj2 (list_elem_of_In _ _) Hp))) as (r' & ->).
  apply IH.
Qed.

(** A text that starts with an ASCII byte other than white space is not
    blank, and keeps that byte in front when trimmed. *)
Lemma TrimSpace_plain (c : ascii) (s : string) :
  plainByte c = true -> exists t, TrimSpace (String c s) = String c t.
Proof.
  intros Hc. pose proof (plainByte_spaceRunes c Hc) as Hps.
  unfold TrimSpace. simpl list_ascii_of_string.
  set (l := list_ascii_of_string s).
  assert (Hleft : trimLeftRunes spaceRunes (c :: l) = c :: l).
  { apply trimLeftWith_fixed.
    destruct (stripAny spaceRunes (c :: l)) as [r|] eqn:E; [|reflexivity].
    apply stripAny_some in E as (p & Hp & Heq). exfalso.
    rewrite Forall_forall in Hps. specialize (Hps p (proj2 (list_elem_of_In _ _) Hp)).
    destruct p as [|a p].
    - pose proof spaceRunes_nonempty as Hne. rewrite Forall_forall in Hne.
      now apply (Hne [] (proj2 (list_elem_of_In _ _) Hp)).
    - injection Heq as -> _. apply Hps. now left. }
  rewrite Hleft. unfold trimRightRunes, trimLeftRunes.
  change (rev (c :: l)) with (rev l ++ [c])%list.
  destruct (trimLeftWith_keeps_last (map (@rev ascii) spaceRunes) c
              (length (rev l ++ [c])) (rev l)) as (l' & ->).
  { apply Forall_forall. intros p Hp. apply list_elem_of_In, in_map_iff in Hp as (q & <- & Hq).
    rewrite Forall_forall in Hps. rewrite <- in_rev.
    apply Hps. now apply list_elem_of_In. }
  rewrite rev_app_distr. simpl. eauto.
Qed.

Lemma TrimSpace_nonspace (c : ascii) (s : string) :
  plainByte c = true -> TrimSpace (String c s) <> "".
Proof. intros Hc. destruct (TrimSpace_plain c s Hc) as (t & ->). discriminate. Qed.

Lemma nonblank_append (c : ascii) (p s : string) :
  plainByte c = true -> String.eqb (TrimSpace (String c p +:+ s)) "" = false.
Proof. intros Hc. apply eqb_empty_false. now apply TrimSpace_nonspace. Qed.

(** ** The classification engine *)

Section ClassificationFacts.

Context {U : UnicodeTables}.

Variable parseFloatInt64 : string -> option Z.

Local Abbreviation parse := (parseArchivedValue parseFloatInt64).
Local Abbreviation archived := (computeArchived parseFloatInt64).
Local Abbreviation orderRule' := (orderRule parseFloatInt64).

Lemma computeArchived_skip_order upto order latest lastMessage :
  ~ orderRule' order latest ->
  archived upto order latest lastMessage =
  match parse upto with
  | Some ts =>
      if 1000000000000 <? ts then
        match lastMessage with Some lm => lm <=? ts | None => true end
      else
        match latest with Some l => l <=? ts | None => true end
  | None =>
      match upto with
      | Some str => negb (String.eqb (TrimSpace str) "")
      | None => false
      end
  end.
Proof.
  unfold orderRule', computeArchived. intros H.
  destruct (parse order) as [o|], latest as [l|]; try reflexivity.
  exfalso. apply H. split; eauto.
Qed.

(** On ASCII text the test for the prefix is the test of the first two
    letters. *)
Lemma prefix_cons (a b : ascii) (s1 s2 : string) :
  String.prefix (String a s1) (String b s2) = Ascii.eqb a b && String.prefix s1 s2.
Proof.
  change (String.prefix (String a s1) (String b s2))
    with (if ascii_dec a b then String.prefix s1 s2 else false).
  destruct (ascii_dec a b) as [->|Hne].
  - now rewrite Ascii.eqb_refl.
  - now rewrite (proj2 (Ascii.eqb_neq a b) Hne).
Qed.

Lemma HasPrefix_ts (text : string) :
  isASCII text = true -> HasPrefix (ToLower text) "ts" = hasTsPrefix text.
Proof.
  intros H. unfold ToLower. rewrite H. unfold HasPrefix, hasTsPrefix.
  destruct text as [|a [|b rest]]; cbn [mapBytes]; try reflexivity.
  - rewrite prefix_cons. now rewrite andb_false_r.
  - rewrite !prefix_cons, (Ascii.eqb_sym (lowerByte a)), (Ascii.eqb_sym (lowerByte b)).
    assert (Hnil : String.prefix "" (mapBytes lowerByte rest) = true)
      by now destruct (mapBytes lowerByte rest).
    now rewrite Hnil, andb_true_r.
Qed.

(** C1 (amended).  The archived state follows the three rules in priority
    order: (1) when the ordering-sequence marker parses and the latest order
    is known, archived iff latest order <= marker; (2) else, when the
    archived-through marker parses to [ts]: above the threshold 10^12,
    archived iff last-message timestamp <= [ts] (archived when unknown), and
    otherwise archived iff latest order <= [ts] (archived when unknown);
    (3) else archived iff the raw archived-through field is present and not
    blank.  A marker parses as follows: it is trimmed of white space; when
    its lower-case form starts with [ts] (on ASCII text: when its first two
    letters are t and s, in either case) its first two bytes are dropped, and
    no other prefix is; what is left must not be empty and is read by
    [strconv.ParseInt] or else by [strconv.ParseFloat], converted to int64. *)
Theorem computeArchived_priority
    (archivedUpto archivedUpToOrder : option string) (latestHsOrder lastMessage : option Z) :
  let result := archived archivedUpto archivedUpToOrder latestHsOrder lastMessage in
  (forall order latest,
      parse archivedUpToOrder = Some order -> latestHsOrder = Some latest ->
      (result = true <-> latest <= order))
  /\ (~ orderRule' archivedUpToOrder latestHsOrder ->
      forall ts, parse archivedUpto = Some ts ->
        (1000000000000 < ts ->
           match lastMessage with
           | Some lm => result = true <-> lm <= ts
           | None => result = true
           end)
        /\ (ts <= 1000000000000 ->
             match latestHsOrder with
             | Some latest => result = true <-> latest <= ts
             | None => result = true
             end))
  /\ (~ orderRule' archivedUpToOrder latestHsOrder ->
      parse archivedUpto = None ->
      (result = true <->
       exists raw, archivedUpto = Some raw /\ TrimSpace raw <> ""))
  /\ parse None = None
  /\ (forall raw,
        let text := TrimSpace raw in
        let body := if HasPrefix (ToLower text) "ts" then sliceFrom 2 text else text in
        parse (Some raw)
        = (if String.eqb body "" then None
           else match ParseInt body with
                | Some n => Some n
                | None => parseFloatInt64 body
                end)
        /\ (isASCII text = true -> HasPrefix (ToLower text) "ts" = hasTsPrefix text)).
Proof.
  intros result. subst result. split; [|split; [|split; [|split]]].
  - intros order latest Ho Hl. unfold computeArchived. rewrite Ho, Hl.
    apply Z.leb_le.
  - intros Hno ts Hts. rewrite (computeArchived_skip_order _ _ _ _ Hno), Hts.
    split; intros Hcmp.
    + apply Z.ltb_lt in Hcmp. rewrite Hcmp.
      destruct lastMessage; [apply Z.leb_le | reflexivity].
    + apply Z.ltb_ge in Hcmp. rewrite Hcmp.
      destruct latestHsOrder; [apply Z.leb_le | reflexivity].
  - intros Hno Hnone. rewrite (computeArchived_skip_order _ _ _ _ Hno), Hnone.
    destruct archivedUpto as [raw|].
    + rewrite negb_true_iff, String.eqb_neq. split.
      * intros H. exists raw. now split.
      * intros (raw' & [= <-] & H). exact H.
    + split; [discriminate | intros (raw & [=] & _)].
  - reflexivity.
  - intros raw text body. split; [|apply HasPrefix_ts].
    unfold parseArchivedValue. fold text. destruct (String.eqb text "") eqn:E.
    + apply String.eqb_eq in E. subst body. rewrite E.
      now destruct (HasPrefix (ToLower "") "ts").
    + reflexivity.
Qed.

(** The marker may carry the prefix [ts] in either case; a blank or absent
    field never parses. *)
Lemma parseArchivedValue_blank (value : string) :
  TrimSpace value = "" -> parse (Some value) = None.
Proof. intros H. unfold parseArchivedValue. now rewrite H. Qed.

End ClassificationFacts.

Example parseArchivedValue_ts :
  parseArchivedValue (U := testTables) noFloat (Some " TS1700000000000 ") = Some 1700000000000.
Proof. reflexivity. Qed.

Example parseArchivedValue_order : parseArchivedValue (U := testTables) noFloat (Some "5") =
    Some 5.
Proof. reflexivity. Qed.

Example parseArchivedValue_text : parseArchivedValue (U := testTables) noFloat (Some "true") =
    None.
Proof. reflexivity. Qed.

Example computeArchived_room2 :
  computeArchived (U := testTables) noFloat (Some "5") None (Some 5) (Some 1700000000400) = true.
Proof. reflexivity. Qed.

Example computeArchived_textual :
  computeArchived (U := testTables) noFloat (Some "true") None (Some 5) None = true.
Proof. reflexivity. Qed.

(** C1 fails as stated: a marker with a prefix other than [ts] is not read
    as a number.  The claim strips the prefix of [abc5] and reads 5, so a
    thread with latest order 10 is not archived by its rule 2;
    [strconv.ParseInt] and [strconv.ParseFloat] both reject [abc5], and
    rule 3 archives the thread. *)
Lemma computeArchived_other_prefix :
  parseArchivedValue (U := testTables) noFloat (Some "abc5") = None
  /\ computeArchived (U := testTables) noFloat (Some "abc5") None (Some 10) None = true
  /\ ParseInt "5" = Some 5
  /\ ~ 10 <= 5.
Proof. repeat split; try reflexivity. lia. Qed.

(** ** Label membership *)

Lemma shouldIncludeThread_gate {U : UnicodeTables} label t a ilp :
  passesGate t ilp ->
  shouldIncludeThread label t a ilp =
  if String.eqb label LabelInbox then favourite t || negb a
  else if String.eqb label LabelArchive then a && negb (favourite t)
  else if String.eqb label LabelFavourite then favourite t
  else if String.eqb label LabelUnread then IsUnread t || IsMarkedUnread t
  else true.
Proof.
  unfold passesGate, shouldIncludeThread, favourite. intros ->.
  destruct (String.eqb label LabelInbox), (String.eqb label LabelArchive),
    (String.eqb label LabelFavourite), (String.eqb label LabelUnread),
    (String.eqb label LabelAll), (containsTag (Tags t) "favourite"), a; reflexivity.
Qed.

(** C2.  For a thread that passes the low-priority gate: a favourite thread
    is in the inbox whatever its archived state and never in the archive; a
    thread that is not favourite is in the inbox iff it is not archived and in
    the archive iff it is archived; so every favourite result is an inbox
    result, and no thread is both an archive and a favourite result. *)
Theorem label_membership {U : UnicodeTables} (t : Thread) (archived includeLowPriority : bool) :
  passesGate t includeLowPriority ->
  let included label := shouldIncludeThread label t archived includeLowPriority in
  (favourite t = true -> included LabelInbox = true /\ included LabelArchive = false)
  /\ (favourite t = false ->
      included LabelInbox = negb archived /\ included LabelArchive = archived)
  /\ (included LabelFavourite = true -> included LabelInbox = true)
  /\ ~ (included LabelArchive = true /\ included LabelFavourite = true).
Proof.
  intros Hgate included. subst included. cbv beta.
  rewrite !(shouldIncludeThread_gate _ _ _ _ Hgate). simpl.
  destruct (favourite t), archived; simpl; intuition congruence.
Qed.

Lemma label_membership_witness :
  let t := mkThread "!room3:beeper.local" "signal" "Fav" "" "group" "" 0 0 0
                    false false true true 0 0 0 ["Favourite"] [] in
  passesGate t true
  /\ shouldIncludeThread (U := testTables) LabelInbox t true true = true
  /\ shouldIncludeThread (U := testTables) LabelArchive t true true = false.
Proof.
  intros t. split; [reflexivity|].
  exact (proj1 (label_membership (U := testTables) t true true eq_refl) eq_refl).
Defined.

(** A low-priority thread is in no label unless low priority is included. *)
Lemma shouldIncludeThread_low_priority {U : UnicodeTables} label t a :
  IsLowPriority t = true -> shouldIncludeThread label t a false = false.
Proof. unfold shouldIncludeThread. now intros ->. Qed.

(** ** The text renderer *)

Section MessageTextFacts.

Context {U : UnicodeTables}.

Variable jsonUnmarshal : string -> option JSON.

Local Abbreviation extract := (extractMessageText jsonUnmarshal).
Local Abbreviation resolve := (ResolveMessageText jsonUnmarshal).

Lemma fallbackMessageText_TEXT value rich : fallbackMessageText value "TEXT" rich = value.
Proof. reflexivity. Qed.

Lemma renderPayload_plain payload msgType :
  renderPayload payload msgType false = firstString payload ["body"; "text"].
Proof. reflexivity. Qed.

Lemma renderPayload_TEXT payload rich :
  renderPayload payload "TEXT" rich = firstString payload ["body"; "text"].
Proof. unfold renderPayload. now rewrite orb_true_r. Qed.

(** For a text message the payload text does not depend on the mode. *)
Lemma extractMessageText_TEXT rawMessage msgType rich :
  upperTypeOf msgType = "TEXT" ->
  extract rawMessage msgType rich = extract rawMessage msgType false.
Proof.
  unfold extractMessageText, upperTypeOf. intros ->.
  destruct (String.eqb (TrimSpace rawMessage) ""); [reflexivity|].
  destruct (jsonUnmarshal rawMessage) as [[]|]; try reflexivity.
  now rewrite !renderPayload_TEXT.
Qed.

(** C6 (amended).  For a message of type TEXT the text taken from the
    payload is the same in both modes; rich mode shows it when it is not
    blank and the plain-text field otherwise, plain mode shows the plain-text
    field when it is not blank and the payload text otherwise.  The two
    renderings are therefore the same string exactly when one of the two
    texts is blank and the other is not, or the two texts are equal. *)
Theorem text_rich_vs_plain (rawMessage msgType textContent : string) :
  upperTypeOf msgType = "TEXT" ->
  let body := extract rawMessage msgType false in
  resolve rawMessage msgType textContent FormatRich
    = (if isBlank body then textContent else body)
  /\ resolve rawMessage msgType textContent FormatPlain
    = (if isBlank textContent then body else textContent)
  /\ (resolve rawMessage msgType textContent FormatRich
      = resolve rawMessage msgType textContent FormatPlain
      <-> isBlank body = negb (isBlank textContent) \/ body = textContent).
Proof.
  intros Hty body.
  assert (Hrich : resolve rawMessage msgType textContent FormatRich
                  = if isBlank body then textContent else body).
  { unfold ResolveMessageText. simpl. rewrite (extractMessageText_TEXT _ _ true Hty).
    fold body. unfold isBlank. now destruct (String.eqb (TrimSpace body) ""). }
  assert (Hplain : resolve rawMessage msgType textContent FormatPlain
                   = if isBlank textContent then body else textContent).
  { unfold ResolveMessageText. simpl. fold body. unfold isBlank.
    now destruct (String.eqb (TrimSpace textContent) ""). }
  split; [exact Hrich|]. split; [exact Hplain|].
  rewrite Hrich, Hplain.
  destruct (isBlank body), (isBlank textContent); simpl; split; intros H;
    try (destruct H as [H|H]; try discriminate H); auto.
Qed.

(** C9.  A FILE payload renders in rich mode as [[File: name - url]] when
    both a file name and a URL are given, as [[File: name]] or [[File: url]]
    when only one is, and as [[File]] when neither is; in plain mode, with an
    empty plain-text field and no [body] or [text] key, it renders as the
    empty string. *)
Theorem file_rendering (rawMessage msgType : string) (payload : gmap string JSON) :
  TrimSpace rawMessage <> "" ->
  upperTypeOf msgType = "FILE" ->
  jsonUnmarshal rawMessage = Some (JObject payload) ->
  let filename := firstString payload ["filename"; "name"] in
  let url := firstString payload ["url"] in
  (forall textContent,
      resolve rawMessage msgType textContent FormatRich =
      if negb (String.eqb filename "") && negb (String.eqb url "")
      then "[File: " +:+ filename +:+ " - " +:+ url +:+ "]"
      else if negb (String.eqb filename "") then "[File: " +:+ filename +:+ "]"
      else if negb (String.eqb url "") then "[File: " +:+ url +:+ "]"
      else "[File]")
  /\ renderPayload payload "FILE" true =
      (if negb (String.eqb filename "") && negb (String.eqb url "")
       then "[File: " +:+ filename +:+ " - " +:+ url +:+ "]"
       else if negb (String.eqb filename "") then "[File: " +:+ filename +:+ "]"
       else if negb (String.eqb url "") then "[File: " +:+ url +:+ "]"
       else "[File]")
  /\ (payload !! "body" = None -> payload !! "text" = None ->
      resolve rawMessage msgType "" FormatPlain = "").
Proof.
  intros Hraw Hty Hjson filename url.
  assert (Hex : forall rich, extract rawMessage msgType rich = renderPayload payload "FILE" rich).
  { intros rich. unfold extractMessageText. fold (upperTypeOf msgType).
    now rewrite (eqb_empty_false _ Hraw), Hty, Hjson. }
  assert (Hfile : renderPayload payload "FILE" true =
      if negb (String.eqb filename "") && negb (String.eqb url "")
      then "[File: " +:+ filename +:+ " - " +:+ url +:+ "]"
      else if negb (String.eqb filename "") then "[File: " +:+ filename +:+ "]"
      else if negb (String.eqb url "") then "[File: " +:+ url +:+ "]"
      else "[File]") by reflexivity.
  split; [|split].
  - intros textContent. unfold ResolveMessageText.
    change (String.eqb FormatRich FormatPlain) with false. cbv iota.
    rewrite Hex, Hfile.
    destruct (String.eqb filename ""), (String.eqb url ""); cbn [negb andb];
      try rewrite nonblank_append by reflexivity; reflexivity.
  - exact Hfile.
  - intros Hbody Htext. unfold ResolveMessageText. simpl. rewrite Hex.
    rewrite renderPayload_plain. unfold firstString. simpl.
    now rewrite Hbody, Htext.
Qed.

End MessageTextFacts.

(** message_text_test.go, [TestResolveMessageTextRich]. *)
Example TestResolveMessageTextRich :
  ResolveMessageText (U := testTables) testFileUnmarshal testFileRaw "FILE" "" FormatRich
    = "[File: report.pdf - https://example.com/file.pdf]"
  /\ ResolveMessageText (U := testTables) testFileUnmarshal testFileRaw "FILE" "" FormatPlain =
      "".
Proof. split; vm_compute; reflexivity. Qed.

Lemma file_rendering_witness :
  TrimSpace testFileRaw <> ""
  /\ upperTypeOf (U := testTables) "file" = "FILE"
  /\ testFileUnmarshal testFileRaw = Some (JObject testFilePayload)
  /\ ResolveMessageText (U := testTables) testFileUnmarshal testFileRaw "file" "report" FormatRich
      = "[File: report.pdf - https://example.com/file.pdf]"
  /\ ResolveMessageText (U := testTables) testFileUnmarshal testFileRaw "file" "" FormatPlain =
      "".
Proof.
  assert (Hraw : TrimSpace testFileRaw <> "") by (vm_compute; discriminate).
  assert (Hty : upperTypeOf (U := testTables) "file" = "FILE") by reflexivity.
  assert (Hjson : testFileUnmarshal testFileRaw = Some (JObject testFilePayload))
    by (vm_compute; reflexivity).
  destruct (file_rendering testFileUnmarshal testFileRaw "file" testFilePayload
              Hraw Hty Hjson) as (Hrich & _ & Hplain).
  split; [exact Hraw|]. split; [exact Hty|]. split; [exact Hjson|]. split.
  - rewrite Hrich. vm_compute. reflexivity.
  - apply Hplain; vm_compute; reflexivity.
Defined.

(** C6 fails as stated: a text message whose payload text and plain-text
    field are both non-blank and differ renders as the payload text in rich
    mode and as the plain-text field in plain mode. *)
Lemma text_rich_differs_from_plain :
  let raw := jsonDoc "text" "hello" in
  testUnmarshal raw = Some (JObject {[ "text" := JString "hello" ]})
  /\ ResolveMessageText (U := testTables) testUnmarshal raw "TEXT" "hello!" FormatRich = "hello"
  /\ ResolveMessageText (U := testTables) testUnmarshal raw "TEXT" "hello!" FormatPlain = "hello!"
  /\ ResolveMessageText (U := testTables) testUnmarshal raw "TEXT" "hello!" FormatRich
      <> ResolveMessageText (U := testTables) testUnmarshal raw "TEXT" "hello!" FormatPlain.
Proof. repeat split; try (vm_compute; reflexivity). vm_compute. discriminate. Qed.

(** The same without any decoder: an empty payload and a plain-text field
    that holds a single space. *)
Lemma text_rich_differs_on_blank {U : UnicodeTables} (jsonUnmarshal : string -> option JSON) :
  ResolveMessageText jsonUnmarshal "" "TEXT" " " FormatRich = " "
  /\ ResolveMessageText jsonUnmarshal "" "TEXT" " " FormatPlain = "".
Proof. split; reflexivity. Qed.

Lemma text_rich_vs_plain_witness :
  upperTypeOf (U := testTables) " text " = "TEXT"
  /\ ResolveMessageText (U := testTables) testUnmarshal (jsonDoc "text" "hello") " text " ""
      FormatRich
      = ResolveMessageText (U := testTables) testUnmarshal (jsonDoc "text" "hello") " text " ""
          FormatPlain.
Proof.
  split; [reflexivity|].
  apply (text_rich_vs_plain testUnmarshal (jsonDoc "text" "hello") " text " "" eq_refl).
  left. vm_compute. reflexivity.
Defined.

(** ** The name resolver *)

Section BridgeFacts.

Context {U : UnicodeTables}.

Variable bridgeFiles : gmap string BridgeDB.
Variable rangeValues : gmap string string -> list string.

Local Abbreviation query := (queryBridgeName bridgeFiles).
Local Abbreviation lookup := (LookupDMName bridgeFiles rangeValues).
Local Abbreviation reachable' := (reachable bridgeFiles rangeValues).

Lemma cachedOutcome_found (name : string) : name <> "" -> cachedOutcome name = (name, true).
Proof. intros H. unfold cachedOutcome. now rewrite (eqb_empty_false _ H). Qed.

(** A store yields a non-empty name, or nothing. *)
Lemma queryBridgeName_outcome dbPath roomID name ok :
  query dbPath roomID = Ok (name, ok) -> (name, ok) = cachedOutcome name.
Proof.
  unfold queryBridgeName.
  destruct (bridgeFiles !! dbPath) as [store|]; [|discriminate].
  destruct (portal store) as [rows|]; [|discriminate].
  destruct (List.find _ rows) as [[? [otherUser|]]|]; try (intros [= <- <-]; reflexivity).
  destruct (ghost store) as [ghosts|]; [|discriminate].
  destruct (List.find _ ghosts) as [[? [found|]]|]; try (intros [= <- <-]; reflexivity).
  destruct (String.eqb (TrimSpace found) "") eqn:E; intros [= <- <-]; [reflexivity|].
  symmetry. apply cachedOutcome_found. now apply String.eqb_neq.
Qed.

Lemma lookupAll_outcome paths roomID log name log' :
  lookupAll bridgeFiles paths roomID log = (Ok (Some name), log') ->
  cachedOutcome name = (name, true).
Proof.
  revert log. induction paths as [|path rest IH]; intros log; simpl; [discriminate|].
  destruct (query path roomID) as [[found [|]]|e] eqn:E.
  - intros [= <- <-]. apply queryBridgeName_outcome in E. now inversion E.
  - apply IH.
  - discriminate.
Qed.

(** The loop over the stores only ever adds to the log. *)
Lemma lookupAll_log paths roomID log :
  exists added, snd (lookupAll bridgeFiles paths roomID log) = (added ++ log)%list
                /\ (paths <> [] -> added <> []).
Proof.
  revert log. induction paths as [|path rest IH]; intros log; simpl.
  - now exists [].
  - destruct (query path roomID) as [[found [|]]|e]; simpl;
      try (exists [path]; split; [reflexivity | discriminate]).
    destruct (IH (path :: log)) as (added & -> & _).
    exists (added ++ [path])%list. rewrite <- app_assoc. split; [reflexivity|].
    intros _. destruct added; discriminate.
Qed.

Lemma lookup_cacheGuard roomID accountID s :
  cacheGuard s -> cacheGuard (snd (lookup roomID accountID s)).
Proof.
  intros Hs. unfold LookupDMName.
  destruct (bridge s) as [b|] eqn:Hb; [|exact Hs].
  case_bool_decide as Hsize; [exact Hs|].
  destruct (cache b !! roomID) as [cached|].
  { destruct (String.eqb cached ""); exact Hs. }
  assert (Hset : forall name log, cacheGuard (mkSession (Some (setCache b roomID name)) log)).
  { intros name log b' [= <-] Hsz. now destruct Hsize. }
  assert (Hkeep : forall log, cacheGuard (mkSession (Some b) log)).
  { intros log b' [= <-] Hsz. now destruct Hsize. }
  destruct (negb _).
  - destruct (query _ roomID) as [[name ok]|e]; simpl; auto.
  - destruct (lookupAll _ _ _ _) as [[[name|]|e] log]; simpl; auto.
Qed.

Lemma reachable_cacheGuard s : reachable' s -> cacheGuard s.
Proof.
  induction 1 as [|fdir fjoin rdir st idx root b Hnew|s roomID accountID _ IH].
  - intros b [=].
  - intros b' [= <-] _. unfold NewBridgeLookup in Hnew.
    destruct (rdir _); simpl in Hnew; [|discriminate]. now inversion Hnew.
  - now apply lookup_cacheGuard.
Qed.

(** A cached conversation is answered from the cache: no store is opened and
    the session does not change. *)
Lemma lookup_cached s b roomID accountID cached :
  bridge s = Some b -> size (platformDBs b) <> 0%nat -> cache b !! roomID = Some cached ->
  lookup roomID accountID s = (Ok (cachedOutcome cached), s).
Proof.
  intros Hb Hsize Hc. unfold LookupDMName, cachedOutcome. rewrite Hb.
  rewrite bool_decide_eq_false_2 by exact Hsize. rewrite Hc.
  now destruct (String.eqb cached "").
Qed.

(** A lookup that opened a store and returned without error has recorded
    what it returns. *)
Lemma lookup_records s roomID accountID name ok s' :
  lookup roomID accountID s = (Ok (name, ok), s') -> opened s' <> opened s ->
  exists b', bridge s' = Some b' /\ size (platformDBs b') <> 0%nat
             /\ cache b' !! roomID = Some name /\ (name, ok) = cachedOutcome name.
Proof.
  unfold LookupDMName.
  destruct (bridge s) as [b|] eqn:Hb; [|intros [= <- <- <-]; congruence].
  case_bool_decide as Hsize; [intros [= <- <- <-]; congruence|].
  destruct (cache b !! roomID) as [cached|].
  { destruct (String.eqb cached ""); intros [= <- <- <-]; congruence. }
  destruct (negb _).
  - destruct (query _ roomID) as [[found ok']|e] eqn:E; [|discriminate].
    intros [= <- <- <-] _. eexists. split; [reflexivity|]. simpl.
    split; [exact Hsize|]. split; [apply lookup_insert_eq|].
    now apply queryBridgeName_outcome in E.
  - destruct (lookupAll _ _ _ _) as [[[found|]|e] log] eqn:E; [| |discriminate].
    + intros [= <- <- <-] _. eexists. split; [reflexivity|]. simpl.
      split; [exact Hsize|]. split; [apply lookup_insert_eq|].
      symmetry. now apply lookupAll_outcome in E.
    + intros [= <- <- <-] _. eexists. split; [reflexivity|]. simpl.
      split; [exact Hsize|]. split; [apply lookup_insert_eq | reflexivity].
Qed.

(** C8.  In every session the store can reach: a conversation recorded in
    the cache, also as a miss, is answered with the cached outcome, no store
    is opened and the session (cache included) stays as it is; a lookup that
    consulted a store and returned has recorded its result, a miss as the
    empty string, so that the next lookup of the conversation is answered
    from the cache. *)
Theorem LookupDMName_cache (s : Session) (roomID accountID : string) :
  reachable' s ->
  (forall b cached,
      bridge s = Some b -> cache b !! roomID = Some cached ->
      lookup roomID accountID s = (Ok (cachedOutcome cached), s))
  /\ (forall name ok s',
        lookup roomID accountID s = (Ok (name, ok), s') -> opened s' <> opened s ->
        (exists b', bridge s' = Some b' /\ cache b' !! roomID = Some name
                    /\ (name, ok) = cachedOutcome name)
        /\ forall accountID', lookup roomID accountID' s' = (Ok (name, ok), s')).
Proof.
  intros Hreach. split.
  - intros b cached Hb Hc. apply (lookup_cached s b); try assumption.
    intros Hsize. apply (reachable_cacheGuard s Hreach b Hb) in Hsize.
    rewrite Hsize in Hc. now rewrite lookup_empty in Hc.
  - intros name ok s' Hrun Hlog.
    destruct (lookup_records _ _ _ _ _ _ Hrun Hlog) as (b' & Hb' & Hsize & Hc & Hout).
    split; [now exists b'|].
    intros accountID'. rewrite Hout. now apply (lookup_cached s' b').
Qed.

(** A lookup that fails leaves the cache as it is. *)
Lemma lookup_error_keeps_cache s roomID accountID e s' :
  lookup roomID accountID s = (Err e, s') -> bridge s' = bridge s.
Proof.
  unfold LookupDMName.
  destruct (bridge s) as [b|] eqn:Hb; [|discriminate].
  case_bool_decide; [discriminate|].
  destruct (cache b !! roomID) as [cached|].
  { destruct (String.eqb cached ""); discriminate. }
  destruct (negb _).
  - destruct (query _ roomID) as [[found ok']|e']; [discriminate|]. now intros [= <- <-].
  - destruct (lookupAll _ _ _ _) as [[[found|]|e'] log]; try discriminate.
    now intros [= <- <-].
Qed.

End BridgeFacts.

(** The session after a first lookup of room 1, which no bridge knows. *)
Lemma LookupDMName_cache_witness :
  let s := snd (LookupDMName (U := testTables) testBridgeFiles testRange "!room1:beeper.local"
      "whatsapp"
                  (mkSession (Some (mkBridgeLookup
                     {[ "whatsapp" := "/bridge/local-whatsapp/megabridge.db" ]} ∅)) [])) in
  reachable (U := testTables) testBridgeFiles testRange s
  /\ opened s = ["/bridge/local-whatsapp/megabridge.db"]
  /\ LookupDMName (U := testTables) testBridgeFiles testRange "!room1:beeper.local" "telegram" s
     = (Ok ("", false), s).
Proof.
  intros s.
  assert (Hreach : reachable (U := testTables) testBridgeFiles testRange s).
  { apply reachable_lookup.
    apply (reachable_new _ _ (fun _ => "/data") testJoin testReadDir testStat
             "/data/index.db" "/bridge").
    vm_compute. reflexivity. }
  split; [exact Hreach|]. split; [vm_compute; reflexivity|].
  pose proof (LookupDMName_cache testBridgeFiles testRange s "!room1:beeper.local"
                "telegram" Hreach) as [Hcached _].
  refine (Hcached (mkBridgeLookup {[ "whatsapp" := "/bridge/local-whatsapp/megabridge.db" ]}
                                  {[ "!room1:beeper.local" := "" ]}) "" _ _).
  - vm_compute. reflexivity.
  - vm_compute. reflexivity.
Defined.

(** store_test.go, [TestBridgeLookupDMName]: the first lookup of room 4 opens
    the WhatsApp store and finds the name; the second opens nothing. *)
Example TestBridgeLookupDMName_twice :
  let '(first, s1) :=
    LookupDMName (U := testTables) testBridgeFiles testRange "!room4:beeper.local" "whatsapp"
        testSession in
  let '(second, s2) :=
    LookupDMName (U := testTables) testBridgeFiles testRange "!room4:beeper.local" "whatsapp" s1
        in
  first = Ok ("Bridge Name", true) /\ second = first
  /\ opened s1 = ["/bridge/local-whatsapp/megabridge.db"] /\ opened s2 = opened s1.
Proof. vm_compute. repeat split; reflexivity. Qed.

(** ** Display names *)

Section DisplayNameFacts.

Context {U : UnicodeTables}.

Variable bridgeFiles : gmap string BridgeDB.
Variable rangeValues : gmap string string -> list string.

Local Abbreviation displayName' := (displayName bridgeFiles rangeValues).
Local Abbreviation lookup := (LookupDMName bridgeFiles rangeValues).

(** C5 (amended).  The display name is the title if non-empty; else the name
    if non-empty; else, for a direct conversation of a store with a bridge,
    the name the resolver yields, if any; else ["(unknown)"] when no non-self
    participant is known; else, for a direct conversation, the name of the
    first non-self participant; else the non-self participant names joined
    with [", "], cut to three names followed by [" +N"] for the [N] further
    ones when there are more than three. *)
Theorem displayName_priority (thread : Thread) (ps : list Participant) (s : Session) :
  let nonSelf := map p_Name (List.filter (fun p => negb (p_IsSelf p)) ps) in
  let looked := lookup (ID thread) (AccountID thread) s in
  let consulted := is_Some (bridge s) /\ isDirect thread = true in
  (Title thread <> "" -> displayName' thread ps s = (Title thread, s))
  /\ (Title thread = "" -> Name thread <> "" -> displayName' thread ps s = (Name thread, s))
  /\ (Title thread = "" -> Name thread = "" ->
      (consulted -> forall name, fst looked = Ok (name, true) ->
                    displayName' thread ps s = (name, snd looked))
      /\ (~ consulted \/ (forall name, fst looked <> Ok (name, true)) ->
          fst (displayName' thread ps s) =
          match nonSelf with
          | [] => "(unknown)"
          | first :: _ =>
              if isDirect thread then first
              else if bool_decide (length nonSelf <= 3)%nat then Join nonSelf ", "
              else Join (take 3 nonSelf) ", " +:+ " +" +:+
                   pretty (Z.of_nat (length nonSelf) - 3)
          end)).
Proof.
  intros nonSelf looked consulted. unfold displayName.
  split; [|split].
  - intros H. now rewrite (eqb_empty_false _ H).
  - intros -> H. simpl. now rewrite (eqb_empty_false _ H).
  - intros -> ->. simpl. fold nonSelf. split.
    + intros [Hb Hd] name Hname. rewrite bool_decide_eq_true_2 by exact Hb.
      rewrite Hd. simpl. fold looked. destruct looked as [r s']. simpl in Hname.
      now subst r.
    + intros Hun.
      set (r := if bool_decide (is_Some (bridge s)) && isDirect thread
                then lookup (ID thread) (AccountID thread) s
                else (Ok ("", false), s)).
      assert (Hr : forall name, fst r <> Ok (name, true)).
      { subst r. destruct (bool_decide (is_Some (bridge s)) && isDirect thread) eqn:Hc.
        - apply andb_true_iff in Hc as [Hb Hd]. apply bool_decide_eq_true in Hb.
          destruct Hun as [Hun|Hun]; [now destruct Hun | exact Hun].
        - discriminate. }
      destruct r as [[[name [|]]|e] s']; simpl in Hr |- *;
        [now destruct (Hr name)| |];
        destruct nonSelf; try reflexivity;
        destruct (isDirect thread); try reflexivity;
        case_bool_decide; reflexivity.
Qed.

(** The display name only reads the identity, title, name and type of the
    thread. *)
Lemma displayName_reads (t t' : Thread) ps :
  ID t = ID t' -> AccountID t = AccountID t' -> Title t = Title t' ->
  Name t = Name t' -> Type_ t = Type_ t' ->
  displayName' t ps = displayName' t' ps.
Proof.
  intros H1 H2 H3 H4 H5. unfold displayName, isDirect.
  now rewrite H1, H2, H3, H4, H5.
Qed.

End DisplayNameFacts.

(** C5 fails as stated: a direct conversation with two non-self participants
    and no resolver is named after the first of them only. *)
Lemma displayName_direct_first_only :
  let thread := mkThread "!dm:beeper.local" "whatsapp" "" "" "single" ""
                         GoTime.zero GoTime.zero GoTime.zero
                         false false false false 0 0 0 [] [] in
  let ps := [ mkParticipant "@me:beeper.local" "Me" true;
              mkParticipant "@alice:beeper.local" "Alice" false;
              mkParticipant "@bob:beeper.local" "Bob" false ] in
  let nonSelf := map p_Name (List.filter (fun p => negb (p_IsSelf p)) ps) in
  fst (displayName (U := testTables) testBridgeFiles testRange thread ps (mkSession None [])) =
      "Alice"
  /\ Join nonSelf ", " = "Alice, Bob"
  /\ fst (displayName (U := testTables) testBridgeFiles testRange thread ps (mkSession None []))
     <> Join nonSelf ", ".
Proof. repeat split. vm_compute. discriminate. Qed.

Example displayName_group_of_five :
  let thread := mkThread "!g:beeper.local" "signal" "" "" "group" ""
                         GoTime.zero GoTime.zero GoTime.zero
                         false false false false 0 0 0 [] [] in
  let ps := map (fun n => mkParticipant n n false) ["A"; "B"; "C"; "D"; "E"] in
  fst (displayName (U := testTables) testBridgeFiles testRange thread ps (mkSession None [])) =
      "A, B, C +2".
Proof. vm_compute. reflexivity. Qed.

Example displayName_only_self :
  fst (displayName (U := testTables) testBridgeFiles testRange emptyThread
         [mkParticipant "@me:beeper.local" "Me" true] (mkSession None [])) = "(unknown)".
Proof. reflexivity. Qed.

(** ** Lists, sorting and loops *)

Section ListFacts.

Context {A B : Type}.

Lemma StronglySorted_sublist (R : A -> A -> Prop) (l1 l2 : list A) :
  sublist l1 l2 -> StronglySorted R l2 -> StronglySorted R l1.
Proof.
  induction 1 as [|x l1 l2 Hsub IH|x l1 l2 Hsub IH]; intros Hs.
  - constructor.
  - apply StronglySorted_inv in Hs as [Hs Hall]. constructor; [now apply IH|].
    rewrite Forall_forall in Hall |- *. intros y Hy. apply Hall.
    eapply elem_of_sublist; [exact Hy | exact Hsub].
  - apply StronglySorted_inv in Hs as [Hs _]. now apply IH.
Qed.

Lemma filter_sublist (f : A -> bool) (l : list A) : sublist (List.filter f l) l.
Proof.
  induction l as [|x l IH]; simpl; [constructor|].
  destruct (f x); now constructor.
Qed.

(** The rows a filtering loop keeps, with what it made of them. *)
Lemma omap_kept (f : A -> option B) (l : list A) :
  exists kept, sublist kept l /\ Forall2 (fun x y => f x = Some y) kept (omap f l).
Proof.
  induction l as [|x l (kept & Hsub & Hall)]; simpl.
  - exists []. split; constructor.
  - destruct (f x) as [y|] eqn:E.
    + exists (x :: kept). split; constructor; assumption.
    + exists kept. split; [now constructor | assumption].
Qed.

Lemma insertBy_elem (le : A -> A -> bool) (x y : A) (l : list A) :
  In y (insertBy le x l) <-> y = x \/ In y l.
Proof.
  induction l as [|z l IH]; simpl; [intuition|].
  destruct (le x z); simpl; rewrite ?IH; intuition.
Qed.

Lemma sortBy_elem (le : A -> A -> bool) (y : A) (l : list A) :
  In y (sortBy le l) <-> In y l.
Proof.
  induction l as [|x l IH]; simpl; [reflexivity|].
  unfold sortBy in *. simpl. rewrite insertBy_elem, IH. intuition.
Qed.

(** Insertion sort under a total, transitive order sorts. *)
Lemma sortBy_sorted (le : A -> A -> bool) (l : list A) :
  (forall a b, le a b = false -> le b a = true) ->
  (forall a b c, le a b = true -> le b c = true -> le a c = true) ->
  StronglySorted (fun a b => le a b = true) (sortBy le l).
Proof.
  intros Htotal Htrans.
  assert (Hins : forall x l', StronglySorted (fun a b => le a b = true) l' ->
                              StronglySorted (fun a b => le a b = true) (insertBy le x l')).
  { intros x l'. induction l' as [|z l' IH]; intros Hs; simpl.
    - repeat constructor.
    - apply StronglySorted_inv in Hs as [Hs Hall]. destruct (le x z) eqn:E.
      + constructor; [now constructor|]. constructor; [exact E|].
        rewrite Forall_forall in Hall |- *. intros y Hy. eauto.
      + constructor; [now apply IH|].
        rewrite Forall_forall in Hall |- *. intros y Hy.
        apply list_elem_of_In, insertBy_elem in Hy as [->|Hy]; [now apply Htotal|].
        now apply Hall, list_elem_of_In. }
  induction l as [|x l IH]; [constructor|].
  unfold sortBy in *. simpl. now apply Hins.
Qed.

(** A loop over a list produces one result per element, from that element. *)
Lemma forM_Forall2 (f : A -> M B) (l : list A) (s : Session) :
  Forall2 (fun x y => exists s1, y = fst (f x s1)) l (fst (forM f l s)).
Proof.
  revert s. induction l as [|x l IH]; intros s; simpl; [constructor|].
  unfold bind. destruct (f x s) as [y s1] eqn:E.
  specialize (IH s1). destruct (forM f l s1) as [ys s2]. simpl in *.
  constructor; [|exact IH]. exists s. now rewrite E.
Qed.

Lemma forME_Forall2 (f : A -> M (Result B)) (l : list A) (s : Session) (out : list B) :
  fst (forME f l s) = Ok out ->
  Forall2 (fun x y => exists s1, fst (f x s1) = Ok y) l out.
Proof.
  revert s out. induction l as [|x l IH]; intros s out; simpl.
  - intros [= <-]. constructor.
  - unfold bind. destruct (f x s) as [[y|e] s1] eqn:E; simpl; [|discriminate].
    specialize (IH s1). destruct (forME f l s1) as [[ys|e] s2]; simpl in *; [|discriminate].
    intros [= <-]. constructor; [|now apply IH]. exists s. now rewrite E.
Qed.

(** The error such a loop returns is the error of one of its steps. *)
Lemma forME_error (f : A -> M (Result B)) (l : list A) (s : Session) (e : error) :
  fst (forME f l s) = Err e -> exists x s1, In x l /\ fst (f x s1) = Err e.
Proof.
  revert s. induction l as [|x l IH]; intros s; simpl; [discriminate|].
  unfold bind. destruct (f x s) as [[y|e'] s1] eqn:E; simpl.
  - specialize (IH s1). destruct (forME f l s1) as [[ys|e'] s2]; simpl in *; [discriminate|].
    intros [= ->]. destruct (IH eq_refl) as (x' & s' & Hin & Hx). eauto.
  - intros [= ->]. exists x, s. rewrite E. auto.
Qed.

End ListFacts.

(** ** Thread listing *)

Section ThreadFacts.

Context {U : UnicodeTables}.

Variable parseFloatInt64 : string -> option Z.
Variable jsonUnmarshalStrings : string -> option (list string).
Variable cutoffMillis : Z -> Z.
Variable bridgeFiles : gmap string BridgeDB.
Variable rangeValues : gmap string string -> list string.

Local Abbreviation scanThread' := (scanThread parseFloatInt64 jsonUnmarshalStrings).
Local Abbreviation listThreadsRow' := (listThreadsRow parseFloatInt64 jsonUnmarshalStrings).
Local Abbreviation listThreadsQuery' := (listThreadsQuery cutoffMillis).
Local Abbreviation ListThreads' :=
  (ListThreads parseFloatInt64 jsonUnmarshalStrings cutoffMillis bridgeFiles rangeValues).
Local Abbreviation GetThread' :=
  (GetThread parseFloatInt64 jsonUnmarshalStrings bridgeFiles rangeValues).
Local Abbreviation displayName' := (displayName bridgeFiles rangeValues).

Lemma Forall2_compose {A B C : Type} (P : A -> B -> Prop) (Q : B -> C -> Prop)
    (l : list A) (k : list B) (m : list C) :
  Forall2 P l k -> Forall2 Q k m -> Forall2 (fun x z => exists y, P x y /\ Q y z) l m.
Proof.
  intros H. revert m. induction H as [|x y l k Hxy _ IH]; intros m Hm; inversion Hm; subst.
  - constructor.
  - constructor; eauto.
Qed.

Lemma maxTime_three (a b c : GoTime.Time) :
  maxTime [a; b; c] = Z.max (Z.max (Z.max GoTime.zero a) b) c.
Proof.
  assert (H : forall latest t, (if GoTime.After t latest then t else latest) = Z.max latest t).
  { intros latest t. unfold GoTime.After. destruct (Z.ltb_spec latest t); lia. }
  unfold maxTime. simpl. now rewrite !H.
Qed.

(** The last activity is the latest of the three timestamps, and a zero or
    absent timestamp is never the one that wins. *)
Lemma scanThread_LastActivity r : LastActivity (scanThread' r) = lastActivityOf r.
Proof. unfold scanThread, lastActivityOf. simpl. apply maxTime_three. Qed.

Lemma unixMillisOrZero_absent : unixMillisOrZero None = GoTime.zero.
Proof. reflexivity. Qed.

Lemma unixMillisOrZero_zero : unixMillisOrZero (Some 0) = GoTime.zero.
Proof. reflexivity. Qed.

Lemma listThreadsRow_kept opts label r t :
  listThreadsRow' opts label r = Some t ->
  ID t = t_threadID (q_thread r) /\ LastActivity t = lastActivityOf r.
Proof.
  unfold listThreadsRow. rewrite <- scanThread_LastActivity.
  destruct (shouldIncludeThread _ _ _ _); [|discriminate]. intros [= <-].
  destruct (tl_WithStats opts); [destruct (q_totalMessages r)|]; split; reflexivity.
Qed.

Lemma listThreadsQuery_sorted db opts limit rows :
  listThreadsQuery' db opts limit = Ok rows ->
  StronglySorted (fun a b => orderKey b <= orderKey a) rows
  /\ (forall r, r ∈ rows -> r ∈ map (threadQueryRow db) (threads db))
  /\ (length rows <= Z.to_nat limit)%nat.
Proof.
  unfold listThreadsQuery, runQuery.
  destruct (fault db QListThreads); [discriminate|]. intros [= <-].
  set (le := fun a b : ThreadQueryRow => orderKey b <=? orderKey a).
  match goal with |- context [List.filter ?c _] => set (cond := c) end.
  split; [|split].
  - apply (StronglySorted_sublist _ _ _ (sublist_take _ _)).
    assert (Hs : StronglySorted (fun a b => le a b = true)
                   (sortBy le (List.filter cond (map (threadQueryRow db) (threads db))))).
    { apply sortBy_sorted; unfold le; intros a b.
      - intros H. apply Z.leb_gt in H. apply Z.leb_le. lia.
      - intros c H1 H2. apply Z.leb_le in H1, H2. apply Z.leb_le. lia. }
    revert Hs. generalize (sortBy le (List.filter cond (map (threadQueryRow db) (threads db)))).
    induction 1 as [|x l _ IH Hall]; constructor; [exact IH|].
    eapply Forall_impl; [exact Hall|]. intros y Hy. now apply Z.leb_le.
  - intros r Hr. pose proof (elem_of_sublist _ _ _ Hr (sublist_take _ _)) as Hin.
    apply list_elem_of_In, sortBy_elem, filter_In in Hin as [Hin _].
    now apply list_elem_of_In.
  - rewrite length_take. lia.
Qed.

(** C7 (amended).  [ListThreads'] returns its threads in the order of the
    database rows they come from, which is descending in the first known of
    last-message timestamp, last-open timestamp and metadata timestamp
    ([COALESCE], not the maximum); each thread's last activity is the maximum
    of the three, a zero or absent value never winning. *)
Theorem ListThreads_order (db : DB) (opts : ThreadListOptions) (s s' : Session)
    (out : list Thread) :
  ListThreads' db opts s = (Ok out, s') ->
  exists rows,
    Forall2 (fun r t => ID t = t_threadID (q_thread r) /\ LastActivity t = lastActivityOf r)
            rows out
    /\ StronglySorted (fun a b => orderKey b <= orderKey a) rows
    /\ (forall r, r ∈ rows -> r ∈ map (threadQueryRow db) (threads db)).
Proof.
  unfold ListThreads.
  set (limit := if tl_Limit opts <=? 0 then defaultLimit else tl_Limit opts).
  set (label := if String.eqb (tl_Label opts) "" then LabelAll else tl_Label opts).
  destruct (listThreadsQuery' db opts limit) as [rows0|e] eqn:Hq; [|discriminate].
  destruct (listThreadsQuery_sorted _ _ _ _ Hq) as (Hsorted & Hin & _).
  destruct (participantsByRoom db _) as [byRoom|e]; [|discriminate].
  unfold bind, ret.
  match goal with |- context [forM ?f ?l s] =>
    pose proof (forM_Forall2 f l s) as Hloop; destruct (forM f l s) as [ts s1] end.
  intros [= <- <-]. simpl in Hloop.
  destruct (omap_kept (listThreadsRow' opts label) rows0) as (kept & Hsub & Hkept).
  exists kept. split; [|split].
  - eapply Forall2_impl; [exact (Forall2_compose _ _ _ _ _ Hkept Hloop)|].
    intros r t (t0 & Hrow & s1' & ->). apply listThreadsRow_kept in Hrow.
    unfold bind, ret. simpl. destruct (displayName' t0 _ s1'). exact Hrow.
  - exact (StronglySorted_sublist _ _ _ Hsub Hsorted).
  - intros r Hr. apply Hin. exact (elem_of_sublist _ _ _ Hr Hsub).
Qed.

(** C10.  [GetThread'] without stats runs as with stats, on the same session
    and with the same outcome, except that the returned thread has its total
    message count, last-message time and last-open time cleared; the archived
    flag, display name, last activity, tags, participants and the unread and
    low-priority flags are those of the full result. *)
Theorem GetThread_withStats (db : DB) (threadID : string) (s : Session) :
  GetThread' db threadID false s
    = (mapResult clearStats (fst (GetThread' db threadID true s)),
       snd (GetThread' db threadID true s))
  /\ forall t : Thread,
      TotalMessages (clearStats t) = 0
      /\ LastMessage (clearStats t) = GoTime.zero
      /\ LastOpen (clearStats t) = GoTime.zero
      /\ IsArchived (clearStats t) = IsArchived t
      /\ DisplayName (clearStats t) = DisplayName t
      /\ LastActivity (clearStats t) = LastActivity t
      /\ Tags (clearStats t) = Tags t
      /\ Participants (clearStats t) = Participants t
      /\ IsUnread (clearStats t) = IsUnread t
      /\ IsMarkedUnread (clearStats t) = IsMarkedUnread t
      /\ IsLowPriority (clearStats t) = IsLowPriority t
      /\ UnreadCount (clearStats t) = UnreadCount t
      /\ UnreadMentions (clearStats t) = UnreadMentions t
      /\ ID (clearStats t) = ID t /\ AccountID (clearStats t) = AccountID t
      /\ Title (clearStats t) = Title t /\ Name (clearStats t) = Name t
      /\ Type_ (clearStats t) = Type_ t.
Proof.
  split; [|intros t; repeat split].
  unfold GetThread.
  destruct (runQuery db QGetThread _) as [[r|]|e]; try reflexivity.
  destruct (participantsByRoom db [threadID]) as [byRoom|e]; [|reflexivity].
  unfold bind, ret.
  destruct (q_totalMessages r) as [n|]; simpl.
  - rewrite (displayName_reads _ _ (setDisplayName (setTotalMessages (scanThread' r) n) _ _)
               (setDisplayName (scanThread' r) (DisplayName (scanThread' r))
                               (default [] (byRoom !! threadID))))
      by reflexivity.
    now destruct (displayName' _ _ s).
  - now destruct (displayName' _ _ s).
Qed.

(** With or without stats the archived flag is [computeArchived] on the
    markers of the row and on the latest order and last-message time of all
    its messages. *)
Lemma GetThread_archived db threadID withStats s t :
  fst (GetThread' db threadID withStats s) = Ok t ->
  exists r, r ∈ map (threadQueryRow db) (threads db)
            /\ t_threadID (q_thread r) = threadID
            /\ IsArchived t =
               computeArchived parseFloatInt64
                 (t_isArchivedUpto (q_thread r)) (t_isArchivedUpToOrder (q_thread r))
                 (q_latestHsOrder r) (q_lastMessageTime r).
Proof.
  unfold GetThread, runQuery.
  destruct (fault db QGetThread); [discriminate|].
  destruct (List.find _ _) as [r|] eqn:Hfind; [|discriminate].
  apply find_some in Hfind as [Hin Hid]. apply String.eqb_eq in Hid.
  destruct (participantsByRoom db [threadID]) as [byRoom|e]; [|discriminate].
  unfold bind, ret. destruct (displayName' _ _ s) as [name s1]. simpl.
  intros [= <-]. exists r. split; [now apply list_elem_of_In|]. split; [exact Hid|].
  destruct withStats; [destruct (q_totalMessages r)|]; reflexivity.
Qed.

End ThreadFacts.

(** store_test.go, [TestListThreadsLabels]. *)
Example TestListThreadsLabels :
  mapResult (map ID) (testListThreads (testListOptions LabelInbox false false))
    = Ok ["!room1:beeper.local"; "!room4:beeper.local"]
  /\ mapResult (map ID) (testListThreads (testListOptions LabelArchive false false))
    = Ok ["!room2:beeper.local"]
  /\ mapResult (map ID) (testListThreads (testListOptions LabelFavourite true false))
    = Ok ["!room3:beeper.local"]
  /\ mapResult (map ID) (testListThreads (testListOptions LabelUnread false false))
    = Ok ["!room1:beeper.local"].
Proof. repeat split; vm_compute; reflexivity. Qed.

(** C7 fails as stated, on the inbox of the test database: room 1 (last
    message at ...700 ms) is listed before room 4 (last message at ...600 ms),
    although the last activity of room 4, its metadata timestamp, is the
    later one. *)
Lemma ListThreads_not_by_last_activity :
  exists out,
    testListThreads (testListOptions LabelInbox false false) = Ok out
    /\ map (fun t => (ID t, LastActivity t)) out
       = [ ("!room1:beeper.local", GoTime.FromUnixMilli 1700000000700);
           ("!room4:beeper.local", GoTime.FromUnixMilli 1700000003000) ]
    /\ ~ StronglySorted (fun a b => LastActivity b <= LastActivity a) out.
Proof.
  eexists. split; [vm_compute; reflexivity|]. split; [reflexivity|].
  intros H. apply StronglySorted_inv in H as [_ H].
  apply Forall_cons in H as [H _]. vm_compute in H. now apply H.
Qed.

Lemma ListThreads_order_witness :
  exists out rows,
    testListThreads (testListOptions LabelInbox false true) = Ok out
    /\ Forall2 (fun r t => ID t = t_threadID (q_thread r)
                           /\ LastActivity t = lastActivityOf r) rows out
    /\ StronglySorted (fun a b => orderKey b <= orderKey a) rows.
Proof.
  pose (run := ListThreads (U := testTables) noFloat testUnmarshalStrings (fun _ => 0)
      testBridgeFiles
                 testRange testDB (testListOptions LabelInbox false true)
                 (mkSession None [])).
  assert (H : run = (Ok (match fst run with Ok l => l | Err _ => [] end), snd run))
    by (vm_compute; reflexivity).
  destruct (ListThreads_order _ _ _ _ _ _ _ _ _ _ H) as (rows & Hrows & Hsorted & _).
  eexists. exists rows. split; [|split; [exact Hrows | exact Hsorted]].
  vm_compute. reflexivity.
Defined.

(** store_test.go, [TestBridgeLookupDMName]: [GetThread] on room 4. *)
Example TestBridgeLookupDMName :
  mapResult DisplayName
    (fst (GetThread (U := testTables) noFloat testUnmarshalStrings testBridgeFiles testRange testDB
            "!room4:beeper.local" false testSession))
  = Ok "Bridge Name".
Proof. vm_compute. reflexivity. Qed.

(** ** Context windows *)

Lemma wrap64_small (z : Z) : - 2 ^ 63 <= z < 2 ^ 63 -> wrap64 z = z.
Proof. intros H. unfold wrap64. rewrite Z.mod_small; lia. Qed.

Section TrimContextFacts.

Variable matchID : Z.

Local Abbreviation other := (fun x : Message => Message.ID x <> matchID).

Lemma findMatch_none (l : list Message) (i : nat) :
  Forall other l -> findMatch l matchID i = None.
Proof.
  intros H. revert i. induction H as [|x l Hx _ IH]; intros i; simpl; [reflexivity|].
  apply Z.eqb_neq in Hx. rewrite Hx. apply IH.
Qed.

Lemma findMatch_split (before after : list Message) (m : Message) (i : nat) :
  Forall other before -> Message.ID m = matchID ->
  findMatch (before ++ m :: after) matchID i = Some (i + length before)%nat.
Proof.
  intros H Hm. revert i. induction H as [|x l Hx _ IH]; intros i; simpl.
  - apply Z.eqb_eq in Hm. rewrite Hm. f_equal. lia.
  - apply Z.eqb_neq in Hx. rewrite Hx, IH. f_equal. lia.
Qed.

(** Either no message is the match, or the list splits at the first one. *)
Lemma findMatch_cases (l : list Message) :
  Forall other l
  \/ exists before m after,
      l = (before ++ m :: after)%list /\ Message.ID m = matchID /\ Forall other before.
Proof.
  induction l as [|x l [IH|(before & m & after & -> & Hm & Hb)]].
  - left. constructor.
  - destruct (Z.eq_dec (Message.ID x) matchID) as [Hx|Hx].
    + right. exists [], x, l. repeat split; [exact Hx | constructor].
    + left. now constructor.
  - right. destruct (Z.eq_dec (Message.ID x) matchID) as [Hx|Hx].
    + exists [], x, (before ++ m :: after)%list. repeat split; [exact Hx | constructor].
    + exists (x :: before), m, after. repeat split; [exact Hm | now constructor].
Qed.

Lemma omap_lookup_seq {A : Type} (l : list A) (a n : nat) :
  omap (fun i => l !! i) (seq a n) = take n (drop a l).
Proof.
  revert a. induction n as [|n IH]; intros a; simpl; [reflexivity|].
  rewrite IH. destruct (l !! a) as [x|] eqn:E.
  - now rewrite (drop_S _ _ _ E).
  - apply lookup_ge_None in E. rewrite !drop_ge by lia. now rewrite take_nil.
Qed.

Lemma omap_skip_seq {A : Type} (l : list A) (idx a n : nat) :
  (idx < a \/ a + n <= idx)%nat ->
  omap (fun i => if bool_decide (i = idx) then None else l !! i) (seq a n)
  = take n (drop a l).
Proof.
  intros H. rewrite <- omap_lookup_seq. apply list_omap_ext.
  apply Forall2_same_length_lookup. split; [reflexivity|].
  intros i x y Hx Hy. rewrite Hx in Hy. injection Hy as <-.
  apply lookup_seq in Hx as [-> Hi]. rewrite bool_decide_eq_false_2; [reflexivity | lia].
Qed.

(** The loop of [trimContext] over the positions [start .. end-1]. *)
Lemma trim_loop_split (before after : list Message) (m : Message) (a k1 k2 : nat) :
  (a + k1)%nat = length before ->
  omap (fun i => if bool_decide (i = length before) then None
                 else (before ++ m :: after)%list !! i) (seq a (k1 + (1 + k2)))
  = (drop a before ++ take k2 after)%list.
Proof.
  intros H. rewrite !seq_app, !omap_app. f_equal.
  - rewrite omap_skip_seq by lia. rewrite take_drop_commute, H.
    now rewrite take_app_length.
  - rewrite H. simpl. rewrite bool_decide_eq_true_2 by reflexivity.
    rewrite omap_skip_seq by lia. f_equal.
    replace (before ++ m :: after)%list with ((before ++ [m]) ++ after)%list
      by now rewrite <- app_assoc.
    rewrite drop_app_length'; [reflexivity|]. rewrite length_app. simpl. lia.
Qed.

Lemma trim_loop (before after : list Message) (m : Message) (a n : nat) :
  (a <= length before < a + n)%nat ->
  omap (fun i => if bool_decide (i = length before) then None
                 else (before ++ m :: after)%list !! i) (seq a n)
  = (drop a before ++ take (a + n - length before - 1) after)%list.
Proof.
  intros H.
  replace n with ((length before - a) + (1 + (a + n - length before - 1)))%nat at 1 by lia.
  apply trim_loop_split. lia.
Qed.

Lemma trimContext_no_count (l : list Message) (context : Z) :
  context <= 0 -> trimContext l matchID context = Some l.
Proof. intros H. unfold trimContext. apply Z.leb_le in H. now rewrite H. Qed.

Lemma trimContext_no_match (l : list Message) (context : Z) :
  Forall other l -> trimContext l matchID context = Some l.
Proof.
  intros H. unfold trimContext. rewrite (findMatch_none _ _ H).
  now destruct (_ || _).
Qed.

(** With the match in the list and no wrap-around, the result is the [N]
    messages before it and the [N] after it. *)
Lemma trimContext_match (before after : list Message) (m : Message) (context : Z) :
  Forall other before -> Message.ID m = matchID ->
  0 < context ->
  context + Z.of_nat (length (before ++ m :: after)) < 2 ^ 63 ->
  trimContext (before ++ m :: after) matchID context
  = Some (drop (length before - Z.to_nat context) before
          ++ take (Z.to_nat context) after)%list.
Proof.
  intros Hb Hm Hpos Hbound. unfold trimContext.
  rewrite (findMatch_split _ _ _ _ Hb Hm). simpl (0 + _)%nat.
  set (l := (before ++ m :: after)%list) in *.
  assert (Hlen : length l = (length before + S (length after))%nat).
  { subst l. rewrite length_app. reflexivity. }
  rewrite Hlen in Hbound |- *.
  replace (context <=? 0) with false by (symmetry; apply Z.leb_gt; lia).
  replace (Z.of_nat (length before + S (length after)) =? 0) with false
    by (symmetry; apply Z.eqb_neq; lia).
  cbn [orb].
  set (idx := Z.of_nat (length before)).
  set (len := Z.of_nat (length before + S (length after))).
  rewrite (wrap64_small (idx - context)), (wrap64_small (idx + context + 1)) by lia.
  set (start := if idx - context <? 0 then 0 else idx - context).
  set (end_ := if len <? idx + context + 1 then len else idx + context + 1).
  assert (Hstart : start = Z.max 0 (idx - context)).
  { subst start. destruct (Z.ltb_spec (idx - context) 0); lia. }
  assert (Hend : end_ = Z.min len (idx + context + 1)).
  { subst end_. destruct (Z.ltb_spec len (idx + context + 1)); lia. }
  rewrite wrap64_small by lia.
  replace ((end_ - start - 1 <? 0) || (len <? end_ - start - 1)) with false.
  2:{ symmetry. apply orb_false_iff. split; [apply Z.ltb_ge | apply Z.ltb_ge]; lia. }
  f_equal. subst l. rewrite trim_loop by lia. f_equal.
  - f_equal. lia.
  - replace (Z.to_nat start + Z.to_nat (end_ - start) - length before - 1)%nat
      with (Nat.min (Z.to_nat context) (length after)) by lia.
    rewrite <- take_take. now rewrite (take_ge after (length after)) by lia.
Qed.

(** Without wrap-around [trimContext] returns. *)
Lemma trimContext_returns (l : list Message) (context : Z) :
  context + Z.of_nat (length l) < 2 ^ 63 -> is_Some (trimContext l matchID context).
Proof.
  intros Hbound. destruct (Z_le_gt_dec context 0) as [H|H].
  - rewrite trimContext_no_count by exact H. eauto.
  - destruct (findMatch_cases l) as [Hl|(before & m & after & -> & Hm & Hb)].
    + rewrite trimContext_no_match by exact Hl. eauto.
    + rewrite trimContext_match by (assumption || lia). eauto.
Qed.

End TrimContextFacts.

(** The context count of the repository test: one message on either side. *)
Example trimContext_one :
  let msg id := Message.mk id "" "" "" "" "" "" 0 false "" "" 0%Q in
  trimContext [msg 1; msg 2; msg 3; msg 7] 2 1 = Some [msg 1; msg 3].
Proof. reflexivity. Qed.

(** A count so large that [idx + context + 1] wraps around makes the
    capacity handed to [make] negative or huge: [trimContext] panics. *)
Example trimContext_wraps :
  let msg id := Message.mk id "" "" "" "" "" "" 0 false "" "" 0%Q in
  trimContext [msg 1; msg 2; msg 3] 2 maxInt64 = None.
Proof. vm_compute. reflexivity. Qed.

(** ** Search *)

Lemma runQuery_error {A : Type} (db : DB) (q : Query) (rows : A) (e : error) :
  runQuery db q rows = Err e -> fault db q = Some e.
Proof. unfold runQuery. destruct (fault db q); [now intros [= ->] | discriminate]. Qed.

Lemma runQuery_ok {A : Type} (db : DB) (q : Query) (rows out : A) :
  runQuery db q rows = Ok out -> out = rows.
Proof. unfold runQuery. destruct (fault db q); [discriminate | now intros [= ->]]. Qed.

Lemma visibleMessage_spec (m : MsgRow) :
  visibleMessage m = true <->
  m_isDeleted m = 0 /\ m_type m <> "HIDDEN" /\ m_type m <> "REACTION".
Proof.
  unfold visibleMessage. rewrite !andb_true_iff, !negb_true_iff, Z.eqb_eq, !String.eqb_neq.
  tauto.
Qed.

(** When the match's timestamp and the window are whole milliseconds within
    the int64 range, the bounds are the symmetric window [t - w, t + w]. *)
Lemma contextBounds_symmetric (mt : Message) (opts : SearchOptions) (t w : Z) :
  Message.Timestamp mt = GoTime.FromUnixMilli t ->
  contextWindow opts = w * 10 ^ 6 ->
  Z.abs (w * 10 ^ 6) < 2 ^ 63 ->
  - 2 ^ 63 <= t - Z.abs w -> t + Z.abs w < 2 ^ 63 ->
  contextBounds mt opts = (t - w, t + w).
Proof.
  intros Ht Hw Hdur Hlo Hhi. unfold contextBounds.
  rewrite Ht, Hw. unfold GoTime.UnixMilli, GoTime.Add, GoTime.Neg, GoTime.FromUnixMilli.
  rewrite (wrap64_small (- (w * 10 ^ 6))) by lia.
  replace (t * 10 ^ 6 + - (w * 10 ^ 6)) with ((t - w) * 10 ^ 6) by lia.
  replace (t * 10 ^ 6 + w * 10 ^ 6) with ((t + w) * 10 ^ 6) by lia.
  rewrite !Z.div_mul by lia. rewrite !wrap64_small by lia. reflexivity.
Qed.

Lemma contextWindow_default (opts : SearchOptions) :
  so_Window opts = 0 -> contextWindow opts = 3600000 * 10 ^ 6.
Proof. intros H. unfold contextWindow. now rewrite H. Qed.

Section ContextFacts.

Context {U : UnicodeTables}.

Variable jsonUnmarshal : string -> option JSON.
Variable bridgeFiles : gmap string BridgeDB.
Variable rangeValues : gmap string string -> list string.

Local Abbreviation fetchContextMessages' :=
  (fetchContextMessages jsonUnmarshal bridgeFiles rangeValues).
Local Abbreviation scanMessage' := (scanMessage jsonUnmarshal).

Lemma contextQuery_rows db roomID start end_ rows :
  contextQuery db roomID start end_ = Ok rows ->
  (forall r, r ∈ rows <->
             r ∈ messages db /\ m_roomID r = roomID /\ visibleMessage r = true
             /\ start <= m_timestamp r <= end_)
  /\ StronglySorted (fun a b => m_timestamp a <= m_timestamp b) rows.
Proof.
  intros H. apply runQuery_ok in H as ->. split.
  - intros r. rewrite !list_elem_of_In, sortBy_elem, filter_In.
    rewrite !andb_true_iff, String.eqb_eq, !Z.leb_le. tauto.
  - set (le := fun a b : MsgRow => m_timestamp a <=? m_timestamp b).
    assert (Hs : forall l, StronglySorted (fun a b => le a b = true) (sortBy le l)).
    { intros l. apply sortBy_sorted; unfold le; intros a b.
      - intros H. apply Z.leb_gt in H. apply Z.leb_le. lia.
      - intros c H1 H2. apply Z.leb_le in H1, H2. apply Z.leb_le. lia. }
    match goal with |- StronglySorted _ (sortBy _ ?l) => specialize (Hs l); revert Hs;
      generalize (sortBy le l) end.
    induction 1 as [|x l _ IH Hall]; constructor; [exact IH|].
    eapply Forall_impl; [exact Hall|]. intros y Hy. now apply Z.leb_le.
Qed.

Lemma scanned_fromRow format (rows : list MsgRow) account threadName
    (sender : Message -> option string) :
  Forall2 fromRow
    (map (fun m => setContextFields m account threadName (sender m))
         (map (fun r => scanMessage' format r 0%Q) rows))
    rows.
Proof. induction rows; simpl; constructor; [repeat split | assumption]. Qed.

(** C4 (amended).  When the context statement succeeds and the count does
    not wrap around: the fetched window holds exactly the rows of the match's
    conversation that are not deleted, hidden or reactions and whose
    timestamp lies between [(T - w).UnixMilli()] and [(T + w).UnixMilli()]
    (the symmetric window [T - w .. T + w] when [w] is a whole number of
    milliseconds, one hour by default), oldest first; without a count the window is the context; with a count
    [N > 0], the context is the window itself when the match is not in it, and
    otherwise the (up to) [N] messages before and the (up to) [N] messages
    after the match, the match left out. *)
Theorem fetchContextMessages_window (db : DB) (mt : Message) (opts : SearchOptions)
    (byRoom : gmap string (list Participant)) (infos : gmap string threadInfo)
    (s : Session) (rows : list MsgRow) :
  contextQuery db (Message.ThreadID mt)
               (fst (contextBounds mt opts)) (snd (contextBounds mt opts)) = Ok rows ->
  so_Context opts + Z.of_nat (length rows) < 2 ^ 63 ->
  (forall r, r ∈ rows <->
             r ∈ messages db /\ m_roomID r = Message.ThreadID mt
             /\ visibleMessage r = true
             /\ fst (contextBounds mt opts) <= m_timestamp r <= snd (contextBounds mt opts))
  /\ StronglySorted (fun a b => m_timestamp a <= m_timestamp b) rows
  /\ (exists ctx window s',
      fetchContextMessages' db mt opts byRoom infos s = (Ok ctx, s')
      /\ Forall2 fromRow window rows
      /\ (so_Context opts <= 0 -> ctx = window)
      /\ (0 < so_Context opts ->
          Forall (fun m => Message.ID m <> Message.ID mt) window -> ctx = window)
      /\ (0 < so_Context opts ->
          forall before m after,
            window = (before ++ m :: after)%list ->
            Message.ID m = Message.ID mt ->
            Forall (fun x => Message.ID x <> Message.ID mt) before ->
            ctx = (drop (length before - Z.to_nat (so_Context opts)) before
                   ++ take (Z.to_nat (so_Context opts)) after)%list))
  /\ (forall t w,
        Message.Timestamp mt = GoTime.FromUnixMilli t ->
        contextWindow opts = w * 10 ^ 6 -> Z.abs (w * 10 ^ 6) < 2 ^ 63 ->
        - 2 ^ 63 <= t - Z.abs w -> t + Z.abs w < 2 ^ 63 ->
        contextBounds mt opts = (t - w, t + w)).
Proof.
  intros Hq Hbound.
  destruct (contextQuery_rows _ _ _ _ _ Hq) as [Hrows Hsorted].
  split; [exact Hrows|]. split; [exact Hsorted|].
  split; [|now apply contextBounds_symmetric].
  unfold fetchContextMessages.
  destruct (contextBounds mt opts) as [start end_]. simpl in Hq. rewrite Hq.
  unfold bind, ret.
  destruct (displayName bridgeFiles rangeValues _ _ s) as [threadName s1].
  match goal with |- context [trimContext ?w _ _] => set (window := w) end.
  assert (Hwin : Forall2 fromRow window rows) by apply scanned_fromRow.
  assert (Hlen : length window = length rows) by exact (Forall2_length _ _ _ Hwin).
  destruct (Z.ltb_spec 0 (so_Context opts)) as [Hpos|Hnot].
  - destruct (trimContext_returns (Message.ID mt) window (so_Context opts)) as [ctx Hctx];
      [lia|].
    rewrite Hctx. exists ctx, window, s1.
    split; [reflexivity|]. split; [exact Hwin|]. split; [lia|]. split.
    + intros _ Hno. rewrite trimContext_no_match in Hctx by exact Hno. congruence.
    + intros _ before m after Hsplit Hm Hb.
      rewrite Hsplit in Hctx, Hlen.
      rewrite trimContext_match in Hctx by (assumption || lia). congruence.
  - exists window, window, s1.
    split; [reflexivity|]. split; [exact Hwin|]. split; [reflexivity|].
    split; intros; lia.
Qed.

(** The only ways [fetchContextMessages'] fails: the database rejects the
    context statement, or the count wraps around. *)
Lemma fetchContextMessages_error db mt opts byRoom infos s e :
  fst (fetchContextMessages' db mt opts byRoom infos s) = Err e ->
  fault db QContext = Some e \/ e = panicMakeslice.
Proof.
  unfold fetchContextMessages.
  destruct (contextBounds mt opts) as [start end_].
  destruct (contextQuery db _ start end_) as [rows|e'] eqn:Hq.
  - unfold bind, ret. destruct (displayName bridgeFiles rangeValues _ _ s) as [name s1].
    destruct (0 <? so_Context opts); [|discriminate].
    destruct (trimContext _ _ _); [discriminate|]. intros [= <-]. now right.
  - intros [= <-]. left. now apply runQuery_error in Hq.
Qed.

End ContextFacts.

Section SearchFacts.

Context {U : UnicodeTables}.

Variable jsonUnmarshal : string -> option JSON.
Variable jsonExtractText : string -> option string.
Variable cutoffMillis : Z -> Z.
Variable bridgeFiles : gmap string BridgeDB.
Variable rangeValues : gmap string string -> list string.

Local Abbreviation searchQuery' := (searchQuery jsonExtractText cutoffMillis).
Local Abbreviation searchFilters' := (searchFilters cutoffMillis).
Local Abbreviation searchResults' :=
  (searchResults jsonUnmarshal bridgeFiles rangeValues).
Local Abbreviation SearchMessages' :=
  (SearchMessages jsonUnmarshal jsonExtractText cutoffMillis bridgeFiles rangeValues).
Local Abbreviation scanMessage' := (scanMessage jsonUnmarshal).

(** The rows of the substring scan: at most [limit] rows of
    [mx_room_messages], each with rank zero, a text that contains the query
    and the filters of the request. *)
Lemma searchQuery_like db opts limit rows :
  searchQuery' db opts limit false = Ok rows ->
  (length rows <= Z.to_nat limit)%nat
  /\ Forall (fun r =>
               snd r = 0%Q /\ fst r ∈ messages db
               /\ searchFilters' db opts (fst r) = true
               /\ exists text,
                   mbind jsonExtractText (m_message (fst r)) = Some text
                   /\ like db ("%" +:+ so_Query opts +:+ "%") text = true) rows.
Proof.
  intros H. apply runQuery_ok in H as ->. split; [rewrite length_take; lia|].
  apply Forall_forall. intros r Hr.
  pose proof (elem_of_sublist _ _ _ Hr (sublist_take _ _)) as Hin.
  apply list_elem_of_In, sortBy_elem, in_map_iff in Hin as (m & <- & Hin).
  apply filter_In in Hin as [Hin Hcond]. apply andb_true_iff in Hcond as [Hlike Hf].
  simpl. split; [reflexivity|]. split; [now apply list_elem_of_In|]. split; [exact Hf|].
  destruct (mbind jsonExtractText (m_message m)) as [text|]; [|discriminate]. eauto.
Qed.

(** The rows of the full-text statement obey the same filters and limit. *)
Lemma searchQuery_fts db opts limit rows :
  searchQuery' db opts limit true = Ok rows ->
  (length rows <= Z.to_nat limit)%nat
  /\ Forall (fun r => fst r ∈ messages db /\ searchFilters' db opts (fst r) = true) rows.
Proof.
  unfold searchQuery. destruct (fts_match db (so_Query opts)) as [hits|e];
    [|discriminate]. simpl. intros [= <-]. split; [rewrite length_take; lia|].
  apply Forall_forall. intros r Hr.
  pose proof (elem_of_sublist _ _ _ Hr (sublist_take _ _)) as Hin.
  apply list_elem_of_In, sortBy_elem, in_flat_map in Hin as (hit & _ & Hin).
  apply in_map_iff in Hin as (m & <- & Hin).
  apply filter_In in Hin as [Hin Hcond]. apply andb_true_iff in Hcond as [_ Hf].
  split; [now apply list_elem_of_In | exact Hf].
Qed.

(** What the three filters are. *)
Lemma searchFilters_spec db opts m :
  searchFilters' db opts m = true <->
  visibleMessage m = true
  /\ (so_ThreadID opts = "" \/ m_roomID m = so_ThreadID opts)
  /\ (so_AccountID opts = ""
      \/ exists t, t ∈ threads db /\ t_threadID t = m_roomID m
                   /\ t_accountID t = Some (so_AccountID opts))
  /\ (so_Days opts <= 0 \/ cutoffMillis (so_Days opts) <= m_timestamp m).
Proof.
  unfold searchFilters.
  rewrite !andb_true_iff, !orb_true_iff, !String.eqb_eq, negb_true_iff, Z.ltb_ge, Z.leb_le.
  rewrite existsb_exists.
  assert (Hacc : (exists t, In t (threads db)
                   /\ String.eqb (t_threadID t) (m_roomID m)
                      && bool_decide (t_accountID t = Some (so_AccountID opts)) = true)
                 <-> exists t, t ∈ threads db /\ t_threadID t = m_roomID m
                               /\ t_accountID t = Some (so_AccountID opts)).
  { split; intros (t & Hin & H); exists t.
    - apply andb_true_iff in H as [H1 H2]. apply String.eqb_eq in H1.
      apply bool_decide_eq_true in H2. split; [now apply list_elem_of_In | now split].
    - destruct H as [H1 H2]. split; [now apply list_elem_of_In|].
      apply andb_true_iff. split; [now apply String.eqb_eq | now apply bool_decide_eq_true]. }
  rewrite Hacc. tauto.
Qed.

Lemma searchFilters_obeys db opts m :
  searchFilters' db opts m = true <-> obeysFilters cutoffMillis db opts m.
Proof.
  rewrite searchFilters_spec, visibleMessage_spec. unfold obeysFilters. split.
  - intros ((Hd & Hh & Hr) & H1 & H2 & H3). repeat split; try assumption.
    + intros Hne. destruct H1; [contradiction | assumption].
    + intros Hne. destruct H2; [contradiction | assumption].
    + intros Hpos. destruct H3; [lia | assumption].
  - intros (Hd & Hh & Hr & H1 & H2 & H3). repeat split; try assumption.
    + destruct (decide (so_ThreadID opts = "")); [now left | right; auto].
    + destruct (decide (so_AccountID opts = "")); [now left | right; auto].
    + destruct (Z.lt_ge_cases 0 (so_Days opts)); [right; auto | left; lia].
Qed.

(** Below the limit the substring scan misses no row. *)
Lemma searchQuery_like_complete db opts limit rows m text :
  searchQuery' db opts limit false = Ok rows ->
  (length rows < Z.to_nat limit)%nat ->
  m ∈ messages db -> searchFilters' db opts m = true ->
  mbind jsonExtractText (m_message m) = Some text ->
  like db ("%" +:+ so_Query opts +:+ "%") text = true ->
  (m, 0%Q) ∈ rows.
Proof.
  intros H Hlen Hin Hf Htext Hlike. apply runQuery_ok in H. subst rows.
  rewrite length_take in Hlen.
  rewrite take_ge by lia.
  apply list_elem_of_In, sortBy_elem, in_map_iff. exists m. split; [reflexivity|].
  apply filter_In. split; [now apply list_elem_of_In|].
  rewrite Htext, Hlike. exact Hf.
Qed.

Lemma threadInfoByID_error db ids e :
  threadInfoByID db ids = Err e -> fault db QThreadInfo = Some e.
Proof.
  unfold threadInfoByID. destruct ids; [discriminate|].
  destruct (runQuery db QThreadInfo _) eqn:E; [discriminate|].
  intros [= <-]. now apply runQuery_error in E.
Qed.

Lemma participantsByRoom_error db ids e :
  participantsByRoom db ids = Err e -> fault db QParticipants = Some e.
Proof.
  unfold participantsByRoom. destruct (uniqueStrings ids); [discriminate|].
  destruct (runQuery db QParticipants _) eqn:E; [discriminate|].
  intros [= <-]. now apply runQuery_error in E.
Qed.

(** The results of a search come one per row, in the order of the rows, each
    with the rank of its row. *)
Lemma searchResults_rows db opts rows s results :
  fst (searchResults' db opts rows s) = Ok results ->
  Forall2 (fun r res => fromRow (Match res) (fst r)
                        /\ Message.Score (Match res) = snd r) rows results.
Proof.
  unfold searchResults.
  destruct (threadInfoByID db _) as [infos|e]; [|discriminate].
  destruct (participantsByRoom db _) as [byRoom|e]; [|discriminate].
  unfold bind at 1.
  match goal with |- context [forM ?f ?l s] =>
    pose proof (forM_Forall2 f l s) as Hloop; destruct (forM f l s) as [ms s1] end.
  simpl in Hloop. intros Hres. apply forME_Forall2 in Hres.
  apply Forall2_fmap_l in Hloop.
  eapply Forall2_impl; [exact (Forall2_compose _ _ _ _ _ Hloop Hres)|].
  intros r res (m & (s2 & ->) & (s3 & Hstep)). unfold bind, ret in *. simpl in *.
  destruct (displayName bridgeFiles rangeValues _ _ s2) as [name s4]. simpl in Hstep.
  assert (Hm : Match res = setContextFields (scanMessage' (so_Format opts) (fst r) (snd r))
                 (ti_AccountID (default emptyInfo (infos !! m_roomID (fst r)))) name
                 (mbind (fun ps => senderNameOf (indexParticipants ps)
                                     (m_senderContactID (fst r)))
                        (byRoom !! m_roomID (fst r)))).
  { destruct ((0 <? so_Context opts) || (0 <? so_Window opts)).
    - destruct (fetchContextMessages _ _ _ _ _ _ _ _ s3) as [[ctx|e] s5];
        simpl in Hstep; [now injection Hstep as <- | discriminate].
    - now injection Hstep as <-. }
  rewrite Hm. repeat split.
Qed.

(** A search only fails on a failing statement, or on a count that wraps. *)
Lemma searchResults_error db opts rows s e :
  fst (searchResults' db opts rows s) = Err e ->
  e = panicMakeslice
  \/ exists q, q ∈ [QThreadInfo; QParticipants; QContext] /\ fault db q = Some e.
Proof.
  unfold searchResults.
  destruct (threadInfoByID db _) as [infos|e'] eqn:Hinfo.
  2:{ intros [= <-]. right. exists QThreadInfo. split; [repeat constructor|].
      now apply threadInfoByID_error in Hinfo. }
  destruct (participantsByRoom db _) as [byRoom|e'] eqn:Hps.
  2:{ intros [= <-]. right. exists QParticipants. split; [repeat constructor|].
      now apply participantsByRoom_error in Hps. }
  unfold bind at 1.
  match goal with |- context [forM ?f ?l s] => destruct (forM f l s) as [ms s1] end.
  intros Hres. apply forME_error in Hres as (m & s2 & _ & Hstep).
  destruct ((0 <? so_Context opts) || (0 <? so_Window opts)); [|discriminate].
  unfold bind in Hstep.
  destruct (fetchContextMessages _ _ _ _ _ _ _ _ s2) as [[ctx|e'] s3] eqn:Hfetch;
    simpl in Hstep; [discriminate|]. injection Hstep as <-.
  destruct (fetchContextMessages_error jsonUnmarshal bridgeFiles rangeValues
              db m opts byRoom infos s2 e') as [H| ->].
  - now rewrite Hfetch.
  - right. exists QContext. split; [repeat constructor | exact H].
  - now left.
Qed.

(** C3.  For a non-blank query on a database that lists the full-text
    table: when the full-text statement fails with an error that says the
    module or the table is missing, [SearchMessages'] goes on exactly as it
    does from the rows of the substring ([LIKE]) scan.  Those rows are at
    most [limit] message rows, each with rank zero, a body text that matches
    the pattern, and the conversation, account and day-range filters of the
    request; below the limit they are all such rows.  Every result carries
    rank zero; and an error, if one is returned, is one reported for the
    substring scan or a later statement (or the failure of a wrapped context
    count), never the full-text one. *)
Theorem SearchMessages_fallback (db : DB) (opts : SearchOptions) (s : Session) (e : error) :
  TrimSpace (so_Query opts) <> "" ->
  HasFTS db = Ok true ->
  fts_match db (so_Query opts) = Err e ->
  isFTSError (Some e) = true ->
  let limit := if so_Limit opts <=? 0 then defaultLimit else so_Limit opts in
  let matches m :=
    exists text, mbind jsonExtractText (m_message m) = Some text
                 /\ like db ("%" +:+ so_Query opts +:+ "%") text = true in
  SearchMessages' db opts s =
    match searchQuery' db opts limit false with
    | Err e' => (Err e', s)
    | Ok rows => searchResults' db opts rows s
    end
  /\ (forall rows,
        searchQuery' db opts limit false = Ok rows ->
        (length rows <= Z.to_nat limit)%nat
        /\ Forall (fun r =>
                     snd r = 0%Q /\ fst r ∈ messages db
                     /\ obeysFilters cutoffMillis db opts (fst r)
                     /\ matches (fst r)) rows
        /\ ((length rows < Z.to_nat limit)%nat ->
            forall m, m ∈ messages db -> obeysFilters cutoffMillis db opts m ->
                      matches m -> (m, 0%Q) ∈ rows))
  /\ (forall results s',
        SearchMessages' db opts s = (Ok results, s') ->
        exists rows,
          searchQuery' db opts limit false = Ok rows
          /\ Forall2 (fun r res => fromRow (Match res) (fst r)
                                   /\ Message.Score (Match res) = 0%Q) rows results)
  /\ (forall e' s',
        SearchMessages' db opts s = (Err e', s') ->
        e' = panicMakeslice
        \/ exists q, q ∈ [QSearchLike; QThreadInfo; QParticipants; QContext]
                     /\ fault db q = Some e').
Proof.
  intros Hquery Hfts Hmatch Hkind limit matches.
  assert (Hrun : SearchMessages' db opts s =
                 match searchQuery' db opts limit false with
                 | Err e' => (Err e', s)
                 | Ok rows => searchResults' db opts rows s
                 end).
  { unfold SearchMessages. rewrite (eqb_empty_false _ Hquery), Hfts.
    fold limit. unfold searchQuery at 1. rewrite Hmatch.
    cbn [bindR andb]. rewrite Hkind. now destruct (searchQuery' db opts limit false). }
  split; [exact Hrun|]. split; [|split].
  - intros rows Hq. destruct (searchQuery_like _ _ _ _ Hq) as [Hlen Hall].
    split; [exact Hlen|]. split.
    + eapply Forall_impl; [exact Hall|]. intros r (Hz & Hin & Hf & Hm).
      split; [exact Hz|]. split; [exact Hin|]. split; [|exact Hm].
      now apply searchFilters_obeys.
    + intros Hbelow m Hin Hf (text & Htext & Hlike).
      apply (searchQuery_like_complete db opts limit rows m text); try assumption.
      now apply searchFilters_obeys.
  - intros results s' Hok. rewrite Hrun in Hok.
    destruct (searchQuery' db opts limit false) as [rows|e'] eqn:Hq; [|discriminate].
    exists rows. split; [reflexivity|].
    destruct (searchQuery_like _ _ _ _ Hq) as [_ Hzero].
    assert (Hres : fst (searchResults' db opts rows s) = Ok results) by now rewrite Hok.
    apply searchResults_rows in Hres.
    apply Forall2_same_length_lookup. split; [exact (Forall2_length _ _ _ Hres)|].
    intros i r res Hr Hres'.
    destruct (Forall2_lookup_lr _ _ _ _ _ _ Hres Hr Hres') as [Hfrom Hscore].
    split; [exact Hfrom|]. rewrite Hscore.
    apply (Forall_lookup_1 _ _ _ _ Hzero Hr).
  - intros e' s' Herr. rewrite Hrun in Herr.
    destruct (searchQuery' db opts limit false) as [rows|e''] eqn:Hq.
    + assert (Hres : fst (searchResults' db opts rows s) = Err e') by now rewrite Herr.
      apply searchResults_error in Hres as [->|(q & Hin & Hq')]; [now left|].
      right. exists q. split; [now constructor | exact Hq'].
    + injection Herr as <- <-. right. exists QSearchLike. split; [repeat constructor|].
      now apply runQuery_error in Hq.
Qed.

End SearchFacts.

(** store_test.go, [TestSearchFallbackLike]. *)
Example TestSearchFallbackLike :
  mapResult (map resultShape)
    (testSearch testDB (mkSearchOptions "invoice" "" 0 0 "" 0 0 ""))
  = Ok [(7, 0%Q, [])].
Proof. vm_compute. reflexivity. Qed.

(** The fallback on the test database when the module is missing, for a
    request that names the conversation, the account and a day range that
    cuts off message 1. *)
Lemma SearchMessages_fallback_witness :
  let opts := mkSearchOptions "christmas" "!room1:beeper.local" 30 5 "whatsapp"
                1 GoTime.Hour FormatPlain in
  let cutoff := fun _ : Z => 1700000000150 in
  TrimSpace (so_Query opts) <> ""
  /\ HasFTS testDBNoModule = Ok true
  /\ fts_match testDBNoModule (so_Query opts) = Err "no such module: fts5"
  /\ isFTSError (U := testTables) (Some "no such module: fts5") = true
  /\ mapResult (map resultShape)
       (fst (SearchMessages (U := testTables) testUnmarshal testExtractText cutoff
               testBridgeFiles testRange testDBNoModule opts (mkSession None [])))
     = Ok [(2, 0%Q, [1; 3])].
Proof.
  intros opts cutoff.
  assert (H1 : TrimSpace (so_Query opts) <> "") by (vm_compute; discriminate).
  assert (H2 : HasFTS testDBNoModule = Ok true) by reflexivity.
  assert (H3 : fts_match testDBNoModule (so_Query opts) = Err "no such module: fts5")
    by reflexivity.
  assert (H4 : isFTSError (U := testTables) (Some "no such module: fts5") = true)
    by (vm_compute; reflexivity).
  split; [exact H1|]. split; [exact H2|]. split; [exact H3|]. split; [exact H4|].
  destruct (SearchMessages_fallback (U := testTables) testUnmarshal testExtractText cutoff
              testBridgeFiles testRange testDBNoModule opts
              (mkSession None []) "no such module: fts5" H1 H2 H3 H4) as [Hrun _].
  rewrite Hrun. vm_compute. reflexivity.
Defined.

Lemma fetchContextMessages_window_witness :
  exists ctx s',
    fetchContextMessages (U := testTables) testUnmarshal testBridgeFiles testRange testDB
        testMatch
      (testSearchOptions 1 GoTime.Hour) ∅ ∅ (mkSession None []) = (Ok ctx, s')
    /\ map Message.ID ctx = [1; 3].
Proof.
  pose (opts := testSearchOptions 1 GoTime.Hour).
  pose (rows := List.filter (fun m => String.eqb (m_roomID m) "!room1:beeper.local")
                  testMessages).
  assert (Hq : contextQuery testDB (Message.ThreadID testMatch)
                 (fst (contextBounds testMatch opts)) (snd (contextBounds testMatch opts))
               = Ok rows) by (vm_compute; reflexivity).
  assert (Hbound : so_Context opts + Z.of_nat (length rows) < 2 ^ 63)
    by (vm_compute; reflexivity).
  destruct (fetchContextMessages_window (U := testTables) testUnmarshal testBridgeFiles
      testRange testDB
              testMatch opts ∅ ∅ (mkSession None []) rows Hq Hbound)
    as (_ & _ & (ctx & window & s' & Hrun & _) & _).
  exists ctx, s'. split; [exact Hrun|].
  assert (Hc : mapResult (map Message.ID) (testContext opts) = Ok [1; 3])
    by (vm_compute; reflexivity).
  unfold testContext in Hc. fold opts in Hrun. rewrite Hrun in Hc. simpl in Hc.
  now injection Hc.
Defined.

(** C4 fails as stated in two places.  With a window of 99.5 ms around
    message 2 of the test database the context holds message 1, sent 100 ms
    before the match and so outside the window, but not message 3, sent
    100 ms after it.  And with the largest count an [int] can hold the
    context is not returned at all: [trimContext] panics. *)
Lemma context_window_not_symmetric :
  (mapResult (map (fun m => (Message.ID m, Message.Timestamp m)))
     (testContext (testSearchOptions 0 99500000))
   = Ok [ (1, GoTime.FromUnixMilli 1700000000100);
          (2, GoTime.FromUnixMilli 1700000000200) ]
   /\ Message.Timestamp testMatch = GoTime.FromUnixMilli 1700000000200
   /\ GoTime.FromUnixMilli 1700000000100 < Message.Timestamp testMatch - 99500000)
  /\ testContext (testSearchOptions maxInt64 GoTime.Hour) = Err panicMakeslice.
Proof.
  split; [split; [|split]|]; vm_compute; reflexivity.
Qed.

(** * Further properties of the package *)

(** ** [uniqueStrings] and [placeholders] *)

Lemma uniqueStringsAux_spec (values : list string) (seen : gset string) :
  NoDup (uniqueStringsAux seen values)
  /\ (forall x, x ∈ uniqueStringsAux seen values <-> x ∈ values /\ x <> "" /\ x ∉ seen)
  /\ sublist (uniqueStringsAux seen values) values.
Proof.
  revert seen. induction values as [|v rest IH]; intros seen; simpl.
  - split; [constructor|]. split; [|constructor].
    intros x. rewrite !elem_of_nil. tauto.
  - destruct (String.eqb v "") eqn:Hv.
    + apply String.eqb_eq in Hv as ->.
      destruct (IH seen) as (Hnd & Hin & Hsub). split; [exact Hnd|].
      split; [|now constructor].
      intros x. rewrite Hin, elem_of_cons. split; [tauto|].
      intros ([->|Hx] & Hne & Hs); [now destruct Hne | tauto].
    + apply String.eqb_neq in Hv. case_bool_decide as Hseen.
      * destruct (IH seen) as (Hnd & Hin & Hsub). split; [exact Hnd|].
        split; [|now constructor].
        intros x. rewrite Hin, elem_of_cons. split; [tauto|].
        intros ([->|Hx] & Hne & Hs); [now destruct Hs | tauto].
      * destruct (IH ({[v]} ∪ seen)) as (Hnd & Hin & Hsub).
        split; [|split; [|now constructor]].
        -- constructor; [|exact Hnd]. rewrite Hin. set_solver.
        -- intros x. rewrite !elem_of_cons, Hin.
           destruct (decide (x = v)) as [->|Hx]; [tauto|]. set_solver.
Qed.

(** X1.  [uniqueStrings] returns every non-empty value of its input exactly
    once, in the order of first occurrence, and nothing else. *)
Theorem uniqueStrings_spec (values : list string) :
  NoDup (uniqueStrings values)
  /\ (forall x, x ∈ uniqueStrings values <-> x ∈ values /\ x <> "")
  /\ sublist (uniqueStrings values) values
  /\ uniqueStrings (uniqueStrings values) = uniqueStrings values.
Proof.
  destruct (uniqueStringsAux_spec values ∅) as (Hnd & Hin & Hsub).
  split; [exact Hnd|]. split; [|split; [exact Hsub|]].
  - intros x. unfold uniqueStrings. rewrite Hin. set_solver.
  - assert (Hfix : forall l seen,
               NoDup l -> (forall x, x ∈ l -> x <> "" /\ x ∉ seen) ->
               uniqueStringsAux seen l = l).
    { induction l as [|v rest IH]; intros seen Hl Hall; simpl; [reflexivity|].
      apply NoDup_cons in Hl as [Hv Hl].
      destruct (Hall v) as [Hne Hs]; [apply elem_of_cons; now left|].
      rewrite (eqb_empty_false _ Hne), bool_decide_eq_false_2 by exact Hs.
      f_equal. apply IH; [exact Hl|]. intros x Hx.
      destruct (Hall x) as [Hxe Hxs]; [apply elem_of_cons; now right|].
      split; [exact Hxe|]. intros [Heq%elem_of_singleton|?]%elem_of_union; [|tauto].
      now subst. }
    apply Hfix; [exact Hnd|]. intros x Hx. apply Hin in Hx. tauto.
Qed.

Lemma Join_cons2 (x y : string) (l : list string) (sep : string) :
  Join (x :: y :: l) sep = x +:+ sep +:+ Join (y :: l) sep.
Proof. reflexivity. Qed.

Lemma TrimRightByte_Repeat (n : nat) :
  TrimRightByte (Repeat "?," (S n)) "," = Join (replicate (S n) "?") ","
  /\ exists r, Join (replicate (S n) "?") "," = String "?" r.
Proof.
  induction n as [|n [IH [r Hr]]]; [split; [reflexivity | now exists ""]|].
  change (Repeat "?," (S (S n))) with (String "?" (String "," (Repeat "?," (S n)))).
  change (replicate (S (S n)) "?") with ("?" :: "?" :: replicate n "?") in *.
  change (replicate (S n) "?") with ("?" :: replicate n "?") in *.
  rewrite Join_cons2. cbn [TrimRightByte]. rewrite IH, Hr.
  split; [reflexivity | eexists; reflexivity].
Qed.

Lemma length_Join_marks (n : nat) :
  String.length (Join (replicate (S n) "?") ",") = (2 * n + 1)%nat.
Proof.
  induction n as [|n IH]; [reflexivity|].
  change (replicate (S (S n)) "?") with ("?" :: "?" :: replicate n "?") in *.
  change (replicate (S n) "?") with ("?" :: replicate n "?") in *.
  rewrite Join_cons2. change ("?" +:+ "," +:+ ?x) with (String "?" (String "," x)).
  cbn [String.length]. rewrite IH. lia.
Qed.

(** X2.  For a positive count [placeholders] is [count] question marks
    separated by commas, without a trailing comma; otherwise it is empty. *)
Theorem placeholders_spec (count : Z) :
  (count <= 0 -> placeholders count = "")
  /\ (0 < count ->
      placeholders count = Join (replicate (Z.to_nat count) "?") ","
      /\ Z.of_nat (String.length (placeholders count)) = 2 * count - 1).
Proof.
  unfold placeholders. split.
  - intros H. apply Z.leb_le in H. now rewrite H.
  - intros H. replace (count <=? 0) with false by (symmetry; apply Z.leb_gt; lia).
    destruct (Z.to_nat count) as [|n] eqn:E; [lia|].
    rewrite (proj1 (TrimRightByte_Repeat n)). split; [reflexivity|].
    rewrite length_Join_marks. lia.
Qed.

(** ** Classification and timestamps *)

(** X3.  Newer messages never archive a thread: a thread that is archived
    stays archived when its latest order or its last-message timestamp is
    replaced by an earlier known one. *)
Theorem computeArchived_monotone {U : UnicodeTables} (parseFloatInt64 : string -> option Z)
    (archivedUpto archivedUpToOrder : option string) (latest latest' last last' : Z) :
  latest' <= latest -> last' <= last ->
  computeArchived parseFloatInt64 archivedUpto archivedUpToOrder (Some latest) (Some last)
    = true ->
  computeArchived parseFloatInt64 archivedUpto archivedUpToOrder (Some latest') (Some last')
    = true.
Proof.
  intros Hl Hm. unfold computeArchived.
  destruct (parseArchivedValue parseFloatInt64 archivedUpToOrder) as [order|].
  - rewrite !Z.leb_le. lia.
  - destruct (parseArchivedValue parseFloatInt64 archivedUpto) as [ts|]; [|exact id].
    destruct (1000000000000 <? ts); rewrite !Z.leb_le; lia.
Qed.

Lemma computeArchived_monotone_witness :
  computeArchived (U := testTables) noFloat (Some "ts1700000000000") None (Some 7) (Some
      1699999999000) = true.
Proof.
  apply (computeArchived_monotone noFloat (Some "ts1700000000000") None
           9 7 1700000000000 1699999999000); [lia | lia | reflexivity].
Defined.

Lemma maxTime_fold (times : list GoTime.Time) (init : GoTime.Time) :
  fold_left (fun latest t => if GoTime.After t latest then t else latest) times init
  = fold_left Z.max times init.
Proof.
  revert init. induction times as [|t times IH]; intros init; cbn [fold_left]; [reflexivity|].
  replace (if GoTime.After t init then t else init) with (Z.max init t); [apply IH|].
  unfold GoTime.After. destruct (Z.ltb_spec init t); lia.
Qed.

Lemma fold_max_spec (times : list Z) (init : Z) :
  init <= fold_left Z.max times init
  /\ (forall t, t ∈ times -> t <= fold_left Z.max times init)
  /\ (fold_left Z.max times init = init \/ fold_left Z.max times init ∈ times).
Proof.
  revert init. induction times as [|t times IH]; intros init; simpl.
  - split; [lia|]. split; [|now left]. intros t Ht. now apply elem_of_nil in Ht.
  - destruct (IH (Z.max init t)) as (Hge & Hall & Hin). split; [lia|]. split.
    + intros u [->|Hu]%elem_of_cons; [lia | now apply Hall].
    + destruct Hin as [Hin|Hin].
      * destruct (Z.max_spec init t) as [[_ Hm]|[_ Hm]]; rewrite Hm in Hin |- *.
        -- right. rewrite Hin. now left.
        -- now left.
      * right. now right.
Qed.

(** X4.  [maxTime] is the latest of its arguments and of the zero time: it
    is not earlier than any of them, it is one of them, and their order does
    not matter. *)
Theorem maxTime_spec (times : list GoTime.Time) :
  GoTime.zero <= maxTime times
  /\ (forall t, t ∈ times -> t <= maxTime times)
  /\ (maxTime times = GoTime.zero \/ maxTime times ∈ times)
  /\ (forall times', times ≡ₚ times' -> maxTime times' = maxTime times).
Proof.
  unfold maxTime. rewrite maxTime_fold.
  destruct (fold_max_spec times GoTime.zero) as (H1 & H2 & H3).
  split; [exact H1|]. split; [exact H2|]. split; [exact H3|].
  intros times' Hp. rewrite maxTime_fold. symmetry. clear H1 H2 H3.
  generalize GoTime.zero. induction Hp as [|x l l' _ IH|x y l|l l' l'' _ IH1 _ IH2];
    intros init; cbn [fold_left].
  - reflexivity.
  - apply IH.
  - f_equal. lia.
  - now rewrite IH1.
Qed.

(** X5.  A stored millisecond timestamp survives the conversion to a time
    and back, except zero, which becomes the zero time of year 1 and not the
    Unix epoch. *)
Theorem unixMillis_round_trip (ms : Z) :
  - 2 ^ 63 <= ms < 2 ^ 63 ->
  GoTime.UnixMilli (unixMillis ms) = (if ms =? 0 then - 62135596800000 else ms)
  /\ (unixMillis ms = GoTime.zero <-> ms = 0 \/ ms = - 62135596800000).
Proof.
  intros Hr. unfold unixMillis, GoTime.UnixMilli, GoTime.FromUnixMilli, GoTime.zero.
  destruct (Z.eqb_spec ms 0) as [->|Hne].
  - split; [reflexivity|]. split; [now left | reflexivity].
  - rewrite Z.div_mul by lia. rewrite wrap64_small by lia. split; [reflexivity|]. lia.
Qed.

Lemma unixMillis_round_trip_witness :
  GoTime.UnixMilli (unixMillis 1700000000200) = 1700000000200.
Proof.
  apply (unixMillis_round_trip 1700000000200). lia.
Defined.

(** ** Context windows, continued *)

Lemma div_window_before (a w k : Z) :
  0 < k -> 0 <= w -> a - w / k - 1 <= (a * k - w) / k <= a.
Proof.
  intros Hk Hw. pose proof (Z.div_mod w k ltac:(lia)) as Hdm.
  pose proof (Z.mod_pos_bound w k Hk) as Hmod. split.
  - apply Z.div_le_lower_bound; [exact Hk|]. nia.
  - apply Z.div_le_upper_bound; [exact Hk|]. nia.
Qed.

Lemma div_window_after (a w k : Z) :
  0 < k -> 0 <= w -> a <= (a * k + w) / k <= a + w / k.
Proof.
  intros Hk Hw. rewrite Z.div_add_l by lia.
  pose proof (Z.div_pos w k Hw Hk). lia.
Qed.

(** The window of a match with a non-zero timestamp and a non-negative
    window contains the timestamp of the match. *)
Lemma contextBounds_contain (mt : Message) (opts : SearchOptions) (ts : Z) :
  Message.Timestamp mt = GoTime.FromUnixMilli ts ->
  0 <= contextWindow opts < 2 ^ 63 ->
  - 2 ^ 63 <= ts - contextWindow opts / 10 ^ 6 - 1 ->
  ts + contextWindow opts / 10 ^ 6 < 2 ^ 63 ->
  fst (contextBounds mt opts) <= ts <= snd (contextBounds mt opts).
Proof.
  intros Ht Hw Hlo Hhi. unfold contextBounds. rewrite Ht. simpl fst. simpl snd.
  unfold GoTime.UnixMilli, GoTime.Add, GoTime.Neg, GoTime.FromUnixMilli.
  rewrite (wrap64_small (- contextWindow opts)) by lia.
  pose proof (div_window_before ts (contextWindow opts) (10 ^ 6) ltac:(lia) ltac:(lia)) as Hb.
  pose proof (div_window_after ts (contextWindow opts) (10 ^ 6) ltac:(lia) ltac:(lia)) as Ha.
  replace (ts * 10 ^ 6 + - contextWindow opts) with (ts * 10 ^ 6 - contextWindow opts) by lia.
  rewrite !wrap64_small by lia. lia.
Qed.

Section ContextFactsMore.

Context {U : UnicodeTables}.

Variable jsonUnmarshal : string -> option JSON.
Variable bridgeFiles : gmap string BridgeDB.
Variable rangeValues : gmap string string -> list string.

(** X6.  A window without a count keeps the match itself: for a visible
    match with a non-zero timestamp and a non-negative window, the context
    that [fetchContextMessages] returns when no count is given contains the
    match. *)
Theorem window_contains_match (db : DB) (opts : SearchOptions) (r : MsgRow) (score : Q)
    (byRoom : gmap string (list Participant)) (infos : gmap string threadInfo)
    (s : Session) :
  r ∈ messages db -> visibleMessage r = true -> m_timestamp r <> 0 ->
  fault db QContext = None ->
  so_Context opts <= 0 ->
  0 <= contextWindow opts < 2 ^ 63 ->
  - 2 ^ 63 <= m_timestamp r - contextWindow opts / 10 ^ 6 - 1 ->
  m_timestamp r + contextWindow opts / 10 ^ 6 < 2 ^ 63 ->
  exists ctx,
    fst (fetchContextMessages jsonUnmarshal bridgeFiles rangeValues db
           (scanMessage jsonUnmarshal (so_Format opts) r score) opts byRoom infos s) = Ok ctx
    /\ m_id r ∈ map Message.ID ctx.
Proof.
  intros Hin Hvis Hts Hfault Hcount Hw Hlo Hhi.
  set (mt := scanMessage jsonUnmarshal (so_Format opts) r score).
  assert (Hstamp : Message.Timestamp mt = GoTime.FromUnixMilli (m_timestamp r)).
  { unfold mt, scanMessage, unixMillis. simpl. now rewrite (proj2 (Z.eqb_neq _ _) Hts). }
  pose proof (contextBounds_contain mt opts _ Hstamp Hw Hlo Hhi) as Hbounds.
  unfold fetchContextMessages. destruct (contextBounds mt opts) as [start end_].
  simpl in Hbounds. unfold contextQuery, runQuery. rewrite Hfault.
  unfold bind, ret. destruct (displayName bridgeFiles rangeValues _ _ s) as [name s1].
  replace (0 <? so_Context opts) with false by (symmetry; apply Z.ltb_ge; lia).
  eexists. split; [reflexivity|].
  apply list_elem_of_In. rewrite !map_map. simpl. apply in_map_iff. exists r.
  split; [reflexivity|].
  apply sortBy_elem, filter_In. split; [now apply list_elem_of_In|].
  rewrite Hvis, String.eqb_refl. simpl.
  rewrite !andb_true_iff, !Z.leb_le. lia.
Qed.

End ContextFactsMore.

Lemma window_contains_match_witness :
  exists ctx,
    testContext (testSearchOptions 0 GoTime.Hour) = Ok ctx
    /\ 2 ∈ map Message.ID ctx.
Proof.
  refine (window_contains_match testUnmarshal testBridgeFiles testRange testDB
            (testSearchOptions 0 GoTime.Hour)
            (testMessage 2 "!room1:beeper.local" "$evt2" "@alice:beeper.local"
                         1700000000200 7 "christmas party")
            0%Q ∅ ∅ (mkSession None []) _ _ _ _ _ _ _ _).
  - vm_compute. do 1 right. left.
  - reflexivity.
  - discriminate.
  - reflexivity.
  - vm_compute. discriminate.
  - vm_compute. split; [discriminate | reflexivity].
  - vm_compute. discriminate.
  - vm_compute. reflexivity.
Defined.

(** X7.  Without wrap-around [trimContext] returns messages of the window
    in their order; when a count is given and the match is in the window, at
    most twice the count of them and fewer than the window holds; and, ids
    being unique, never the match. *)
Theorem trimContext_spec (messages : list Message) (matchID context : Z) :
  context + Z.of_nat (length messages) < 2 ^ 63 ->
  exists out,
    trimContext messages matchID context = Some out
    /\ sublist out messages
    /\ (0 < context -> matchID ∈ map Message.ID messages ->
        Z.of_nat (length out) <= 2 * context /\ (length out < length messages)%nat)
    /\ (0 < context -> NoDup (map Message.ID messages) ->
        matchID ∉ map Message.ID out).
Proof.
  intros Hbound. destruct (Z_le_gt_dec context 0) as [Hle|Hgt].
  { exists messages. split; [now apply trimContext_no_count|]. split; [reflexivity|].
    split; intros; lia. }
  destruct (findMatch_cases matchID messages)
    as [Hno|(before & m & after & -> & Hm & Hb)].
  - exists messages. split; [now apply trimContext_no_match|]. split; [reflexivity|].
    assert (Hnot : matchID ∉ map Message.ID messages).
    { intros (x & Hx & Hin)%list_elem_of_fmap.
      rewrite Forall_forall in Hno. now apply (Hno x Hin). }
    split; [intros _ Hin; now destruct Hnot | intros _ _; exact Hnot].
  - eexists. split; [apply trimContext_match; (assumption || lia)|].
    split; [|split].
    + apply sublist_app; [apply sublist_drop|]. apply sublist_cons, sublist_take.
    + intros _ _. rewrite !length_app, length_drop, length_take. simpl. lia.
    + intros _ Hnd Hin. rewrite map_app in Hnd. simpl in Hnd.
      apply NoDup_app in Hnd as (_ & Hdisj & Hnd). apply NoDup_cons in Hnd as [Hafter _].
      rewrite map_app in Hin. apply elem_of_app in Hin as [Hin|Hin].
      * apply (Hdisj matchID).
        -- apply list_elem_of_fmap in Hin as (x & -> & Hx).
           apply list_elem_of_fmap. exists x. split; [reflexivity|].
           exact (elem_of_sublist _ _ _ Hx (sublist_drop _ _)).
        -- rewrite <- Hm. now left.
      * apply Hafter. rewrite Hm.
        apply list_elem_of_fmap in Hin as (x & -> & Hx).
        apply list_elem_of_fmap. exists x. split; [reflexivity|].
        exact (elem_of_sublist _ _ _ Hx (sublist_take _ _)).
Qed.

Lemma trimContext_spec_witness :
  let msg id := Message.mk id "" "" "" "" "" "" 0 false "" "" 0%Q in
  exists out, trimContext [msg 1; msg 2; msg 3; msg 7] 2 1 = Some out
              /\ sublist out [msg 1; msg 2; msg 3; msg 7].
Proof.
  intros msg.
  destruct (trimContext_spec [msg 1; msg 2; msg 3; msg 7] 2 1) as (out & H1 & H2 & _).
  - vm_compute. reflexivity.
  - exists out. now split.
Defined.

(** ** The name resolver, continued *)

Section BridgeFactsMore.

Context {U : UnicodeTables}.

Variable bridgeFiles : gmap string BridgeDB.
Variable rangeValues : gmap string string -> list string.

Local Abbreviation query := (queryBridgeName bridgeFiles).
Local Abbreviation lookup := (LookupDMName bridgeFiles rangeValues).

(** X8.  A lookup never touches the discovered stores map, never changes or
    drops an entry of the cache (it adds at most the entry of the room it was
    asked for), and only ever adds to the log of opened store files; without
    a bridge it does nothing at all. *)
Theorem LookupDMName_frame (s : Session) (roomID accountID : string) :
  let s' := snd (lookup roomID accountID s) in
  (exists added, opened s' = (added ++ opened s)%list)
  /\ (bridge s = None -> lookup roomID accountID s = (Ok ("", false), s))
  /\ (forall b, bridge s = Some b ->
      exists b', bridge s' = Some b'
                 /\ platformDBs b' = platformDBs b
                 /\ cache b ⊆ cache b'
                 /\ forall room, room <> roomID -> cache b' !! room = cache b !! room).
Proof.
  unfold LookupDMName.
  destruct (bridge s) as [b|] eqn:Hb.
  2:{ simpl. split; [now exists []|]. split; [reflexivity | discriminate]. }
  assert (Hsame : exists b', bridge s = Some b' /\ platformDBs b' = platformDBs b
                    /\ cache b ⊆ cache b'
                    /\ forall room, room <> roomID -> cache b' !! room = cache b !! room).
  { exists b. rewrite Hb. repeat split; reflexivity. }
  case_bool_decide as Hsize.
  { simpl. split; [now exists []|]. split; [discriminate|]. now intros b0 [= <-]. }
  destruct (cache b !! roomID) as [cached|] eqn:Hc.
  { destruct (String.eqb cached ""); simpl;
      (split; [now exists []|]); (split; [discriminate|]); now intros b0 [= <-]. }
  assert (Hset : forall name log,
             exists b', bridge (mkSession (Some (setCache b roomID name)) log) = Some b'
                        /\ platformDBs b' = platformDBs b
                        /\ cache b ⊆ cache b'
                        /\ forall room, room <> roomID -> cache b' !! room = cache b !! room).
  { intros name log. eexists. split; [reflexivity|]. simpl. split; [reflexivity|].
    split; [now apply insert_subseteq|]. intros room Hroom. now apply lookup_insert_ne. }
  assert (Hkeep : forall log,
             exists b', bridge (mkSession (Some b) log) = Some b'
                        /\ platformDBs b' = platformDBs b
                        /\ cache b ⊆ cache b'
                        /\ forall room, room <> roomID -> cache b' !! room = cache b !! room).
  { intros log. exists b. repeat split; reflexivity. }
  destruct (negb _).
  - destruct (query _ roomID) as [[name ok]|e]; simpl;
      (split; [now eexists [_]|]); (split; [discriminate|]); intros b0 [= <-];
      first [exact (Hset name []) | exact (Hkeep [])].
  - pose proof (lookupAll_log bridgeFiles (rangeValues (platformDBs b)) roomID (opened s))
      as (added & Hlog & _).
    destruct (lookupAll _ _ _ _) as [[[name|]|e] log]; simpl in *; subst log;
      (split; [now exists added|]); (split; [discriminate|]); intros b0 [= <-];
      first [exact (Hset name []) | exact (Hset "" []) | exact (Hkeep [])].
Qed.

(** X9.  When the account names a discovered store and the room is not
    cached, exactly that store is opened and its answer is the answer of the
    lookup, whatever the other stores know. *)
Theorem LookupDMName_known_account (s : Session) (b : BridgeLookup)
    (roomID accountID path : string) :
  bridge s = Some b -> cache b !! roomID = None ->
  accountID <> "" -> platformDBs b !! normalizePlatform accountID = Some path ->
  path <> "" ->
  fst (lookup roomID accountID s) = query path roomID
  /\ opened (snd (lookup roomID accountID s)) = path :: opened s.
Proof.
  intros Hb Hc Hacc Hpath Hne. unfold LookupDMName. rewrite Hb.
  rewrite bool_decide_eq_false_2.
  2:{ intros Hsize. apply map_size_empty_iff in Hsize. rewrite Hsize in Hpath.
      now rewrite lookup_empty in Hpath. }
  rewrite Hc, (eqb_empty_false _ Hacc), Hpath. simpl.
  rewrite (eqb_empty_false _ Hne). simpl.
  destruct (query path roomID) as [[name ok]|e]; split; reflexivity.
Qed.

(** X10.  A store answers with a name that is trimmed and not empty, or with
    no name at all; a store file that cannot be opened is an error. *)
Theorem queryBridgeName_spec (dbPath roomID : string) :
  (bridgeFiles !! dbPath = None -> exists e, query dbPath roomID = Err e)
  /\ (forall name ok,
        query dbPath roomID = Ok (name, ok) ->
        TrimSpace name = name /\ (ok = true <-> name <> "")).
Proof.
  split.
  - intros H. unfold queryBridgeName. rewrite H. eauto.
  - unfold queryBridgeName.
    destruct (bridgeFiles !! dbPath) as [store|]; [|discriminate].
    destruct (portal store) as [rows|]; [|discriminate].
    assert (Hmiss : forall name ok, @Ok (string * bool) ("", false) = Ok (name, ok) ->
                                    TrimSpace name = name /\ (ok = true <-> name <> "")).
    { intros name ok [= <- <-]. split; [reflexivity|]. split; [discriminate | now intros []]. }
    destruct (List.find _ rows) as [[? [otherUser|]]|]; try exact Hmiss.
    destruct (ghost store) as [ghosts|]; [|discriminate].
    destruct (List.find _ ghosts) as [[? [found|]]|]; try exact Hmiss.
    destruct (String.eqb (TrimSpace found) "") eqn:E; [exact Hmiss|].
    intros name ok [= <- <-]. split; [apply TrimSpace_idem|].
    apply String.eqb_neq in E. tauto.
Qed.

(** A name the resolver reports as found is not empty. *)
Lemma lookup_found_nonempty s roomID accountID name :
  fst (lookup roomID accountID s) = Ok (name, true) -> name <> "".
Proof.
  unfold LookupDMName.
  destruct (bridge s) as [b|]; [|discriminate].
  case_bool_decide; [discriminate|].
  destruct (cache b !! roomID) as [cached|].
  { destruct (String.eqb cached "") eqn:E; [discriminate|].
    intros [= <-]. now apply String.eqb_neq. }
  destruct (negb _).
  - destruct (query _ roomID) as [[found ok]|e] eqn:E; [|discriminate].
    simpl. intros [= -> ->]. apply queryBridgeName_outcome in E. unfold cachedOutcome in E.
    destruct (String.eqb name "") eqn:Hf; [discriminate|]. now apply String.eqb_neq.
  - destruct (lookupAll _ _ _ _) as [[[found|]|e] log] eqn:E; simpl; try discriminate.
    intros [= <-]. apply lookupAll_outcome in E. unfold cachedOutcome in E.
    destruct (String.eqb found "") eqn:Hf; [discriminate|]. now apply String.eqb_neq.
Qed.

End BridgeFactsMore.

Lemma LookupDMName_known_account_witness :
  fst (LookupDMName (U := testTables) testBridgeFiles testRange "!room4:beeper.local"
      " WhatsApp " testSession)
  = Ok ("Bridge Name", true).
Proof.
  destruct (LookupDMName_known_account (U := testTables) testBridgeFiles testRange testSession
              (mkBridgeLookup {[ "whatsapp" := "/bridge/local-whatsapp/megabridge.db" ]} ∅)
              "!room4:beeper.local" " WhatsApp " "/bridge/local-whatsapp/megabridge.db")
    as [Hres _].
  - vm_compute. reflexivity.
  - reflexivity.
  - discriminate.
  - vm_compute. reflexivity.
  - discriminate.
  - rewrite Hres. vm_compute. reflexivity.
Defined.

Section DiscoveryFacts.

Context {U : UnicodeTables}.

Variable filepathDir : string -> string.
Variable filepathJoin : list string -> string.
Variable readDir : string -> Result (list DirEntry).
Variable statOk : string -> bool.

Lemma NewBridgeLookup_fold (root : string) (entries : list DirEntry)
    (init : gmap string string) (k p : string) :
  fold_left
    (fun (m : gmap string string) entry =>
       if negb (de_isDir entry) then m
       else
         let name := de_name entry in
         if negb (HasPrefix name "local-") then m
         else
           let path := filepathJoin [root; name; "megabridge.db"] in
           if negb (statOk path) then m
           else <[normalizePlatform name := path]> m)
    entries init !! k = Some p ->
  init !! k = Some p
  \/ exists entry, entry ∈ entries /\ de_isDir entry = true
                   /\ HasPrefix (de_name entry) "local-" = true
                   /\ k = normalizePlatform (de_name entry)
                   /\ p = filepathJoin [root; de_name entry; "megabridge.db"]
                   /\ statOk p = true.
Proof.
  revert init. induction entries as [|entry rest IH]; intros init; simpl; [now left|].
  intros H. apply IH in H as [H|(e & Hin & He)].
  - destruct (de_isDir entry) eqn:Hd; simpl in H; [|now left].
    destruct (HasPrefix (de_name entry) "local-") eqn:Hp; simpl in H; [|now left].
    destruct (statOk (filepathJoin [root; de_name entry; "megabridge.db"])) eqn:Hdb;
      simpl in H; [|now left].
    destruct (decide (normalizePlatform (de_name entry) = k)) as [Hk|Hk].
    + rewrite Hk, lookup_insert_eq in H. injection H as <-.
      right. exists entry. repeat split; auto. now left.
    + rewrite lookup_insert_ne in H by exact Hk. now left.
  - right. exists e. split; [now right | exact He].
Qed.

(** X11.  Discovery reads the override root, or else the directory of the
    index database.  It fails only when that root cannot be read; it starts
    with an empty cache, and every store it records is the path that
    [filepath.Join] makes of the root, a directory of the root whose name
    starts with [local-] and [megabridge.db], a path [os.Stat] accepts,
    under the normalized name of that directory. *)
Theorem NewBridgeLookup_spec (indexDBPath overrideRoot : string) :
  let root := if String.eqb overrideRoot "" then filepathDir indexDBPath else overrideRoot in
  let found := NewBridgeLookup filepathDir filepathJoin readDir statOk
                 indexDBPath overrideRoot in
  (forall e, readDir root = Err e -> found = Err e)
  /\ (forall entries, readDir root = Ok entries ->
      exists b, found = Ok b
                /\ cache b = ∅
                /\ forall k p, platformDBs b !! k = Some p ->
                   exists entry, entry ∈ entries /\ de_isDir entry = true
                                 /\ HasPrefix (de_name entry) "local-" = true
                                 /\ k = normalizePlatform (de_name entry)
                                 /\ p = filepathJoin [root; de_name entry; "megabridge.db"]
                                 /\ statOk p = true).
Proof.
  intros root found. subst found. unfold NewBridgeLookup. fold root.
  split; [now intros e ->|]. intros entries ->. eexists. split; [reflexivity|].
  split; [reflexivity|]. intros k p H. simpl in H.
  apply NewBridgeLookup_fold in H as [H|H]; [|exact H]. now rewrite lookup_empty in H.
Qed.

End DiscoveryFacts.

(** ** Display names, continued *)

Lemma append_nonempty (s t : string) : s <> "" -> s +:+ t <> "".
Proof. destruct s; [now intros [] | discriminate]. Qed.

Lemma Join_nonempty (x : string) (l : list string) (sep : string) :
  x <> "" -> Join (x :: l) sep <> "".
Proof. intros Hx. destruct l; simpl; [exact Hx | now apply append_nonempty]. Qed.

(** A participant is named after the full name, else the nickname, else the
    id: the name is empty only for a row with an empty id. *)
Lemma participantOfRow_name (r : ParticipantRow) :
  pr_id r <> "" -> p_Name (participantOfRow r) <> "".
Proof.
  intros Hid. unfold participantOfRow. simpl.
  destruct (String.eqb (TrimSpace (String_ (pr_full_name r))) "") eqn:E1.
  - destruct (String.eqb (TrimSpace (String_ (pr_nickname r))) "") eqn:E2;
      [exact Hid | now apply String.eqb_neq].
  - rewrite E1. now apply String.eqb_neq.
Qed.

(** X12.  The display name is never empty, provided no participant has an
    empty name (and rows with a non-empty id give such participants). *)
Theorem displayName_nonempty {U : UnicodeTables} (bridgeFiles : gmap string BridgeDB)
    (rangeValues : gmap string string -> list string)
    (thread : Thread) (ps : list Participant) (s : Session) :
  Forall (fun p => p_Name p <> "") ps ->
  fst (displayName bridgeFiles rangeValues thread ps s) <> "".
Proof.
  intros Hps. unfold displayName.
  destruct (String.eqb (Title thread) "") eqn:Ht; simpl;
    [|now apply String.eqb_neq].
  destruct (String.eqb (Name thread) "") eqn:Hn; simpl;
    [|now apply String.eqb_neq].
  set (r := if bool_decide (is_Some (bridge s)) && isDirect thread
            then LookupDMName bridgeFiles rangeValues (ID thread) (AccountID thread) s
            else (Ok ("", false), s)).
  assert (Hr : forall name, fst r = Ok (name, true) -> name <> "").
  { subst r. destruct (bool_decide (is_Some (bridge s)) && isDirect thread).
    - intros name. apply lookup_found_nonempty.
    - discriminate. }
  assert (Hnames : Forall (fun n => n <> "")
                     (map p_Name (List.filter (fun p => negb (p_IsSelf p)) ps))).
  { apply Forall_forall. intros n (p & -> & Hp)%list_elem_of_fmap.
    apply list_elem_of_In, filter_In in Hp as [Hp _]. apply list_elem_of_In in Hp.
    rewrite Forall_forall in Hps. now apply Hps. }
  destruct (map p_Name (List.filter (fun p => negb (p_IsSelf p)) ps)) as [|first rest] eqn:E.
  - destruct r as [[[name [|]]|e] s']; simpl in *; try discriminate. now apply Hr.
  - apply Forall_cons in Hnames as [Hfirst _].
    assert (Hfall : forall s' : Session,
               fst (if isDirect thread then (first, s')
                    else if bool_decide (length (first :: rest) <= 3)%nat
                         then (Join (first :: rest) ", ", s')
                         else (Join (take 3 (first :: rest)) ", " +:+ " +" +:+
                               pretty (Z.of_nat (length (first :: rest)) - 3), s')) <> "").
    { intros s'. destruct (isDirect thread); [exact Hfirst|].
      case_bool_decide; simpl fst.
      - now apply Join_nonempty.
      - apply append_nonempty. simpl take. now apply Join_nonempty. }
    destruct r as [[[name [|]]|e] s']; simpl in Hr |- *; [now apply Hr | apply Hfall ..].
Qed.

Lemma displayName_nonempty_witness :
  fst (displayName (U := testTables) testBridgeFiles testRange emptyThread
         [mkParticipant "@alice:beeper.local" "Alice" false] (mkSession None [])) <> "".
Proof.
  apply displayName_nonempty. repeat constructor. discriminate.
Defined.

(** ** The text renderer, continued *)

Section MessageTextFactsMore.

Context {U : UnicodeTables}.

Variable jsonUnmarshal : string -> option JSON.

Lemma fallbackMessageText_bracket value msgType :
  msgType <> "TEXT" -> exists rest, fallbackMessageText value msgType true = String "[" rest.
Proof.
  intros Hty. unfold fallbackMessageText. rewrite (proj2 (String.eqb_neq _ _) Hty). simpl.
  destruct (negb (String.eqb (TrimSpace value) "") && negb (String.eqb msgType "")).
  - unfold formatWithOptionalText. destruct (String.eqb (TrimSpace value) "");
      eexists; reflexivity.
  - eexists. reflexivity.
Qed.

Lemma formatWithOptionalText_bracket p text :
  exists rest, formatWithOptionalText (String "[" p) text = String "[" rest.
Proof.
  unfold formatWithOptionalText. destruct (String.eqb (TrimSpace text) "");
    eexists; reflexivity.
Qed.

Lemma renderPayload_bracket payload msgType :
  msgType <> "TEXT" -> exists rest, renderPayload payload msgType true = String "[" rest.
Proof.
  intros Hty. unfold renderPayload. rewrite (proj2 (String.eqb_neq _ _) Hty). simpl.
  repeat match goal with
         | |- context [if String.eqb msgType ?t then _ else _] =>
             destruct (String.eqb msgType t)
         | |- context [if negb ?c then _ else _] => destruct c; simpl
         | |- context [if negb ?c && ?d then _ else _] => destruct c; simpl
         end;
    try apply formatWithOptionalText_bracket;
    try (eexists; reflexivity).
  now apply fallbackMessageText_bracket.
Qed.

(** X13.  In rich mode a message of any type other than TEXT with a
    non-blank payload renders as a bracketed placeholder: the text starts
    with ["["] and does not depend on the plain-text field; with a blank
    payload the plain-text field is shown as it is. *)
Theorem rich_placeholder (rawMessage msgType textContent : string) :
  (TrimSpace rawMessage <> "" -> upperTypeOf msgType <> "TEXT" ->
   exists rest,
     ResolveMessageText jsonUnmarshal rawMessage msgType textContent FormatRich
       = String "[" rest
     /\ forall textContent',
         ResolveMessageText jsonUnmarshal rawMessage msgType textContent' FormatRich
           = String "[" rest)
  /\ (TrimSpace rawMessage = "" ->
      ResolveMessageText jsonUnmarshal rawMessage msgType textContent FormatRich
        = textContent).
Proof.
  split.
  - intros Hraw Hty.
    assert (Hex : exists rest,
               extractMessageText jsonUnmarshal rawMessage msgType true = String "[" rest).
    { unfold extractMessageText. fold (upperTypeOf msgType).
      rewrite (eqb_empty_false _ Hraw).
      destruct (jsonUnmarshal rawMessage) as [[]|];
        try (now apply fallbackMessageText_bracket).
      - rewrite (proj2 (String.eqb_neq _ _) Hty). now apply fallbackMessageText_bracket.
      - now apply renderPayload_bracket. }
    destruct Hex as [rest Hex]. exists rest.
    assert (Hall : forall tc,
               ResolveMessageText jsonUnmarshal rawMessage msgType tc FormatRich
               = String "[" rest).
    { intros tc. unfold ResolveMessageText.
      change (String.eqb FormatRich FormatPlain) with false. cbv iota. rewrite Hex.
      now rewrite (eqb_empty_false _ (TrimSpace_nonspace "[" rest eq_refl)). }
    split; [apply Hall | exact Hall].
  - intros Hraw. unfold ResolveMessageText, extractMessageText.
    change (String.eqb FormatRich FormatPlain) with false. cbv iota.
    now rewrite Hraw.
Qed.

(** X14.  Plain mode does not look at the type of a message: the same
    payload and plain-text field render alike whatever the type tag. *)
Theorem plain_ignores_type (rawMessage msgType msgType' textContent : string) :
  ResolveMessageText jsonUnmarshal rawMessage msgType textContent FormatPlain
  = ResolveMessageText jsonUnmarshal rawMessage msgType' textContent FormatPlain.
Proof.
  assert (Hfb : forall value ty, fallbackMessageText value ty false = value).
  { intros value ty. unfold fallbackMessageText. now destruct (String.eqb ty "TEXT"). }
  assert (Hex : forall ty,
             extractMessageText jsonUnmarshal rawMessage ty false
             = if String.eqb (TrimSpace rawMessage) "" then ""
               else match jsonUnmarshal rawMessage with
                    | Some (JObject value) => firstString value ["body"; "text"]
                    | Some (JString value) => value
                    | _ => rawMessage
                    end).
  { intros ty. unfold extractMessageText.
    destruct (String.eqb (TrimSpace rawMessage) ""); [reflexivity|].
    destruct (jsonUnmarshal rawMessage) as [[]|]; rewrite ?Hfb; try reflexivity.
    now destruct (String.eqb _ "TEXT"). }
  unfold ResolveMessageText. now rewrite !Hex.
Qed.

End MessageTextFactsMore.

Lemma rich_placeholder_witness :
  exists rest,
    ResolveMessageText (U := testTables) testFileUnmarshal testFileRaw "FILE" "report" FormatRich
    = String "[" rest.
Proof.
  destruct (proj1
      (rich_placeholder (U := testTables) testFileUnmarshal testFileRaw "FILE" "report"))
    as (rest & H & _).
  - vm_compute. discriminate.
  - vm_compute. discriminate.
  - now exists rest.
Defined.

(** ** Labels and tags, continued *)

(** X15.  Among the threads that pass the low-priority gate, inbox and
    archive split the threads in two: every thread is in exactly one of
    them. *)
Theorem inbox_archive_partition {U : UnicodeTables} (t : Thread)
    (archived includeLowPriority : bool) :
  passesGate t includeLowPriority ->
  shouldIncludeThread LabelArchive t archived includeLowPriority
  = negb (shouldIncludeThread LabelInbox t archived includeLowPriority).
Proof.
  intros Hgate. rewrite !(shouldIncludeThread_gate _ _ _ _ Hgate). simpl.
  now destruct (favourite t), archived.
Qed.

Lemma inbox_archive_partition_witness :
  let t := mkThread "!room2:beeper.local" "telegram" "Archived" "" "group" "" 0 0 0
                    false false false true 0 0 0 [] [] in
  shouldIncludeThread (U := testTables) LabelArchive t true false
  = negb (shouldIncludeThread (U := testTables) LabelInbox t true false).
Proof. intros t. apply inbox_archive_partition. reflexivity. Defined.

(** X16.  The low-priority gate comes before every label: without
    [includeLowPriority] a low-priority thread is in no list, not even under
    [all]; and a label that is none of the five known ones lists what [all]
    lists. *)
Theorem label_gate_and_default {U : UnicodeTables} (label : ThreadLabel) (t : Thread)
    (archived includeLowPriority : bool) :
  (IsLowPriority t = true -> includeLowPriority = false ->
   shouldIncludeThread label t archived includeLowPriority = false)
  /\ (label <> LabelInbox -> label <> LabelArchive -> label <> LabelFavourite ->
      label <> LabelUnread ->
      shouldIncludeThread label t archived includeLowPriority
      = shouldIncludeThread LabelAll t archived includeLowPriority
      /\ shouldIncludeThread label t archived includeLowPriority
         = negb (negb includeLowPriority && IsLowPriority t)).
Proof.
  split.
  - intros Hlow ->. unfold shouldIncludeThread. now rewrite Hlow.
  - intros H1 H2 H3 H4. unfold shouldIncludeThread.
    rewrite (proj2 (String.eqb_neq _ _) H1), (proj2 (String.eqb_neq _ _) H2),
      (proj2 (String.eqb_neq _ _) H3), (proj2 (String.eqb_neq _ _) H4).
    destruct (negb includeLowPriority && IsLowPriority t); simpl; [now split|].
    now destruct (String.eqb label LabelAll).
Qed.

Section TagFacts.

Context {U : UnicodeTables}.

Variable parseFloatInt64 : string -> option Z.
Variable jsonUnmarshalStrings : string -> option (list string).

(** X17.  A thread whose tags do not decode as a list of strings is a
    favourite exactly when the trimmed raw text, in lower case, mentions
    [favourite].  When it does and the thread passes the low-priority gate,
    the thread is listed under [favourite] and in the inbox, archived or
    not, and never in the archive. *)
Theorem favourite_fallback (r : ThreadQueryRow) (archived includeLowPriority : bool) :
  let raw := TrimSpace (String_ (t_tags (q_thread r))) in
  let t := scanThread parseFloatInt64 jsonUnmarshalStrings r in
  jsonUnmarshalStrings raw = None ->
  favourite t = Contains (ToLower raw) "favourite"
  /\ (Contains (ToLower raw) "favourite" = true ->
      passesGate t includeLowPriority ->
      shouldIncludeThread LabelFavourite t archived includeLowPriority = true
      /\ shouldIncludeThread LabelInbox t archived includeLowPriority = true
      /\ shouldIncludeThread LabelArchive t archived includeLowPriority = false).
Proof.
  intros raw t Hnone.
  assert (Hfav : favourite t = Contains (ToLower raw) "favourite").
  { unfold favourite, t, scanThread. cbn [Tags]. unfold parseTags. fold raw.
    destruct (String.eqb raw "") eqn:E.
    - apply String.eqb_eq in E. now rewrite E.
    - rewrite Hnone. now destruct (Contains (ToLower raw) "favourite"). }
  split; [exact Hfav|]. intros Hc Hgate. rewrite Hc in Hfav.
  rewrite !(shouldIncludeThread_gate _ _ _ _ Hgate). simpl. rewrite Hfav.
  now destruct archived.
Qed.

End TagFacts.

Lemma favourite_fallback_witness :
  let r := mkThreadQueryRow
             (mkThreadRow "!room9:beeper.local" (Some "signal") 0 (Some "Fav") None
                (Some "group") None None None None None None None
                (Some " work, FAVOURITE "))
             None None None None in
  let t := scanThread (U := testTables) noFloat testUnmarshalStrings r in
  favourite (U := testTables) t = true
  /\ shouldIncludeThread (U := testTables) LabelInbox t true false = true.
Proof.
  intros r t.
  destruct (favourite_fallback (U := testTables) noFloat testUnmarshalStrings r true false
              eq_refl) as [Hfav Hlist].
  split; [exact Hfav|]. exact (proj1 (proj2 (Hlist eq_refl eq_refl))).
Defined.

(** ** Thread listing, continued *)

Section ThreadFactsMore.

Context {U : UnicodeTables}.

Variable parseFloatInt64 : string -> option Z.
Variable jsonUnmarshalStrings : string -> option (list string).
Variable cutoffMillis : Z -> Z.
Variable bridgeFiles : gmap string BridgeDB.
Variable rangeValues : gmap string string -> list string.

Local Abbreviation ListThreads' :=
  (ListThreads parseFloatInt64 jsonUnmarshalStrings cutoffMillis bridgeFiles rangeValues).
Local Abbreviation GetThread' :=
  (GetThread parseFloatInt64 jsonUnmarshalStrings bridgeFiles rangeValues).

Lemma listThreadsRow_facts opts label r t :
  listThreadsRow parseFloatInt64 jsonUnmarshalStrings opts label r = Some t ->
  shouldIncludeThread label t (IsArchived t) (tl_IncludeLowPriority opts) = true
  /\ ID t = t_threadID (q_thread r)
  /\ AccountID t = String_ (t_accountID (q_thread r))
  /\ Participants t = []
  /\ (tl_WithStats opts = false ->
      TotalMessages t = 0 /\ LastMessage t = GoTime.zero /\ LastOpen t = GoTime.zero).
Proof.
  unfold listThreadsRow.
  destruct (shouldIncludeThread _ _ _ _) eqn:Hinc; [|discriminate]. intros [= <-].
  destruct (tl_WithStats opts); [destruct (q_totalMessages r)|];
    (split; [exact Hinc|]); repeat split; discriminate.
Qed.

Lemma listThreadsQuery_account db opts limit rows :
  listThreadsQuery cutoffMillis db opts limit = Ok rows ->
  tl_AccountID opts <> "" ->
  Forall (fun r => t_accountID (q_thread r) = Some (tl_AccountID opts)) rows.
Proof.
  intros H Hacc. unfold listThreadsQuery in H. apply runQuery_ok in H as ->.
  apply Forall_forall. intros r Hr.
  pose proof (elem_of_sublist _ _ _ Hr (sublist_take _ _)) as Hin.
  apply list_elem_of_In, sortBy_elem, filter_In in Hin as [_ Hcond].
  apply andb_true_iff in Hcond as [Hcond _].
  rewrite (eqb_empty_false _ Hacc) in Hcond. simpl in Hcond.
  now apply bool_decide_eq_true in Hcond.
Qed.

(** X18.  [ListThreads] returns at most [limit] threads (fifty when no
    positive limit is given); each of them is a thread of the database that
    the requested label includes ([all] when none is given) and, when an
    account is requested, a thread of that account. *)
Theorem ListThreads_results (db : DB) (opts : ThreadListOptions) (s s' : Session)
    (out : list Thread) :
  ListThreads' db opts s = (Ok out, s') ->
  let limit := if tl_Limit opts <=? 0 then defaultLimit else tl_Limit opts in
  let label := if String.eqb (tl_Label opts) "" then LabelAll else tl_Label opts in
  Z.of_nat (length out) <= limit
  /\ Forall (fun t =>
               shouldIncludeThread label t (IsArchived t) (tl_IncludeLowPriority opts) = true
               /\ ID t ∈ map t_threadID (threads db)
               /\ (tl_AccountID opts <> "" -> AccountID t = tl_AccountID opts)) out.
Proof.
  intros Hrun limit label. unfold ListThreads in Hrun. fold limit label in Hrun.
  destruct (listThreadsQuery cutoffMillis db opts limit) as [rows0|e] eqn:Hq; [|discriminate].
  destruct (listThreadsQuery_sorted _ _ _ _ _ Hq) as (_ & Hin & Hlen).
  destruct (participantsByRoom db _) as [byRoom|e]; [|discriminate].
  unfold bind, ret in Hrun.
  match type of Hrun with context [forM ?f ?l s] =>
    pose proof (forM_Forall2 f l s) as Hloop; destruct (forM f l s) as [ts s1] end.
  injection Hrun as <- <-. simpl in Hloop.
  destruct (omap_kept (listThreadsRow parseFloatInt64 jsonUnmarshalStrings opts label) rows0)
    as (kept & Hsub & Hkept).
  pose proof (Forall2_compose _ _ _ _ _ Hkept Hloop) as Hall.
  split.
  - rewrite <- (Forall2_length _ _ _ Hall). apply sublist_length in Hsub.
    assert (0 < limit) by (subst limit; unfold defaultLimit;
                           destruct (Z.leb_spec (tl_Limit opts) 0); lia).
    lia.
  - apply Forall_forall. intros t Ht.
    apply list_elem_of_lookup in Ht as [i Hi].
    destruct (Forall2_lookup_r _ _ _ _ _ Hall Hi) as (r & Hr & t0 & Hrow & s1' & ->).
    apply listThreadsRow_facts in Hrow as (Hinc & Hid & Hacc & _).
    unfold bind, ret. simpl.
    destruct (displayName bridgeFiles rangeValues t0 _ s1') as [name s2]. simpl.
    assert (Hrin : r ∈ rows0).
    { eapply elem_of_sublist; [|exact Hsub]. eapply list_elem_of_lookup_2. exact Hr. }
    split; [exact Hinc|]. split.
    + rewrite Hid. specialize (Hin r Hrin).
      apply list_elem_of_fmap in Hin as (row & -> & Hrow).
      apply list_elem_of_fmap. now exists row.
    + intros Hne. rewrite Hacc.
      pose proof (listThreadsQuery_account _ _ _ _ Hq Hne) as Hfilter.
      rewrite Forall_forall in Hfilter. now rewrite (Hfilter r Hrin).
Qed.

(** X19.  Without [WithStats] every listed thread has its message count and
    its last-message and last-open times cleared; without [WithParticipants]
    no listed thread carries participants. *)
Theorem ListThreads_suppression (db : DB) (opts : ThreadListOptions) (s s' : Session)
    (out : list Thread) :
  ListThreads' db opts s = (Ok out, s') ->
  (tl_WithStats opts = false ->
   Forall (fun t => TotalMessages t = 0 /\ LastMessage t = GoTime.zero
                    /\ LastOpen t = GoTime.zero) out)
  /\ (tl_WithParticipants opts = false -> Forall (fun t => Participants t = []) out).
Proof.
  intros Hrun. unfold ListThreads in Hrun.
  set (limit := if tl_Limit opts <=? 0 then defaultLimit else tl_Limit opts) in Hrun.
  set (label := if String.eqb (tl_Label opts) "" then LabelAll else tl_Label opts) in Hrun.
  destruct (listThreadsQuery cutoffMillis db opts limit) as [rows0|e]; [|discriminate].
  destruct (participantsByRoom db _) as [byRoom|e]; [|discriminate].
  unfold bind, ret in Hrun.
  match type of Hrun with context [forM ?f ?l s] =>
    pose proof (forM_Forall2 f l s) as Hloop; destruct (forM f l s) as [ts s1] end.
  injection Hrun as <- <-. simpl in Hloop.
  destruct (omap_kept (listThreadsRow parseFloatInt64 jsonUnmarshalStrings opts label) rows0)
    as (kept & Hsub & Hkept).
  pose proof (Forall2_compose _ _ _ _ _ Hkept Hloop) as Hall.
  split; intros Hopt; apply Forall_forall; intros t Ht;
    apply list_elem_of_lookup in Ht as [i Hi];
    destruct (Forall2_lookup_r _ _ _ _ _ Hall Hi) as (r & Hr & t0 & Hrow & s1' & ->);
    apply listThreadsRow_facts in Hrow as (_ & _ & _ & Hps & Hstats);
    unfold bind, ret; simpl;
    destruct (displayName bridgeFiles rangeValues t0 _ s1') as [name s2]; simpl.
  - now apply Hstats.
  - now rewrite Hopt.
Qed.

End ThreadFactsMore.

(** ** Participants *)

(** The rows of the table [participants] of one room, as the row loop of
    [participantsByRoom] scans them. *)
Lemma participants_fold (room : string) (rows : list ParticipantRow)
    (acc : gmap string (list Participant)) :
  let step := fun (byRoom : gmap string (list Participant)) r =>
    <[pr_room_id r := (default [] (byRoom !! pr_room_id r) ++ [participantOfRow r])%list]>
      byRoom in
  let group := map participantOfRow
                 (List.filter (fun r => String.eqb (pr_room_id r) room) rows) in
  default [] (fold_left step rows acc !! room) = (default [] (acc !! room) ++ group)%list
  /\ (fold_left step rows acc !! room = None <-> acc !! room = None /\ group = []).
Proof.
  intros step. revert acc. induction rows as [|r rows IH]; intros acc; simpl.
  - rewrite app_nil_r. tauto.
  - destruct (IH (step acc r)) as [IH1 IH2]. rewrite IH1, IH2.
    assert (Hstep : step acc r
                    = <[pr_room_id r := (default [] (acc !! pr_room_id r)
                                         ++ [participantOfRow r])%list]> acc) by reflexivity.
    rewrite Hstep. clear Hstep IH1 IH2 IH.
    destruct (String.eqb (pr_room_id r) room) eqn:E.
    + apply String.eqb_eq in E. rewrite E, lookup_insert_eq. simpl.
      rewrite <- app_assoc. split; [reflexivity|]. split; intros [H1 H2]; discriminate.
    + apply String.eqb_neq in E. rewrite lookup_insert_ne by exact E. tauto.
Qed.

Lemma filter_filter_room (room : string) (ids : list string) (rows : list ParticipantRow) :
  room ∈ ids ->
  List.filter (fun r => String.eqb (pr_room_id r) room)
    (List.filter (fun r => bool_decide (pr_room_id r ∈ ids)) rows)
  = List.filter (fun r => String.eqb (pr_room_id r) room) rows.
Proof.
  intros Hin. induction rows as [|r rows IH]; simpl; [reflexivity|].
  destruct (String.eqb (pr_room_id r) room) eqn:E.
  - apply String.eqb_eq in E. rewrite bool_decide_eq_true_2 by now rewrite E.
    simpl. apply String.eqb_eq in E. rewrite E. now f_equal.
  - case_bool_decide; simpl; [rewrite E|]; exact IH.
Qed.

Lemma filter_filter_other (room : string) (ids : list string) (rows : list ParticipantRow) :
  room ∉ ids ->
  List.filter (fun r => String.eqb (pr_room_id r) room)
    (List.filter (fun r => bool_decide (pr_room_id r ∈ ids)) rows) = [].
Proof.
  intros Hin. induction rows as [|r rows IH]; simpl; [reflexivity|].
  case_bool_decide as Hr; simpl; [|exact IH].
  destruct (String.eqb (pr_room_id r) room) eqn:E; [|exact IH].
  apply String.eqb_eq in E. destruct Hin. now rewrite <- E.
Qed.

Lemma uniqueStrings_elem (values : list string) (x : string) :
  x ∈ uniqueStrings values <-> x ∈ values /\ x <> "".
Proof.
  destruct (uniqueStringsAux_spec values ∅) as (_ & Hin & _).
  unfold uniqueStrings. rewrite Hin. set_solver.
Qed.

(** The participants a room has in the map of [participantsByRoom]: all the
    rows of the room, in the order of the table, when the room was asked for
    under a non-empty id; none otherwise. *)
Lemma participantsByRoom_lookup (db : DB) (roomIDs : list string)
    (byRoom : gmap string (list Participant)) (room : string) :
  participantsByRoom db roomIDs = Ok byRoom ->
  let group := map participantOfRow
                 (List.filter (fun r => String.eqb (pr_room_id r) room) (participants db)) in
  (room ∈ roomIDs -> room <> "" ->
   default [] (byRoom !! room) = group /\ (byRoom !! room = None <-> group = []))
  /\ ((room ∉ roomIDs \/ room = "") -> byRoom !! room = None).
Proof.
  intros H group. unfold participantsByRoom in H.
  pose proof (uniqueStrings_elem roomIDs room) as Huniq.
  destruct (uniqueStrings roomIDs) as [|id ids] eqn:Hids.
  - injection H as <-. split.
    + intros Hin Hne. rewrite elem_of_nil in Huniq. tauto.
    + intros _. apply lookup_empty.
  - destruct (runQuery db QParticipants _) as [rows|e] eqn:Hq; [|discriminate].
    apply runQuery_ok in Hq. injection H as <-.
    destruct (participants_fold room rows ∅) as [H1 H2]. rewrite lookup_empty in H1, H2.
    simpl in H1. split.
    + intros Hin Hne. rewrite H1, H2. subst rows.
      rewrite filter_filter_room by (apply Huniq; now split). tauto.
    + intros Hout. apply H2. split; [reflexivity|]. subst rows.
      rewrite filter_filter_other; [reflexivity|]. rewrite Huniq. intros [Hin Hne].
      destruct Hout; contradiction.
Qed.

(** X20.  [participantsByRoom] groups the participants by room: a room has
    an entry exactly when it was asked for, its id is not empty and the table
    has rows for it, and the entry holds all these rows in the order of the
    table and nothing else. *)
Theorem participantsByRoom_groups (db : DB) (roomIDs : list string)
    (byRoom : gmap string (list Participant)) :
  participantsByRoom db roomIDs = Ok byRoom ->
  forall room ps,
    byRoom !! room = Some ps <->
    room ∈ roomIDs /\ room <> "" /\ ps <> []
    /\ ps = map participantOfRow
              (List.filter (fun r => String.eqb (pr_room_id r) room) (participants db)).
Proof.
  intros H room ps.
  destruct (participantsByRoom_lookup db roomIDs byRoom room H) as [Hin Hout].
  destruct (decide (room ∈ roomIDs)) as [Hr|Hr];
    [destruct (decide (room = "")) as [He|He]|].
  - rewrite Hout by now right. split; [discriminate | tauto].
  - destruct (Hin Hr He) as [H1 H2]. destruct (byRoom !! room) as [ps'|]; simpl in H1.
    + split.
      * intros [= ->]. repeat split; try assumption.
        intros ->. destruct H2 as [_ H2]. now specialize (H2 (eq_sym H1)).
      * intros (_ & _ & _ & ->). now rewrite H1.
    + split; [discriminate|]. intros (_ & _ & Hne & ->). destruct Hne.
      now apply H2.
  - rewrite Hout by now left. split; [discriminate | tauto].
Qed.

Lemma participantsByRoom_groups_witness :
  exists byRoom,
    participantsByRoom testDB ["!room1:beeper.local"; ""; "!room1:beeper.local"] = Ok byRoom
    /\ (byRoom !! "!room1:beeper.local"
        = Some (map participantOfRow
                  (List.filter (fun r => String.eqb (pr_room_id r) "!room1:beeper.local")
                     (participants testDB)))).
Proof.
  eexists. split; [reflexivity|].
  apply (participantsByRoom_groups testDB ["!room1:beeper.local"; ""; "!room1:beeper.local"]
           _ eq_refl).
  repeat split; [repeat constructor | discriminate | discriminate].
Defined.

(** ** One thread and its messages *)

Section ThreadShowFacts.

Context {U : UnicodeTables}.

Variable parseFloatInt64 : string -> option Z.
Variable jsonUnmarshalStrings : string -> option (list string).
Variable bridgeFiles : gmap string BridgeDB.
Variable rangeValues : gmap string string -> list string.

Local Abbreviation GetThread' :=
  (GetThread parseFloatInt64 jsonUnmarshalStrings bridgeFiles rangeValues).

(** X21.  [GetThread] fails with the no-rows error of the driver, and leaves
    the session alone, when no thread has the id.  A thread it returns has
    the id asked for, which is one of the table, and carries all the
    participants of its room; without [withStats] its message count and its
    last-message and last-open times are cleared. *)
Theorem GetThread_lookup (db : DB) (threadID : string) (withStats : bool) (s : Session) :
  (fault db QGetThread = None ->
   threadID ∉ map t_threadID (threads db) ->
   GetThread' db threadID withStats s = (Err "sql: no rows in result set", s))
  /\ (forall t s',
        GetThread' db threadID withStats s = (Ok t, s') ->
        ID t = threadID
        /\ threadID ∈ map t_threadID (threads db)
        /\ (threadID <> "" ->
            Participants t
            = map participantOfRow
                (List.filter (fun r => String.eqb (pr_room_id r) threadID) (participants db)))
        /\ (withStats = false ->
            TotalMessages t = 0 /\ LastMessage t = GoTime.zero /\ LastOpen t = GoTime.zero)).
Proof.
  split.
  - intros Hfault Hno. unfold GetThread, runQuery. rewrite Hfault.
    destruct (List.find _ _) as [r|] eqn:Hfind; [|reflexivity].
    apply find_some in Hfind as [Hin Hid]. apply String.eqb_eq in Hid.
    destruct Hno. apply in_map_iff in Hin as (row & <- & Hrow).
    apply list_elem_of_fmap. exists row. split; [now rewrite <- Hid|].
    now apply list_elem_of_In.
  - intros t s'. unfold GetThread, runQuery.
    destruct (fault db QGetThread); [discriminate|].
    destruct (List.find _ _) as [r|] eqn:Hfind; [|discriminate].
    apply find_some in Hfind as [Hin Hid]. apply String.eqb_eq in Hid.
    destruct (participantsByRoom db [threadID]) as [byRoom|e] eqn:Hps; [|discriminate].
    unfold bind, ret. destruct (displayName bridgeFiles rangeValues _ _ s) as [name s1].
    intros [= <- <-].
    destruct (participantsByRoom_lookup db [threadID] byRoom threadID Hps) as [Hgroup _].
    assert (Hmem : threadID ∈ map t_threadID (threads db)).
    { apply in_map_iff in Hin as (row & <- & Hrow).
      apply list_elem_of_fmap. exists row. split; [now rewrite <- Hid|].
      now apply list_elem_of_In. }
    assert (Hself : threadID ∈ [threadID]) by (apply elem_of_cons; now left).
    destruct withStats; [destruct (q_totalMessages r)|]; simpl;
      (split; [exact Hid|]); (split; [exact Hmem|]);
      (split; [intros Hne; exact (proj1 (Hgroup Hself Hne))|]);
      first [discriminate | intros _; repeat split].
Qed.

End ThreadShowFacts.

Section ListMessagesFacts.

Context {U : UnicodeTables}.

Variable jsonUnmarshal : string -> option JSON.
Variable listMessagesFault : option error.

Local Abbreviation ListMessages' := (ListMessages jsonUnmarshal listMessagesFault).

(** X22.  [ListMessages] refuses an empty thread id.  Otherwise its messages
    are rows of the requested thread, newest first, at most [Limit] of them
    (fifty when no positive limit is given), none deleted, hidden or a
    reaction, and all within the bounds [After] and [Before], taken in
    milliseconds and both included. *)
Theorem ListMessages_spec (db : DB) (opts : MessageListOptions) :
  (ml_ThreadID opts = "" -> ListMessages' db opts = Err "thread ID is required")
  /\ (forall out,
        ListMessages' db opts = Ok out ->
        let limit := if ml_Limit opts <=? 0 then defaultLimit else ml_Limit opts in
        exists rows,
          Forall2 (fun r m => fromRow m r) rows out
          /\ Z.of_nat (length rows) <= limit
          /\ StronglySorted (fun a b => m_timestamp b <= m_timestamp a) rows
          /\ Forall (fun r =>
                       r ∈ messages db
                       /\ m_roomID r = ml_ThreadID opts
                       /\ m_isDeleted r = 0 /\ m_type r <> "HIDDEN" /\ m_type r <> "REACTION"
                       /\ (forall t, ml_After opts = Some t ->
                                     GoTime.UnixMilli t <= m_timestamp r)
                       /\ (forall t, ml_Before opts = Some t ->
                                     m_timestamp r <= GoTime.UnixMilli t)) rows).
Proof.
  split.
  - intros H. unfold ListMessages. now rewrite H.
  - intros out. unfold ListMessages.
    destruct (String.eqb (ml_ThreadID opts) ""); [discriminate|].
    set (limit := if ml_Limit opts <=? 0 then defaultLimit else ml_Limit opts).
    unfold listMessagesQuery. destruct listMessagesFault; [discriminate|]. simpl.
    destruct (participantsByRoom db [ml_ThreadID opts]) as [byRoom|e]; [|discriminate].
    simpl. intros [= <-].
    set (le := fun a b : MsgRow => m_timestamp b <=? m_timestamp a).
    match goal with |- context [List.filter ?c _] => set (cond := c) end.
    exists (take (Z.to_nat limit) (sortBy le (List.filter cond (messages db)))).
    assert (Hlimit : 0 < limit).
    { subst limit. unfold defaultLimit. destruct (Z.leb_spec (ml_Limit opts) 0); lia. }
    split; [|split; [|split]].
    + rewrite map_map. apply Forall2_fmap_r, Forall_Forall2_diag, Forall_forall.
      intros r _. repeat split.
    + rewrite length_take. lia.
    + apply (StronglySorted_sublist _ _ _ (sublist_take _ _)).
      assert (Hs : StronglySorted (fun a b => le a b = true)
                     (sortBy le (List.filter cond (messages db)))).
      { apply sortBy_sorted; unfold le; intros a b.
        - intros H. apply Z.leb_gt in H. apply Z.leb_le. lia.
        - intros c H1 H2. apply Z.leb_le in H1, H2. apply Z.leb_le. lia. }
      revert Hs. generalize (sortBy le (List.filter cond (messages db))).
      induction 1 as [|x l _ IH Hall]; constructor; [exact IH|].
      eapply Forall_impl; [exact Hall|]. intros y Hy. now apply Z.leb_le.
    + apply Forall_forall. intros r Hr.
      pose proof (elem_of_sublist _ _ _ Hr (sublist_take _ _)) as Hin.
      apply list_elem_of_In, sortBy_elem, filter_In in Hin as [Hin Hcond].
      unfold cond in Hcond. rewrite !andb_true_iff in Hcond.
      destruct Hcond as [[[Hroom Hvis] Hafter] Hbefore].
      apply String.eqb_eq in Hroom. apply visibleMessage_spec in Hvis as (Hd & Hh & Hre).
      split; [now apply list_elem_of_In|]. repeat (split; [assumption|]). split.
      * intros t Ht. rewrite Ht in Hafter. now apply Z.leb_le.
      * intros t Ht. rewrite Ht in Hbefore. now apply Z.leb_le.
Qed.

End ListMessagesFacts.

(** ** Search, continued *)

Section SearchFactsMore.

Context {U : UnicodeTables}.

Variable jsonUnmarshal : string -> option JSON.
Variable jsonExtractText : string -> option string.
Variable cutoffMillis : Z -> Z.
Variable bridgeFiles : gmap string BridgeDB.
Variable rangeValues : gmap string string -> list string.

Local Abbreviation searchQuery' := (searchQuery jsonExtractText cutoffMillis).
Local Abbreviation searchFilters' := (searchFilters cutoffMillis).
Local Abbreviation searchResults' :=
  (searchResults jsonUnmarshal bridgeFiles rangeValues).
Local Abbreviation SearchMessages' :=
  (SearchMessages jsonUnmarshal jsonExtractText cutoffMillis bridgeFiles rangeValues).

(** A successful search went from the rows of one of the two statements. *)
Lemma SearchMessages_rows db opts s results s' :
  SearchMessages' db opts s = (Ok results, s') ->
  let limit := if so_Limit opts <=? 0 then defaultLimit else so_Limit opts in
  exists rows useFTS,
    searchQuery' db opts limit useFTS = Ok rows
    /\ searchResults' db opts rows s = (Ok results, s').
Proof.
  intros H limit. unfold SearchMessages in H. fold limit in H.
  destruct (String.eqb (TrimSpace (so_Query opts)) ""); [discriminate|].
  destruct (HasFTS db) as [useFTS|e]; [|discriminate].
  destruct (searchQuery' db opts limit useFTS) as [rows|e] eqn:Hq.
  - now exists rows, useFTS.
  - destruct (useFTS && isFTSError (Some e)).
    + destruct (searchQuery' db opts limit false) as [rows|e'] eqn:Hlike; [|discriminate].
      now exists rows, false.
    + discriminate.
Qed.

Lemma searchQuery_rows db opts limit useFTS rows :
  searchQuery' db opts limit useFTS = Ok rows ->
  (length rows <= Z.to_nat limit)%nat
  /\ Forall (fun r => fst r ∈ messages db /\ searchFilters' db opts (fst r) = true) rows.
Proof.
  destruct useFTS; intros H.
  - now apply searchQuery_fts in H.
  - apply searchQuery_like in H as [Hlen Hall]. split; [exact Hlen|].
    eapply Forall_impl; [exact Hall|]. intros r (_ & Hin & Hf & _). now split.
Qed.

(** Without a context request no result carries context. *)
Lemma searchResults_no_context db opts rows s results :
  fst (searchResults' db opts rows s) = Ok results ->
  so_Context opts <= 0 -> so_Window opts <= 0 ->
  Forall (fun res => Context res = []) results.
Proof.
  unfold searchResults. intros H Hc Hw.
  destruct (threadInfoByID db _) as [infos|e]; [|discriminate].
  destruct (participantsByRoom db _) as [byRoom|e]; [|discriminate].
  unfold bind at 1 in H.
  match type of H with context [forM ?f ?l s] => destruct (forM f l s) as [ms s1] end.
  apply forME_Forall2 in H.
  replace (0 <? so_Context opts) with false in H by (symmetry; apply Z.ltb_ge; lia).
  replace (0 <? so_Window opts) with false in H by (symmetry; apply Z.ltb_ge; lia).
  simpl in H. clear - H. induction H as [|m res ms results (s1 & Hres) _ IH]; constructor.
  - unfold ret in Hres. simpl in Hres. now injection Hres as <-.
  - exact IH.
Qed.

(** X23.  Whichever statement served it, a successful search returns at most
    [Limit] results (fifty when no positive limit is given); the match of
    each is a message of the database that is not deleted, hidden or a
    reaction, lies in the requested thread when one is given and is not older
    than the requested days; and when neither a context count nor a window is
    asked for, no result carries context. *)
Theorem SearchMessages_results (db : DB) (opts : SearchOptions) (s s' : Session)
    (results : list SearchResult) :
  SearchMessages' db opts s = (Ok results, s') ->
  let limit := if so_Limit opts <=? 0 then defaultLimit else so_Limit opts in
  Z.of_nat (length results) <= limit
  /\ Forall (fun res =>
               exists r, r ∈ messages db /\ fromRow (Match res) r
                 /\ m_isDeleted r = 0 /\ m_type r <> "HIDDEN" /\ m_type r <> "REACTION"
                 /\ (so_ThreadID opts <> "" -> Message.ThreadID (Match res) = so_ThreadID opts)
                 /\ (0 < so_Days opts -> cutoffMillis (so_Days opts) <= m_timestamp r)) results
  /\ (so_Context opts <= 0 -> so_Window opts <= 0 ->
      Forall (fun res => Context res = []) results).
Proof.
  intros H limit. apply SearchMessages_rows in H as (rows & useFTS & Hq & Hres).
  fold limit in Hq. apply searchQuery_rows in Hq as [Hlen Hall].
  assert (Hfst : fst (searchResults' db opts rows s) = Ok results) by now rewrite Hres.
  pose proof (searchResults_rows _ _ _ _ _ _ _ _ Hfst) as Hrows.
  assert (Hlimit : 0 < limit).
  { subst limit. unfold defaultLimit. destruct (Z.leb_spec (so_Limit opts) 0); lia. }
  split; [|split].
  - rewrite <- (Forall2_length _ _ _ Hrows). lia.
  - apply Forall_forall. intros res Hin. apply list_elem_of_lookup in Hin as [i Hi].
    destruct (Forall2_lookup_r _ _ _ _ _ Hrows Hi) as (r & Hr & Hfrom & _).
    rewrite Forall_forall in Hall.
    destruct (Hall r (list_elem_of_lookup_2 _ _ _ Hr)) as [Hmem Hf].
    apply searchFilters_spec in Hf as (Hvis & Hthread & _ & Hdays).
    apply visibleMessage_spec in Hvis as (Hd & Hh & Hre).
    exists (fst r). repeat (split; [assumption|]). split.
    + intros Hne. destruct Hfrom as (_ & -> & _). now destruct Hthread.
    + intros Hpos. destruct Hdays; [lia | assumption].
  - intros Hc Hw. now apply (searchResults_no_context db opts rows s).
Qed.

(** X24.  [SearchMessages] refuses a blank query before it touches the
    database.  An error of the full-text statement that does not name a
    missing module or table is returned as it is, with no substring scan;
    and on a database that does not list the full-text table the full-text
    statement is never run: the search goes from the substring scan. *)
Theorem SearchMessages_errors (db : DB) (opts : SearchOptions) (s : Session) :
  let limit := if so_Limit opts <=? 0 then defaultLimit else so_Limit opts in
  (TrimSpace (so_Query opts) = "" ->
   SearchMessages' db opts s = (Err "search query is required", s))
  /\ (forall e,
        TrimSpace (so_Query opts) <> "" ->
        HasFTS db = Ok true ->
        fts_match db (so_Query opts) = Err e ->
        isFTSError (Some e) = false ->
        SearchMessages' db opts s = (Err e, s))
  /\ (TrimSpace (so_Query opts) <> "" ->
      HasFTS db = Ok false ->
      SearchMessages' db opts s =
        match searchQuery' db opts limit false with
        | Err e => (Err e, s)
        | Ok rows => searchResults' db opts rows s
        end).
Proof.
  intros limit. unfold SearchMessages. fold limit. split; [|split].
  - intros ->. reflexivity.
  - intros e Hq Hfts Hmatch Hnot. rewrite (eqb_empty_false _ Hq), Hfts.
    assert (Hrun : searchQuery' db opts limit true = Err e)
      by (unfold searchQuery; now rewrite Hmatch).
    rewrite Hrun, Hnot. reflexivity.
  - intros Hq Hfts. rewrite (eqb_empty_false _ Hq), Hfts.
    destruct (searchQuery' db opts limit false); reflexivity.
Qed.

End SearchFactsMore.

(** With a working full-text index the error of the full-text statement is
    not one the fallback recognises: the search fails with it. *)
Lemma SearchMessages_errors_witness :
  isFTSError (U := testTables) (Some "no such column: f") = false
  /\ SearchMessages (U := testTables) testUnmarshal testExtractText (fun _ => 0)
       testBridgeFiles testRange testDBFullText (testSearchOptions 1 GoTime.Hour)
       (mkSession None [])
     = (Err "no such column: f", mkSession None []).
Proof.
  split; [reflexivity|].
  apply (proj1 (proj2 (SearchMessages_errors (U := testTables) testUnmarshal
                         testExtractText (fun _ => 0) testBridgeFiles testRange
                         testDBFullText (testSearchOptions 1 GoTime.Hour)
                         (mkSession None []))));
    [vm_compute; discriminate | reflexivity | reflexivity | reflexivity].
Defined.

Lemma SearchMessages_results_witness :
  let opts := mkSearchOptions "christmas" "!room1:beeper.local" 30 5 "" 0 0 FormatPlain in
  exists results s',
    SearchMessages (U := testTables) testUnmarshal testExtractText (fun _ => 0)
      testBridgeFiles testRange testDB opts (mkSession None []) = (Ok results, s')
    /\ results <> []
    /\ Z.of_nat (length results) <= 5.
Proof.
  intros opts. eexists _, _. split; [reflexivity|]. split; [discriminate|].
  refine (proj1 (SearchMessages_results (U := testTables) testUnmarshal testExtractText
                   (fun _ => 0) testBridgeFiles testRange testDB opts
                   (mkSession None []) _ _ _)).
  reflexivity.
Defined.

Lemma ListThreads_results_witness :
  let run := ListThreads (U := testTables) noFloat testUnmarshalStrings (fun _ => 0)
      testBridgeFiles
               testRange testDB (testListOptions LabelArchive false true)
               (mkSession None []) in
  Z.of_nat (length (match fst run with Ok l => l | Err _ => [] end)) <= 50.
Proof.
  intros run.
  assert (H : run = (Ok (match fst run with Ok l => l | Err _ => [] end), snd run))
    by (vm_compute; reflexivity).
  exact (proj1 (ListThreads_results _ _ _ _ _ _ _ _ _ _ H)).
Defined.

Lemma ListThreads_suppression_witness :
  let run := ListThreads (U := testTables) noFloat testUnmarshalStrings (fun _ => 0)
      testBridgeFiles
               testRange testDB (testListOptions LabelAll true false)
               (mkSession None []) in
  Forall (fun t => TotalMessages t = 0 /\ LastMessage t = GoTime.zero
                   /\ LastOpen t = GoTime.zero)
         (match fst run with Ok l => l | Err _ => [] end).
Proof.
  intros run.
  assert (H : run = (Ok (match fst run with Ok l => l | Err _ => [] end), snd run))
    by (vm_compute; reflexivity).
  exact (proj1 (ListThreads_suppression _ _ _ _ _ _ _ _ _ _ H) eq_refl).
Defined.

(** ** Finding the database *)

Section ConfigFacts.

Variable stat : string -> StatResult.
Variable getenv : string -> string.
Variable userHomeDir : option string.
Variable joinPath : string -> string -> string.
Variable expandEnv : string -> string.
Variable glob : string -> option (list string).
Variable GOOS : string.

Local Abbreviation fileExists' := (fileExists stat).
Local Abbreviation expandPath' := (expandPath userHomeDir joinPath expandEnv).
Local Abbreviation defaultPaths' := (defaultPaths getenv joinPath GOOS).
Local Abbreviation globCandidates' :=
  (globCandidates userHomeDir joinPath expandEnv glob).
Local Abbreviation ResolveDBPath' :=
  (ResolveDBPath stat getenv userHomeDir joinPath expandEnv glob GOOS).

(** One loop of [ResolveDBPath] stops at the first candidate that exists and
    otherwise adds all its candidates, in order, to the paths tried. *)
Lemma firstExisting_spec (expand : string -> string) (paths tried : list string) :
  match firstExisting stat expand paths tried with
  | inl path =>
      exists before after,
        map expand paths = (before ++ path :: after)%list
        /\ fileExists' path = true
        /\ Forall (fun c => fileExists' c = false) before
  | inr tried' =>
      tried' = (tried ++ map expand paths)%list
      /\ Forall (fun c => fileExists' c = false) (map expand paths)
  end.
Proof.
  revert tried. induction paths as [|p paths IH]; intros tried; simpl.
  - rewrite app_nil_r. split; [reflexivity | constructor].
  - destruct (fileExists' (expand p)) eqn:E.
    + exists [], (map expand paths). repeat split; [exact E | constructor].
    + specialize (IH (tried ++ [expand p])%list).
      destruct (firstExisting stat expand paths _) as [path|tried'].
      * destruct IH as (before & after & Heq & Hex & Hno).
        exists (expand p :: before), after. rewrite Heq. repeat split; [exact Hex|].
        now constructor.
      * destruct IH as [-> Hno]. rewrite <- app_assoc. split; [reflexivity|].
        now constructor.
Qed.

Lemma firstExisting_exists (expand : string -> string) (paths tried : list string)
    (path : string) :
  firstExisting stat expand paths tried = inl path -> fileExists' path = true.
Proof.
  intros H. pose proof (firstExisting_spec expand paths tried) as Hspec.
  rewrite H in Hspec. now destruct Hspec as (_ & _ & _ & Hex & _).
Qed.

(** X25.  Without an explicit path [ResolveDBPath] tries, in this order, the
    path of [BEEPER_DB] when it is set, the default paths and the matches of
    the glob pattern.  It returns the first candidate that is an existing
    file that is not a directory; when there is none, the error lists every
    candidate, in that order. *)
Theorem ResolveDBPath_first_existing :
  let env := getenv "BEEPER_DB" in
  let candidates :=
    (map expandPath' ((if String.eqb env "" then [] else [env]) ++ defaultPaths')
     ++ globCandidates')%list in
  match ResolveDBPath stat getenv userHomeDir joinPath expandEnv glob GOOS "" with
  | Ok path =>
      exists before after,
        candidates = (before ++ path :: after)%list
        /\ fileExists stat path = true
        /\ Forall (fun c => fileExists stat c = false) before
  | Err e =>
      Forall (fun c => fileExists stat c = false) candidates
      /\ e = "could not find Beeper database; tried: " +:+ Join candidates ", "
  end.
Proof.
  intros env candidates. unfold ResolveDBPath.
  change (negb (String.eqb "" "")) with false. cbv iota. fold env.
  set (envs := if String.eqb env "" then [] else [env]) in *.
  pose proof (firstExisting_spec expandPath' envs []) as H1.
  destruct (firstExisting stat expandPath' envs []) as [path|tried1] eqn:E1.
  { destruct H1 as (before & after & Heq & Hex & Hno).
    exists before, (after ++ map expandPath' defaultPaths' ++ globCandidates')%list.
    subst candidates. rewrite map_app, Heq, <- !app_assoc. now repeat split. }
  destruct H1 as [-> H1]. cbn [app].
  pose proof (firstExisting_spec expandPath' defaultPaths' (map expandPath' envs)) as H2.
  destruct (firstExisting stat expandPath' defaultPaths' _) as [path|tried2] eqn:E2.
  { destruct H2 as (before & after & Heq & Hex & Hno).
    exists (map expandPath' envs ++ before)%list, (after ++ globCandidates')%list.
    subst candidates. rewrite map_app, Heq, <- !app_assoc. repeat split; [exact Hex|].
    apply Forall_app. now split. }
  destruct H2 as [-> H2].
  pose proof (firstExisting_spec (fun path => path) globCandidates'
                (map expandPath' envs ++ map expandPath' defaultPaths')%list) as H3.
  rewrite map_id in H3.
  destruct (firstExisting stat (fun path => path) globCandidates' _) as [path|tried3] eqn:E3.
  { destruct H3 as (before & after & Heq & Hex & Hno).
    exists (map expandPath' envs ++ map expandPath' defaultPaths' ++ before)%list, after.
    subst candidates. rewrite map_app, Heq, <- !app_assoc. repeat split; [exact Hex|].
    apply Forall_app. split; [exact H1|]. apply Forall_app. now split. }
  destruct H3 as [-> H3]. subst candidates. rewrite map_app. split; [|reflexivity].
  apply Forall_app. split; [|exact H3]. apply Forall_app. now split.
Qed.

(** X26.  A path [ResolveDBPath] returns is always an existing file that is
    not a directory; and an explicit path is decisive: the answer is that
    path, expanded, or an error that names it, whatever [BEEPER_DB], the
    default paths and the glob pattern would give. *)
Theorem ResolveDBPath_exists (explicit : string) :
  let resolved :=
    ResolveDBPath stat getenv userHomeDir joinPath expandEnv glob GOOS explicit in
  let expanded := expandPath userHomeDir joinPath expandEnv explicit in
  (forall path, resolved = Ok path ->
                fileExists stat path = true /\ path <> "" /\ stat path = StatFile)
  /\ (explicit <> "" ->
      resolved = if fileExists stat expanded then Ok expanded
                 else Err ("database not found at " +:+ expanded)).
Proof.
  intros resolved expanded. subst resolved expanded.
  assert (Hfile : forall path, fileExists' path = true -> path <> "" /\ stat path = StatFile).
  { intros path. unfold fileExists. destruct (String.eqb path "") eqn:E; [discriminate|].
    apply String.eqb_neq in E. now destruct (stat path). }
  split.
  - intros path Hres.
    assert (Hex : fileExists' path = true).
    { unfold ResolveDBPath in Hres.
      destruct (negb (String.eqb explicit "")).
      - destruct (fileExists' (expandPath' explicit)) eqn:Hex; [|discriminate].
        now injection Hres as <-.
      - destruct (firstExisting stat expandPath' _ []) as [p|tried1] eqn:E1.
        { injection Hres as <-. exact (firstExisting_exists _ _ _ _ E1). }
        destruct (firstExisting stat expandPath' defaultPaths' tried1) as [p|tried2] eqn:E2.
        { injection Hres as <-. exact (firstExisting_exists _ _ _ _ E2). }
        destruct (firstExisting stat _ globCandidates' tried2) as [p|tried3] eqn:E3;
          [|discriminate].
        injection Hres as <-. exact (firstExisting_exists _ _ _ _ E3). }
    split; [exact Hex|]. now apply Hfile.
  - intros Hne. unfold ResolveDBPath. now rewrite (proj2 (String.eqb_neq _ _) Hne).
Qed.

End ConfigFacts.

(** ** Flags of the command line *)

Section CliFacts.

Context {U : UnicodeTables}.

Variable quote : string -> string.
Variable parseRFC3339 : string -> option GoTime.Time.
Variable daysAgo : Z -> GoTime.Time.

Local Abbreviation parseMessageFormat' := (parseMessageFormat quote).
Local Abbreviation parseTimePtr' := (parseTimePtr quote parseRFC3339).
Local Abbreviation parseTimeFlag' := (parseTimeFlag quote parseRFC3339 daysAgo).

(** X27.  A format [parseMessageFormat] accepts is one of the two formats
    of the package, and it is accepted again and stands for itself; blanks
    around the value do not change the format found. *)
Theorem parseMessageFormat_round_trip (value : string) (format : MessageFormat) :
  parseMessageFormat' value = Ok format ->
  (format = FormatRich \/ format = FormatPlain)
  /\ parseMessageFormat' format = Ok format
  /\ parseMessageFormat' (TrimSpace value) = Ok format.
Proof.
  intros H.
  assert (Htrim : parseMessageFormat' (TrimSpace value) = Ok format).
  { revert H. unfold parseMessageFormat. rewrite TrimSpace_idem.
    destruct (String.eqb (ToLower (TrimSpace value)) "" || _); [exact id|].
    destruct (String.eqb (ToLower (TrimSpace value)) FormatPlain); [exact id | discriminate]. }
  split; [|split; [|exact Htrim]]; revert H; unfold parseMessageFormat;
    destruct (String.eqb (ToLower (TrimSpace value)) "" || _);
    try (intros [= <-]; first [now left | reflexivity]);
    destruct (String.eqb (ToLower (TrimSpace value)) FormatPlain);
    try discriminate; intros [= <-]; first [now right | reflexivity].
Qed.

(** X28.  For the lower time bound of a listing an explicit timestamp
    decides and the day count is then ignored; there is no bound exactly
    when the timestamp is blank and the day count is not positive; and the
    only error is a timestamp that is not blank and not RFC 3339. *)
Theorem parseTimeFlag_spec (value : string) (days : Z) :
  (TrimSpace value <> "" ->
   forall days', parseTimeFlag' value days = parseTimeFlag' value days')
  /\ (parseTimeFlag' value days = Ok None <-> TrimSpace value = "" /\ days <= 0)
  /\ (forall t, parseTimeFlag' value days = Ok (Some t) <->
                (TrimSpace value <> "" /\ parseRFC3339 (TrimSpace value) = Some t)
                \/ (TrimSpace value = "" /\ 0 < days /\ t = daysAgo days))
  /\ (forall e, parseTimeFlag' value days = Err e ->
                TrimSpace value <> "" /\ parseRFC3339 (TrimSpace value) = None
                /\ parseTimePtr' value = Err e).
Proof.
  unfold parseTimeFlag, parseTimePtr.
  destruct (String.eqb (TrimSpace value) "") eqn:E; simpl.
  - apply String.eqb_eq in E. rewrite E. split; [now intros []|].
    destruct (Z.ltb_spec 0 days); (split; [|split]).
    + split; [discriminate | lia].
    + intros t. split.
      * intros [= <-]. right. now repeat split.
      * intros [[[] _]|(_ & _ & ->)]; reflexivity.
    + discriminate.
    + split; [intros _; split; [reflexivity | lia] | reflexivity].
    + intros t. split; [discriminate|]. intros [[[] _]|(_ & Hd & _)]; [reflexivity | lia].
    + discriminate.
  - apply String.eqb_neq in E. split; [reflexivity|].
    destruct (parseRFC3339 (TrimSpace value)) as [parsed|]; (split; [|split]).
    + split; [discriminate | tauto].
    + intros t. split.
      * intros [= <-]. left. now split.
      * intros [[_ [= <-]]|[Hb _]]; [reflexivity | contradiction].
    + discriminate.
    + split; [discriminate | tauto].
    + intros t. split; [discriminate|]. intros [[_ Hp]|[Hb _]]; [discriminate | contradiction].
    + intros e He. now repeat split.
Qed.

End CliFacts.

Lemma parseMessageFormat_round_trip_witness :
  parseMessageFormat (U := testTables) (fun s => s) "  PLAIN " = Ok FormatPlain
  /\ parseMessageFormat (U := testTables) (fun s => s) FormatPlain = Ok FormatPlain.
Proof.
  split; [reflexivity|].
  exact (proj1 (proj2 (parseMessageFormat_round_trip (fun s => s) "  PLAIN " FormatPlain
                         eq_refl))).
Defined.

(** ** Listing and showing a thread *)

Section ThreadAgreement.

Context {U : UnicodeTables}.

Variable parseFloatInt64 : string -> option Z.
Variable jsonUnmarshalStrings : string -> option (list string).
Variable cutoffMillis : Z -> Z.
Variable bridgeFiles : gmap string BridgeDB.
Variable rangeValues : gmap string string -> list string.

Local Abbreviation ListThreads' :=
  (ListThreads parseFloatInt64 jsonUnmarshalStrings cutoffMillis bridgeFiles rangeValues).
Local Abbreviation GetThread' :=
  (GetThread parseFloatInt64 jsonUnmarshalStrings bridgeFiles rangeValues).

(** With ids that are unique, as a primary key is, the statement of
    [GetThread] finds the row of the id. *)
Lemma find_thread_row (db : DB) (rows : list ThreadRow) (row : ThreadRow) :
  NoDup (map t_threadID rows) -> In row rows ->
  List.find (fun r => String.eqb (t_threadID (q_thread r)) (t_threadID row))
    (map (threadQueryRow db) rows)
  = Some (threadQueryRow db row).
Proof.
  induction rows as [|x rows IH]; intros Hnd Hin; [destruct Hin|].
  simpl in Hnd. apply NoDup_cons in Hnd as [Hx Hnd]. simpl.
  destruct (String.eqb (t_threadID x) (t_threadID row)) eqn:E.
  - destruct Hin as [->|Hin]; [reflexivity|].
    apply String.eqb_eq in E. destruct Hx. rewrite E.
    apply list_elem_of_fmap. exists row. split; [reflexivity | now apply list_elem_of_In].
  - destruct Hin as [->|Hin]; [now rewrite String.eqb_refl in E | now apply IH].
Qed.

(** A successful participants query on a room with a non-empty id shows
    that the statement does not fail. *)
Lemma participantsByRoom_ran (db : DB) (ids : list string)
    (byRoom : gmap string (list Participant)) (id : string) :
  participantsByRoom db ids = Ok byRoom -> id ∈ ids -> id <> "" ->
  fault db QParticipants = None.
Proof.
  intros H Hin Hne. unfold participantsByRoom in H.
  pose proof (proj2 (uniqueStrings_elem ids id) (conj Hin Hne)) as Hu.
  destruct (uniqueStrings ids) as [|x l]; [now apply elem_of_nil in Hu|].
  unfold runQuery in H. now destruct (fault db QParticipants).
Qed.

(** X29.  [GetThread] agrees with [ListThreads]: on a database whose thread
    ids are unique, and whose statement for one thread does not fail, every
    listed thread can be fetched by its id, from any session, and has there
    the same fields as in the list, display name and participants apart. *)
Theorem GetThread_agrees_with_ListThreads (db : DB) (opts : ThreadListOptions)
    (s s1 s' : Session) (out : list Thread) (t : Thread) :
  ListThreads' db opts s = (Ok out, s1) ->
  t ∈ out ->
  NoDup (map t_threadID (threads db)) ->
  fault db QGetThread = None ->
  exists t' s2,
    GetThread' db (ID t) (tl_WithStats opts) s' = (Ok t', s2)
    /\ storedFields t' = storedFields t.
Proof.
  intros Hrun Ht Hnd Hfault. unfold ListThreads in Hrun.
  set (limit := if tl_Limit opts <=? 0 then defaultLimit else tl_Limit opts) in Hrun.
  set (label := if String.eqb (tl_Label opts) "" then LabelAll else tl_Label opts) in Hrun.
  destruct (listThreadsQuery cutoffMillis db opts limit) as [rows0|e] eqn:Hq; [|discriminate].
  destruct (listThreadsQuery_sorted _ _ _ _ _ Hq) as (_ & Hin & _).
  destruct (participantsByRoom db _) as [byRoom|e] eqn:Hps; [|discriminate].
  unfold bind, ret in Hrun.
  match type of Hrun with context [forM ?f ?l s] =>
    pose proof (forM_Forall2 f l s) as Hloop; destruct (forM f l s) as [ts s0] end.
  injection Hrun as <- <-. simpl in Hloop.
  destruct (omap_kept (listThreadsRow parseFloatInt64 jsonUnmarshalStrings opts label) rows0)
    as (kept & Hsub & Hkept).
  apply list_elem_of_lookup in Ht as [i Hi].
  destruct (Forall2_lookup_r _ _ _ _ _ Hloop Hi) as (t0 & Ht0 & s3 & ->).
  destruct (Forall2_lookup_r _ _ _ _ _ Hkept Ht0) as (r & Hr & Hrow).
  assert (Hrin : r ∈ rows0).
  { eapply elem_of_sublist; [|exact Hsub]. eapply list_elem_of_lookup_2. exact Hr. }
  apply Hin, list_elem_of_fmap in Hrin as (row & -> & Hmem).
  unfold bind, ret. simpl.
  destruct (displayName bridgeFiles rangeValues t0 _ s3) as [name s4]. simpl.
  assert (Hid : ID t0 = t_threadID row).
  { unfold listThreadsRow in Hrow. destruct (shouldIncludeThread _ _ _ _); [|discriminate].
    injection Hrow as <-. destruct (tl_WithStats opts); [|reflexivity].
    now destruct (q_totalMessages (threadQueryRow db row)). }
  rewrite Hid. unfold GetThread, runQuery. rewrite Hfault.
  rewrite (find_thread_row db _ row Hnd) by now apply list_elem_of_In.
  destruct (participantsByRoom db [t_threadID row]) as [byRoom'|e] eqn:Hps'.
  2:{ destruct (decide (t_threadID row = "")) as [He|He].
      - rewrite He in Hps'. discriminate Hps'.
      - apply participantsByRoom_error in Hps'.
        rewrite (participantsByRoom_ran db _ byRoom (t_threadID row) Hps) in Hps';
          [discriminate| |exact He].
        rewrite <- Hid. apply list_elem_of_fmap. exists t0. split; [reflexivity|].
        eapply list_elem_of_lookup_2. exact Ht0. }
  unfold bind, ret.
  destruct (displayName bridgeFiles rangeValues _ _ s') as [name' s5].
  eexists _, _. split; [reflexivity|].
  unfold listThreadsRow in Hrow. destruct (shouldIncludeThread _ _ _ _); [|discriminate].
  injection Hrow as <-.
  destruct (tl_WithStats opts); reflexivity.
Qed.

End ThreadAgreement.

Lemma GetThread_agrees_with_ListThreads_witness :
  let run := ListThreads (U := testTables) noFloat testUnmarshalStrings (fun _ => 0)
      testBridgeFiles
               testRange testDB (testListOptions LabelInbox false true)
               (mkSession None []) in
  let out := match fst run with Ok l => l | Err _ => [] end in
  let t := hd emptyThread out in
  exists t' s2,
    GetThread (U := testTables) noFloat testUnmarshalStrings testBridgeFiles testRange testDB
        (ID t) true
      testSession = (Ok t', s2)
    /\ storedFields t' = storedFields t.
Proof.
  intros run out t.
  apply (GetThread_agrees_with_ListThreads noFloat testUnmarshalStrings (fun _ => 0)
           testBridgeFiles testRange testDB (testListOptions LabelInbox false true)
           (mkSession None []) (snd run) testSession out t).
  - vm_compute. reflexivity.
  - apply list_elem_of_In. vm_compute. left. reflexivity.
  - apply (bool_decide_unpack _). vm_compute. exact I.
  - reflexivity.
Defined.

(** ** Sender names *)

Lemma indexParticipants_fold (ps : list Participant) (acc : gmap string Participant)
    (id : string) :
  fold_left (fun (index : gmap string Participant) p => <[p_ID p := p]> index) ps acc !! id
  = match lastWithID ps id with
    | Some p => Some p
    | None => acc !! id
    end.
Proof.
  unfold lastWithID. revert acc. induction ps as [|p ps IH]; intros acc; simpl; [reflexivity|].
  rewrite IH. destruct (String.eqb (p_ID p) id) eqn:E.
  - rewrite last_cons. apply String.eqb_eq in E.
    destruct (last _); [reflexivity|]. now rewrite <- E, lookup_insert_eq.
  - apply String.eqb_neq in E. destruct (last _); [reflexivity|].
    now rewrite lookup_insert_ne.
Qed.

(** In the index of [indexParticipants] an id stands for the last
    participant of the list that has it. *)
Lemma indexParticipants_lookup (ps : list Participant) (id : string) :
  indexParticipants ps !! id = lastWithID ps id.
Proof.
  unfold indexParticipants. rewrite indexParticipants_fold, lookup_empty.
  now destruct (lastWithID ps id).
Qed.

Section SenderFacts.

Context {U : UnicodeTables}.

Variable jsonUnmarshal : string -> option JSON.
Variable listMessagesFault : option error.

Local Abbreviation ListMessages' := (ListMessages jsonUnmarshal listMessagesFault).

(** X30.  Every message [ListMessages] returns carries as sender name the
    name of the participant of the thread that has the sender's id, the last
    one in the table when several have it, and no name when none has. *)
Theorem ListMessages_sender_names (db : DB) (opts : MessageListOptions)
    (out : list Message) :
  ListMessages' db opts = Ok out ->
  let ps := map participantOfRow
              (List.filter (fun r => String.eqb (pr_room_id r) (ml_ThreadID opts))
                 (participants db)) in
  Forall (fun m => Message.SenderName m
                   = match lastWithID ps (Message.SenderID m) with
                     | Some p => p_Name p
                     | None => ""
                     end) out.
Proof.
  intros H ps. unfold ListMessages in H.
  destruct (String.eqb (ml_ThreadID opts) "") eqn:E; [discriminate|].
  apply String.eqb_neq in E.
  destruct (listMessagesQuery _ _ _ _) as [rows|e]; [|discriminate]. simpl in H.
  destruct (participantsByRoom db [ml_ThreadID opts]) as [byRoom|e] eqn:Hps; [|discriminate].
  simpl in H. injection H as <-.
  destruct (participantsByRoom_lookup db [ml_ThreadID opts] byRoom (ml_ThreadID opts) Hps)
    as [Hgroup _].
  destruct Hgroup as [Hgroup _]; [apply elem_of_cons; now left | exact E |].
  rewrite Hgroup. fold ps. rewrite map_map. apply Forall_fmap, Forall_forall.
  intros r _. simpl. unfold senderNameOf. rewrite indexParticipants_lookup.
  now destruct (lastWithID ps (m_senderContactID r)).
Qed.

End SenderFacts.

Lemma ListMessages_sender_names_witness :
  let opts := mkMessageListOptions "!room1:beeper.local" 0 None None FormatPlain in
  let run := ListMessages (U := testTables) testUnmarshal None testDB opts in
  Forall (fun m => Message.SenderName m
                   = match lastWithID
                             (map participantOfRow
                                (List.filter
                                   (fun r => String.eqb (pr_room_id r) "!room1:beeper.local")
                                   (participants testDB)))
                             (Message.SenderID m) with
                     | Some p => p_Name p
                     | None => ""
                     end)
         (match run with Ok l => l | Err _ => [] end).
Proof.
  intros opts run.
  assert (H : run = Ok (match run with Ok l => l | Err _ => [] end))
    by (vm_compute; reflexivity).
  exact (ListMessages_sender_names testUnmarshal None testDB opts _ H).
Defined.

